(** * Multi-agent stock screening: symbol validation, task agents,
      coordinator merge, progress accounting and response formatting.

    A shallow embedding of [app/services/market_data.py],
    [app/services/sentiment.py], [app/utils/error_handling.py] and
    [app/agents.py].  Python [str] values are modelled over the ASCII
    character set as lists of [ascii]; Python [float] values are IEEE
    binary64 numbers ([PrimFloat.float]); Python [int] values are [Z].
    Mutable Python objects live in an explicit heap, so that two names
    for one list are two copies of one location. *)

From Stdlib Require Import Ascii String ZArith Floats Lia.
From stdpp Require Import base option list strings pretty gmap.

Local Open Scope Z_scope.

(* Decimal literals denote the nearest binary64 number, as in Python. *)
#[local] Set Warnings "-inexact-float".

(** ** Exceptions *)

Inductive exn_kind :=
  | StockDataError | APITimeoutError | APIRateLimitError | DataNotFoundError
  | InvalidSymbolError | ServiceUnavailableError
  | ConnectionError | AsyncTimeoutError | RetryError
  | KeyError | TypeError | AttributeError | ValidationError | OtherException.

(** An exception object: its class and [str(e)]. *)
Record exn := Exn { exn_class : exn_kind; exn_str : string }.

(** [isinstance(e, StockDataError)]: the typed errors of
    [error_handling.py] all derive from [StockDataError]. *)
Definition is_stock_data_error (k : exn_kind) : bool :=
  match k with
  | StockDataError | APITimeoutError | APIRateLimitError | DataNotFoundError
  | InvalidSymbolError | ServiceUnavailableError => true
  | _ => false
  end.

(** The outcome of a call: an exception raised, or a value returned. *)
Definition result (A : Type) : Type := exn + A.

(** ** Strings *)

Abbreviation pystr := (list ascii).

Definition code (c : ascii) : nat := nat_of_ascii c.

Definition is_ascii (c : ascii) : bool := bool_decide (code c < 128)%nat.

(** [str.isspace] on ASCII: TAB..CR, FS..US and the space. *)
Definition is_space (c : ascii) : bool :=
  (bool_decide (9 ≤ code c)%nat && bool_decide (code c ≤ 13)%nat)
  || (bool_decide (28 ≤ code c)%nat && bool_decide (code c ≤ 32)%nat).

Definition is_lower_letter (c : ascii) : bool :=
  bool_decide (97 ≤ code c)%nat && bool_decide (code c ≤ 122)%nat.

(** The character class [A-Z]. *)
Definition is_upper_letter (c : ascii) : bool :=
  bool_decide (65 ≤ code c)%nat && bool_decide (code c ≤ 90)%nat.

Definition is_digit (c : ascii) : bool :=
  bool_decide (48 ≤ code c)%nat && bool_decide (code c ≤ 57)%nat.

Definition upper_char (c : ascii) : ascii :=
  if is_lower_letter c then ascii_of_nat (code c - 32) else c.

Definition lower_char (c : ascii) : ascii :=
  if is_upper_letter c then ascii_of_nat (code c + 32) else c.

(** [s.upper()], [s.lower()] *)
Definition upper (s : pystr) : pystr := upper_char <$> s.
Definition lower (s : pystr) : pystr := lower_char <$> s.

Fixpoint lstrip (s : pystr) : pystr :=
  match s with
  | c :: s' => if is_space c then lstrip s' else s
  | [] => []
  end.

(** [s.strip()] *)
Definition strip (s : pystr) : pystr := reverse (lstrip (reverse (lstrip s))).

(** [s.startswith(p)] *)
Fixpoint startswith (p s : pystr) : bool :=
  match p, s with
  | [], _ => true
  | a :: p', b :: s' => bool_decide (a = b) && startswith p' s'
  | _ :: _, [] => false
  end.

(** [s.endswith(p)] *)
Definition endswith (p s : pystr) : bool := startswith (reverse p) (reverse s).

(** [sub in s] *)
Fixpoint contains (sub s : pystr) : bool :=
  startswith sub s ||
  match s with
  | [] => false
  | _ :: s' => contains sub s'
  end.

Definition str (s : string) : pystr := list_ascii_of_string s.
Definition of_pystr (s : pystr) : string := string_of_list_ascii s.

Definition dot : ascii := "."%char.
Definition newline : ascii := ascii_of_nat 10.

(** The character class [[A-Z\.]]. *)
Definition letter_or_dot (c : ascii) : bool := is_upper_letter c || bool_decide (c = dot).

(** [re.match(r'^[A-Z\.]+$', s)]: a non-empty run of the class, then the
    end of the string; [$] also matches just before one final newline. *)
Fixpoint run_then_end (s : pystr) : bool :=
  match s with
  | [] => true
  | c :: s' =>
      if letter_or_dot c then run_then_end s'
      else bool_decide (c = newline) && bool_decide (s' = [])
  end.

Definition re_match_letters_dots (s : pystr) : bool :=
  match s with
  | c :: s' => letter_or_dot c && run_then_end s'
  | [] => false
  end.

(** ** Schemas ([schemas.py]) *)

Inductive SentimentScore :=
  | VERY_POSITIVE | POSITIVE | NEUTRAL | NEGATIVE | VERY_NEGATIVE.

(** [datetime] values are kept as their ISO text. *)
Definition datetime := string.

Record SentimentItem := {
  si_source : string;
  si_title : string;
  si_polarity : float;
  si_sentiment_score : SentimentScore;
  si_published_at : option datetime;
  si_url : option string
}.

Record AnalystRating := {
  ar_firm : string;
  ar_rating : string;
  ar_price_target : option float;
  ar_date : option datetime
}.

Record EarningsData := {
  ed_eps_estimate : option float;
  ed_eps_actual : option float;
  ed_revenue_estimate : option float;
  ed_revenue_actual : option float;
  ed_quarter : option string;
  ed_year : option Z
}.

Record FinancialMetrics := {
  market_cap : option float;
  pe_ratio : option float;
  peg_ratio : option float;
  price_to_book : option float;
  price_to_sales : option float;
  revenue_ttm : option float;
  gross_margin : option float;
  operating_margin : option float;
  profit_margin : option float;
  return_on_equity : option float;
  return_on_assets : option float;
  debt_to_equity : option float;
  current_ratio : option float;
  quick_ratio : option float;
  dividend_yield : option float;
  beta : option float;
  fifty_two_week_high : option float;
  fifty_two_week_low : option float
}.

(** [FinancialMetrics()] *)
Definition empty_metrics : FinancialMetrics :=
  {| market_cap := None; pe_ratio := None; peg_ratio := None;
     price_to_book := None; price_to_sales := None; revenue_ttm := None;
     gross_margin := None; operating_margin := None; profit_margin := None;
     return_on_equity := None; return_on_assets := None;
     debt_to_equity := None; current_ratio := None; quick_ratio := None;
     dividend_yield := None; beta := None;
     fifty_two_week_high := None; fifty_two_week_low := None |}.

Record SentimentSummary := {
  overall_score : SentimentScore;
  confidence : float;
  positive_count : Z;
  negative_count : Z;
  neutral_count : Z;
  summary_text : string
}.

(** The price payload: the dict built by the price adapters, a key being
    absent ([None] here) or holding a value of the adapter's type. *)
Record PriceData := {
  pd_price : option float;
  pd_change : option float;
  pd_change_percent : option float;
  pd_volume : option Z;
  pd_currency : option string;
  pd_source : option string
}.

(** [StockResponse], without [last_updated] (the wall clock). *)
Record StockResponse := {
  r_symbol : string;
  r_company_name : option string;
  r_price : option float;
  r_currency : string;
  r_change : option float;
  r_change_percent : option float;
  r_volume : option Z;
  r_financial_metrics : FinancialMetrics;
  r_analyst_ratings : list AnalystRating;
  r_consensus_rating : option string;
  r_average_price_target : option float;
  r_earnings_data : list EarningsData;
  r_next_earnings_date : option datetime;
  r_sentiment_items : list SentimentItem;
  r_sentiment_summary : SentimentSummary;
  r_data_sources : list string
}.

(** ** Python values and the heap *)

Abbreviation loc := nat.

(** What a key of the analysis state can hold.  The payloads are never
    updated in place by the program and are kept as values; the
    bookkeeping lists and dicts are updated in place and are references. *)
Inductive value :=
  | VNone
  | VBool (b : bool)
  | VInt (n : Z)
  | VStr (s : string)
  | VPrice (p : PriceData)
  | VMetrics (m : FinancialMetrics)
  | VRatings (l : list AnalystRating)
  | VEarnings (l : list EarningsData)
  | VItems (l : list SentimentItem)
  | VSummary (s : SentimentSummary)
  | VRef (l : loc).

(** A heap object: a list of [str], or a dict with [str] keys. *)
Inductive obj :=
  | OList (xs : list string)
  | ODict (d : gmap string value).

Abbreviation heap := (list obj).

(** ** Computations: a heap threaded through, and exceptions.  The heap
    an exception leaves behind is kept: Python undoes nothing. *)

Definition M (A : Type) : Type := heap → result A * heap.

#[export] Instance M_ret : MRet M := λ A a h, (inr a, h).

#[export] Instance M_bind : MBind M := λ A B f m h,
  match m h with
  | (inl e, h') => (inl e, h')
  | (inr a, h') => f a h'
  end.

Definition raise {A} (k : exn_kind) (msg : string) : M A :=
  λ h, (inl (Exn k msg), h).

(** [try: body except Exception as e: handler e] *)
Definition try_except {A} (body : M A) (handler : exn → M A) : M A :=
  λ h, match body h with
       | (inl e, h') => handler e h'
       | (inr a, h') => (inr a, h')
       end.

(** The outcome of an awaited service call. *)
Definition await {A} (r : result A) : M A := λ h, (r, h).

Definition alloc (o : obj) : M loc := λ h, (inr (length h), h ++ [o]).

(** No program below builds a reference that does not resolve; the
    statements are about heaps where every reference does. *)
Definition load (l : loc) : M obj := λ h,
  match h !! l with
  | Some o => (inr o, h)
  | None => (inl (Exn OtherException "dangling reference"), h)
  end.

Definition store (l : loc) (o : obj) : M unit := λ h, (inr (), <[l := o]> h).

(** Outside the declared types of [GraphState] the model raises
    [TypeError] where CPython raises some exception of its own. *)
Definition load_dict (l : loc) : M (gmap string value) :=
  o ← load l;
  match o with
  | ODict d => mret d
  | OList _ => raise TypeError "not a dict"
  end.

Definition load_list (l : loc) : M (list string) :=
  o ← load l;
  match o with
  | OList xs => mret xs
  | ODict _ => raise TypeError "not a list"
  end.

(** [d[k]] *)
Definition getitem (d : loc) (k : string) : M value :=
  m ← load_dict d;
  match m !! k with
  | Some v => mret v
  | None => raise KeyError k
  end.

(** [d.get(k)] *)
Definition dict_get (d : loc) (k : string) : M value :=
  m ← load_dict d; mret (default VNone (m !! k)).

(** [d.get(k)] where a missing key is told apart (for [d.get(k, dflt)]) *)
Definition dict_lookup (d : loc) (k : string) : M (option value) :=
  m ← load_dict d; mret (m !! k).

(** [d[k] = v] *)
Definition setitem (d : loc) (k : string) (v : value) : M unit :=
  m ← load_dict d; store d (ODict (<[k := v]> m)).

(** [d.update({k1: v1, ...})] *)
Fixpoint update_all (kvs : list (string * value)) (m : gmap string value) : gmap string value :=
  match kvs with
  | [] => m
  | (k, v) :: kvs' => update_all kvs' (<[k := v]> m)
  end.

Definition update (d : loc) (kvs : list (string * value)) : M unit :=
  m ← load_dict d; store d (ODict (update_all kvs m)).

(** [d.copy()]: a new dict with the same bindings (a shallow copy). *)
Definition dict_copy (d : loc) : M loc :=
  m ← load_dict d; alloc (ODict m).

(** The list behind a value that must be a list of [str]. *)
Definition list_ref (v : value) : M loc :=
  match v with
  | VRef l => _ ← load_list l; mret l
  | _ => raise TypeError "not a list"
  end.

(** [d.get(k, [])]: the list stored under [k], or a new empty list. *)
Definition get_list (d : loc) (k : string) : M loc :=
  o ← dict_lookup d k;
  match o with
  | Some v => list_ref v
  | None => alloc (OList [])
  end.

(** [d.get(k, []).copy()] *)
Definition get_list_copy (d : loc) (k : string) : M loc :=
  o ← dict_lookup d k;
  match o with
  | Some v => l ← list_ref v; xs ← load_list l; alloc (OList xs)
  | None => alloc (OList [])
  end.

(** [l.append(x)] *)
Definition append (l : loc) (x : string) : M unit :=
  xs ← load_list l; store l (OList (xs ++ [x])).

(** [l.extend(ys)] *)
Definition extend (l : loc) (ys : list string) : M unit :=
  xs ← load_list l; store l (OList (xs ++ ys)).

(** [x in l] *)
Definition list_mem (x : string) (l : loc) : M bool :=
  xs ← load_list l; mret (bool_decide (x ∈ xs)).

(** ** Settings ([config.py]): the values the modelled code reads. *)

Record Settings := {
  max_retries : nat;
  max_news_articles : nat;
  use_openai_sentiment : bool
}.

Definition default_settings : Settings :=
  {| max_retries := 3; max_news_articles := 20; use_openai_sentiment := true |}.

(** ** [error_handling.py] *)

(** [handle_api_errors]: what the wrapper of [func] (named [name]) makes
    of the outcome of [func]. *)
Definition handle_api_errors {A} (name : string) (r : result A) : result A :=
  match r with
  | inr a => inr a
  | inl e =>
      match exn_class e with
      | AsyncTimeoutError => inl (Exn APITimeoutError ("Request timed out: " +:+ name))
      | ConnectionError => inl (Exn ServiceUnavailableError ("Service unavailable: " +:+ name))
      | _ => inl (Exn StockDataError ("Error in " +:+ name +:+ ": " +:+ exn_str e))
      end
  end.

(** The default [retry_exceptions] of [create_retry_decorator]. *)
Definition retryable (k : exn_kind) : bool :=
  match k with
  | APITimeoutError | ServiceUnavailableError | ConnectionError | AsyncTimeoutError => true
  | _ => false
  end.

(** [create_retry_decorator()]: [attempt i] is the outcome of the [i]-th
    call of the wrapped function.  The function is always called once; a
    call is repeated only after a retryable exception and while fewer
    than [max_attempts] calls were made, after which tenacity raises
    its [RetryError]. *)
Fixpoint retry_loop {A} (retries i : nat) (attempt : nat → result A) : result A :=
  match attempt i with
  | inr a => inr a
  | inl e =>
      if retryable (exn_class e) then
        match retries with
        | O => inl (Exn RetryError "RetryError")
        | S retries' => retry_loop retries' (S i) attempt
        end
      else inl e
  end.

Definition create_retry_decorator {A} (cfg : Settings) (attempt : nat → result A) : result A :=
  retry_loop (max_retries cfg - 1) 0 attempt.

(** [FallbackManager.execute_with_fallback]: the sources are given by
    the outcome of calling each one. *)
Fixpoint try_fallbacks {A} (i : nat) (fallbacks : list (result (option A)))
    (errors : list string) : list string + A :=
  match fallbacks with
  | [] => inl errors
  | f :: fs =>
      match f with
      | inr (Some r) => inr r
      | inr None => try_fallbacks (S i) fs errors
      | inl e =>
          try_fallbacks (S i) fs
            (errors ++ ["Fallback " +:+ pretty (S i) +:+ " failed: " +:+ exn_str e])
      end
  end.

(** ["; ".join(errors)] *)
Fixpoint join (sep : string) (xs : list string) : string :=
  match xs with
  | [] => ""
  | [x] => x
  | x :: xs' => x +:+ sep +:+ join sep xs'
  end.

Definition execute_with_fallback {A} (data_type : string)
    (primary : result (option A)) (fallbacks : list (result (option A))) : result A :=
  let errors :=
    match primary with
    | inr (Some r) => inr r
    | inr None => inl []
    | inl e => inl ["Primary source failed: " +:+ exn_str e]
    end in
  match errors with
  | inr r => inr r
  | inl errors =>
      match try_fallbacks 0 fallbacks errors with
      | inr r => inr r
      | inl errors =>
          inl (Exn StockDataError
                 ("All data sources failed for " +:+ data_type +:+ ": " +:+ join "; " errors))
      end
  end.

(** ** [services/market_data.py] *)

Definition invalid_symbol {A} (msg : string) : result A :=
  inl (Exn InvalidSymbolError msg).

Definition validate_stock_symbol (symbol : value) : result bool :=
  match symbol with
  | VStr s =>
      if bool_decide (s = "") then
        invalid_symbol "Symbol must be a non-empty string"
      else
        let symbol := upper (strip (str s)) in
        if bool_decide (length symbol < 1)%nat || bool_decide (5 < length symbol)%nat then
          invalid_symbol ("Invalid symbol '" +:+ of_pystr symbol
                          +:+ "': Stock symbols must be 1-5 characters long")
        else if negb (re_match_letters_dots symbol) then
          invalid_symbol ("Invalid symbol '" +:+ of_pystr symbol
                          +:+ "': Stock symbols can only contain letters and dots")
        else if startswith [dot] symbol || endswith [dot] symbol then
          invalid_symbol ("Invalid symbol '" +:+ of_pystr symbol
                          +:+ "': Cannot start or end with a dot")
        else if contains [dot; dot] symbol then
          invalid_symbol ("Invalid symbol '" +:+ of_pystr symbol
                          +:+ "': Cannot contain consecutive dots")
        else inr true
  | _ => invalid_symbol "Symbol must be a non-empty string"
  end.

(** [f"{symbol}"] *)
Definition format_value (v : value) : string :=
  match v with
  | VStr s => s
  | _ => "<object>"
  end.

(** What a call into the yfinance library gives: an exception of that
    library (its text; never one of this program's error classes), or
    a value. *)
Definition reply (A : Type) : Type := string + A.

(** The yfinance collaborator.  [ticker.info]: the entries the code
    reads, a missing or null entry being [None]; [ti_len] is
    [len(info)]. *)
Record TickerInfo := {
  ti_len : nat;
  ti_longName : option string;
  ti_shortName : option string;
  ti_marketCap : option float;
  ti_trailingPE : option float;
  ti_forwardPE : option float;
  ti_priceToBook : option float;
  ti_dividendYield : option float;
  ti_beta : option float;
  ti_totalRevenue : option float;
  ti_profitMargins : option float
}.

(** [ticker.fast_info]: each attribute read raises, is missing
    ([inr None]) or gives a number. *)
Record FastInfo := {
  fi_market_cap : reply (option float);
  fi_shares : reply (option float)
}.

(** A [yf.Ticker]: each of its three lazy reads raises or answers.
    [history] answers with an empty frame ([None]) or with
    [(High.max(), Low.min())]; [info] answers with something that is not
    a dict ([None]) or with a dict; [fast_info] likewise. *)
Record Ticker := {
  tk_history : reply (option (float * float));
  tk_info : reply (option TickerInfo);
  tk_fast_info : reply (option FastInfo)
}.

(** Truth value of an optional number ([None] and zero are false). *)
Definition truthy_num (x : option float) : bool :=
  match x with
  | Some v => negb (PrimFloat.eqb v 0)
  | None => false
  end.

Definition truthy_str (x : option string) : bool :=
  match x with
  | Some s => negb (bool_decide (s = ""))
  | None => false
  end.

(** [a or b] *)
Definition or_num (a b : option float) : option float := if truthy_num a then a else b.
Definition or_str (a b : option string) : option string := if truthy_str a then a else b.

(** A dict of collected metrics, in insertion order. *)
Definition metrics_dict := list (string * option float).

Definition md_get (k : string) (d : metrics_dict) : option float :=
  match list_find (λ kv, kv.1 = k) d with
  | Some (_, (_, v)) => v
  | None => None
  end.

(** [d[k] = v] on a dict kept in insertion order *)
Fixpoint md_set (k : string) (v : option float) (d : metrics_dict) : metrics_dict :=
  match d with
  | [] => [(k, v)]
  | (k', v') :: d' => if bool_decide (k' = k) then (k, v) :: d' else (k', v') :: md_set k v d'
  end.

(** [{**a, **b}] *)
Definition md_merge (a b : metrics_dict) : metrics_dict :=
  foldl (λ acc kv, md_set kv.1 kv.2 acc) a b.

(** [FinancialMetrics] built from the keyword arguments [d]: keys that
    are not fields are ignored. *)
Definition metrics_of_dict (d : metrics_dict) : FinancialMetrics :=
  {| market_cap := md_get "market_cap" d;
     pe_ratio := md_get "pe_ratio" d;
     peg_ratio := md_get "peg_ratio" d;
     price_to_book := md_get "price_to_book" d;
     price_to_sales := md_get "price_to_sales" d;
     revenue_ttm := md_get "revenue_ttm" d;
     gross_margin := md_get "gross_margin" d;
     operating_margin := md_get "operating_margin" d;
     profit_margin := md_get "profit_margin" d;
     return_on_equity := md_get "return_on_equity" d;
     return_on_assets := md_get "return_on_assets" d;
     debt_to_equity := md_get "debt_to_equity" d;
     current_ratio := md_get "current_ratio" d;
     quick_ratio := md_get "quick_ratio" d;
     dividend_yield := md_get "dividend_yield" d;
     beta := md_get "beta" d;
     fifty_two_week_high := md_get "fifty_two_week_high" d;
     fifty_two_week_low := md_get "fifty_two_week_low" d |}.

(** The body of [fetch_fundamentals_yf], under its decorators:
    [ticker] is the outcome of [yf.Ticker(symbol)]. *)
Definition fetch_fundamentals_yf_body (ticker : reply Ticker) : result FinancialMetrics :=
  let body : reply FinancialMetrics :=
    match ticker with
    | inl e => inl e
    | inr ticker =>
        (* Strategy 1: historical data *)
        let hist_data : metrics_dict :=
          match tk_history ticker with
          | inr (Some (high, low)) =>
              [("fifty_two_week_high", Some high); ("fifty_two_week_low", Some low)]
          | inr None => []
          | inl _ => []
          end in
        (* Strategy 2: basic info *)
        let info_data : metrics_dict :=
          match tk_info ticker with
          | inr (Some info) =>
              if bool_decide (0 < ti_len info)%nat && bool_decide (5 < ti_len info)%nat then
                [("market_cap", ti_marketCap info);
                 ("pe_ratio", or_num (ti_trailingPE info) (ti_forwardPE info));
                 ("price_to_book", ti_priceToBook info);
                 ("dividend_yield", ti_dividendYield info);
                 ("beta", ti_beta info);
                 ("revenue_ttm", ti_totalRevenue info);
                 ("profit_margin", ti_profitMargins info)]
              else []
          | inr None => []
          | inl _ => []
          end in
        (* Strategy 3: fast_info, when info gave nothing *)
        let info_data : metrics_dict :=
          match info_data with
          | [] =>
              match tk_fast_info ticker with
              | inr (Some fast_info) =>
                  match fi_market_cap fast_info with
                  | inl _ => info_data
                  | inr mc =>
                      let info_data :=
                        if truthy_num mc then md_set "market_cap" mc info_data else info_data in
                      match fi_shares fast_info with
                      | inl _ => info_data
                      | inr sh =>
                          if truthy_num sh then md_set "shares_outstanding" sh info_data
                          else info_data
                      end
                  end
              | inr None => info_data
              | inl _ => info_data
              end
          | _ :: _ => info_data
          end in
        let metrics_data := md_merge hist_data info_data in
        let metrics_data :=
          filter (λ kv, truthy_num kv.2 = true) metrics_data in
        inr (metrics_of_dict metrics_data)
    end in
  match body with
  | inr m => inr m
  | inl _ => inr empty_metrics   (* "Always return empty metrics rather than failing" *)
  end.

(** [fetch_fundamentals_yf] as decorated:
    [@handle_api_errors @create_retry_decorator() @track_performance(..)].
    [ticker i] is what [yf.Ticker(symbol)] gives at the [i]-th attempt;
    [track_performance] only records metrics. *)
Definition fetch_fundamentals_yf (cfg : Settings) (ticker : nat → reply Ticker)
    : result FinancialMetrics :=
  handle_api_errors "fetch_fundamentals_yf"
    (create_retry_decorator cfg (λ i, fetch_fundamentals_yf_body (ticker i))).

(** [get_company_name]: [ticker] is the outcome of [yf.Ticker(symbol)].
    What the validation raises is raised again; what the library raises
    is logged, and the fallback name is returned. *)
Definition get_company_name (ticker : reply Ticker) (symbol : value) : result (option string) :=
  let fallback : result (option string) :=
    inr (Some (format_value symbol +:+ " Corporation")) in
  match validate_stock_symbol symbol with
  | inl e => inl e
  | inr _ =>
      match ticker with
      | inl _ => fallback
      | inr ticker =>
          match tk_info ticker with
          | inl _ => fallback
          | inr (Some info) =>
              if bool_decide (0 < ti_len info)%nat then
                let name := or_str (ti_longName info) (ti_shortName info) in
                if truthy_str name then inr name else fallback
              else fallback
          | inr None => fallback
          end
      end
  end.

(** The collaborators of one request: the outcome of each adapter call
    that is not modelled further. *)
Record Providers := {
  p_price_alpha : result (option PriceData);
  p_price_yfinance : result (option PriceData);
  p_fundamentals_ticker : nat → reply Ticker;
  p_analyst_finnhub : result (list AnalystRating);
  p_earnings_yf : result (list EarningsData);
  p_company_ticker : reply Ticker
}.

Definition fetch_price_with_fallback (p : Providers) : result PriceData :=
  execute_with_fallback "price" (p_price_alpha p) [p_price_yfinance p].

Definition fetch_current_price (p : Providers) (symbol : value) : result PriceData :=
  match validate_stock_symbol symbol with
  | inl e => inl e
  | inr _ => fetch_price_with_fallback p
  end.

Definition fetch_financial_metrics (cfg : Settings) (p : Providers) (symbol : value)
    : result FinancialMetrics :=
  match validate_stock_symbol symbol with
  | inl e => inl e
  | inr _ => fetch_fundamentals_yf cfg (p_fundamentals_ticker p)
  end.

Definition fetch_analyst_ratings (p : Providers) (symbol : value) : result (list AnalystRating) :=
  match validate_stock_symbol symbol with
  | inl e => inl e
  | inr _ => p_analyst_finnhub p
  end.

Definition fetch_earnings_data (p : Providers) (symbol : value) : result (list EarningsData) :=
  match validate_stock_symbol symbol with
  | inl e => inl e
  | inr _ => p_earnings_yf p
  end.

(** ** [services/sentiment.py] *)

Definition sentiment_score_to_enum (score : float) : SentimentScore :=
  if PrimFloat.leb 0.5 score then VERY_POSITIVE
  else if PrimFloat.leb 0.15 score then POSITIVE
  else if PrimFloat.leb score (-0.5) then VERY_NEGATIVE
  else if PrimFloat.leb score (-0.15) then NEGATIVE
  else NEUTRAL.

(** A text field of a JSON object: the key is missing, holds null, or
    holds a string. *)
Inductive json_text := Missing | Null | Text (s : string).

(** A news article as the two sources return it; for the fields other
    than the title a missing key is [None]. *)
Record Article := {
  a_title : json_text;
  a_description : option string;
  a_url : option string;
  a_publishedAt : option string;
  a_source_name : option string
}.

(** [\w] and [\s] on ASCII *)
Definition is_word (c : ascii) : bool :=
  is_upper_letter c || is_lower_letter c || is_digit c || bool_decide (c = "_"%char).

Definition word_or_space (c : ascii) : bool := is_word c || is_space c.

(** [article.get("title", "")]: the default stands in for a missing key
    only; a title that holds null is null. *)
Definition title_text (a : Article) : string :=
  match a_title a with
  | Text s => s
  | Missing | Null => ""
  end.

Definition null_title (a : Article) : bool :=
  match a_title a with
  | Null => true
  | Missing | Text _ => false
  end.

(** [re.sub(r'[^\w\s]', '', article.get("title", "")).lower()[:50]], for
    a title that is not null ([re.sub] raises [TypeError] on null). *)
Definition title_key (a : Article) : string :=
  of_pystr (take 50 (lower (filter (λ c, word_or_space c = true) (str (title_text a))))).

(** The duplicate filter: the first article of each title key is kept. *)
Fixpoint unique_by_title (seen_titles : gset string) (all_articles : list Article) : list Article :=
  match all_articles with
  | [] => []
  | article :: rest =>
      let key := title_key article in
      if bool_decide (key ∈ seen_titles) then unique_by_title seen_titles rest
      else article :: unique_by_title ({[key]} ∪ seen_titles) rest
  end.

(** [SentimentSummary(...)]: the field constraint [ge=0, le=1] on
    [confidence] is checked by the constructor. *)
Definition make_SentimentSummary (score : SentimentScore) (conf : float)
    (pos neg neu : Z) (text : string) : result SentimentSummary :=
  if PrimFloat.leb 0 conf && PrimFloat.leb conf 1 then
    inr {| overall_score := score; confidence := conf; positive_count := pos;
           negative_count := neg; neutral_count := neu; summary_text := text |}
  else inl (Exn ValidationError "confidence").

(** The summary every fallback uses: neutral, zero confidence, no counts. *)
Definition neutral_summary (text : string) : SentimentSummary :=
  {| overall_score := NEUTRAL; confidence := 0; positive_count := 0;
     negative_count := 0; neutral_count := 0; summary_text := text |}.

(** [sum(1 for p in polarities if test p)] *)
Definition count_if (test : float → bool) (polarities : list float) : Z :=
  Z.of_nat (length (filter (λ p, test p = true) polarities)).

(** [max(0, x)] *)
Definition max0 (x : float) : float := if PrimFloat.ltb 0 x then x else 0%float.

Definition basic_summary (n pos neg neu : Z) : string :=
  let head := "Based on " +:+ pretty n +:+ " articles: " in
  if bool_decide (neg < pos) then
    head +:+ "Generally positive sentiment (" +:+ pretty pos +:+ " positive, "
         +:+ pretty neg +:+ " negative)"
  else if bool_decide (pos < neg) then
    head +:+ "Generally negative sentiment (" +:+ pretty neg +:+ " negative, "
         +:+ pretty pos +:+ " positive)"
  else
    head +:+ "Mixed sentiment (" +:+ pretty pos +:+ " positive, " +:+ pretty neg
         +:+ " negative, " +:+ pretty neu +:+ " neutral)".

Section Sentiment.
Variable cfg : Settings.
(** [statistics.mean], [statistics.stdev] *)
Variable mean : list float → float.
Variable stdev : list float → float.
(** The outcome of scoring one article ([analyze_article_sentiment]). *)
Variable analyze_article_sentiment : Article → result SentimentItem.
(** The outcome of the synopsis request ([generate_ai_summary]). *)
Variable generate_ai_summary : list SentimentItem → float → result string.

(** The scoring loop: an article whose scoring raises is skipped. *)
Fixpoint analyze_all (articles : list Article) : list SentimentItem :=
  match articles with
  | [] => []
  | article :: rest =>
      match analyze_article_sentiment article with
      | inr sentiment_item => sentiment_item :: analyze_all rest
      | inl _ => analyze_all rest
      end
  end.

(** [fetch_comprehensive_sentiment]: [news] and [rss] are the outcomes
    of [fetch_news_articles] and [fetch_rss_news]. *)
Definition fetch_comprehensive_sentiment (news rss : result (list Article))
    : result (list SentimentItem * SentimentSummary) :=
  let all_articles :=
    match news with inr l => l | inl _ => [] end
    ++ match rss with inr l => l | inl _ => [] end in
  match all_articles with
  | [] => inr ([], neutral_summary "No sentiment data available")
  | _ :: _ =>
      (* the loop over [all_articles] computes the key of every article,
         outside any [try]: it raises at the first title that is null *)
      if existsb null_title all_articles then
        inl (Exn TypeError "expected string or bytes-like object")
      else
      let unique_articles := unique_by_title ∅ all_articles in
      let sentiment_items := analyze_all (take (max_news_articles cfg) unique_articles) in
      match sentiment_items with
      | [] => inr ([], neutral_summary "Failed to analyze sentiment")
      | _ :: _ =>
          let polarities := si_polarity <$> sentiment_items in
          let avg_polarity := mean polarities in
          let positive_count := count_if (λ p, PrimFloat.ltb 0.15 p) polarities in
          let negative_count := count_if (λ p, PrimFloat.ltb p (-0.15)) polarities in
          let neutral_count :=
            Z.of_nat (length polarities) - positive_count - negative_count in
          let polarity_std :=
            if bool_decide (1 < length polarities)%nat then stdev polarities else 0%float in
          let confidence := max0 (1 - polarity_std / 2)%float in
          let overall_score := sentiment_score_to_enum avg_polarity in
          let basic :=
            basic_summary (Z.of_nat (length sentiment_items))
              positive_count negative_count neutral_count in
          let summary_text :=
            if use_openai_sentiment cfg && bool_decide (3 < length sentiment_items)%nat then
              match generate_ai_summary sentiment_items avg_polarity with
              | inr text => text
              | inl _ => basic
              end
            else basic in
          match make_SentimentSummary overall_score confidence
                  positive_count negative_count neutral_count summary_text with
          | inr sentiment_summary => inr (sentiment_items, sentiment_summary)
          | inl e => inl e
          end
      end
  end.
End Sentiment.

(** ** [agents.py]: the analysis state and the task agents *)

(** An empty list literal used as a default that is only read. *)
Definition py_empty_list : value := VItems [].

(** Number of keys of the price dict. *)
Definition present {A} (o : option A) : nat := if o is Some _ then 1 else 0.

Definition price_len (p : PriceData) : nat :=
  present (pd_price p) + present (pd_change p) + present (pd_change_percent p)
  + present (pd_volume p) + present (pd_currency p) + present (pd_source p).

(** [len(v)] *)
Definition py_len (v : value) : M Z :=
  match v with
  | VStr s => mret (Z.of_nat (String.length s))
  | VPrice p => mret (Z.of_nat (price_len p))
  | VRatings l => mret (Z.of_nat (length l))
  | VEarnings l => mret (Z.of_nat (length l))
  | VItems l => mret (Z.of_nat (length l))
  | VRef l =>
      o ← load l;
      match o with
      | OList xs => mret (Z.of_nat (length xs))
      | ODict d => mret (Z.of_nat (size d))
      end
  | VNone | VBool _ | VInt _ | VMetrics _ | VSummary _ => raise TypeError "object has no len()"
  end.

(** [bool(v)] *)
Definition truthy (v : value) : M bool :=
  match v with
  | VNone => mret false
  | VBool b => mret b
  | VInt n => mret (negb (n =? 0))
  | VMetrics _ | VSummary _ => mret true
  | _ => n ← py_len v; mret (0 <? n)
  end.

(** The services a task agent awaits, each given by its outcome on a
    symbol. *)
Record Services := {
  svc_fetch_current_price : value → result PriceData;
  svc_fetch_financial_metrics : value → result FinancialMetrics;
  svc_fetch_analyst_ratings : value → result (list AnalystRating);
  svc_fetch_earnings_data : value → result (list EarningsData);
  svc_fetch_comprehensive_sentiment : value → result (list SentimentItem * SentimentSummary);
  svc_get_company_name : value → result (option string)
}.

Definition of_option_str (o : option string) : value :=
  match o with
  | Some s => VStr s
  | None => VNone
  end.

(** [root_node] *)
Definition root_node (state : loc) : M loc :=
  enhanced_state ← dict_copy state;
  agents_completed ← alloc (OList []);
  validation_results ← alloc (ODict ∅);
  data_sources ← alloc (OList []);
  processing_errors ← alloc (OList []);
  update enhanced_state
    [("price_status", VStr "pending");
     ("fundamentals_status", VStr "pending");
     ("analyst_status", VStr "pending");
     ("sentiment_status", VStr "pending");
     ("company_status", VStr "pending");
     ("agents_completed", VRef agents_completed);
     ("validation_results", VRef validation_results);
     ("overall_status", VStr "initializing");
     ("progress_percentage", VInt 0);
     ("data_sources", VRef data_sources);
     ("processing_errors", VRef processing_errors);
     ("partial_data", VBool false)];;
  mret enhanced_state.

(** The closing lines of every success branch:
    [completed = result.get('agents_completed', [])], the membership
    test, the append, and the store back. *)
Definition mark_completed (result : loc) (name : string) : M unit :=
  completed ← get_list result "agents_completed";
  seen ← list_mem name completed;
  (if (seen : bool) then (mret () : M unit) else append completed name);;
  setitem result "agents_completed" (VRef completed).

Section Agents.
Variable svc : Services.

Definition price_agent (state : loc) : M loc :=
  symbol ← getitem state "symbol";
  result ← dict_copy state;
  setitem result "price_status" (VStr "processing");;
  try_except
    (price_data ← await (svc_fetch_current_price svc symbol);
     data_sources ← get_list_copy state "data_sources";
     append data_sources (default "unknown" (pd_source price_data));;
     update result
       [("price_data", VPrice price_data);
        ("data_sources", VRef data_sources);
        ("price_status", VStr "success")];;
     mark_completed result "price";;
     mret result)
    (λ e,
     errors ← get_list_copy state "processing_errors";
     append errors ("Price fetch failed: " +:+ exn_str e);;
     update result
       [("price_error", VStr (exn_str e));
        ("processing_errors", VRef errors);
        ("partial_data", VBool true);
        ("price_status", VStr "failed")];;
     mret result).

Definition fundamentals_agent (state : loc) : M loc :=
  symbol ← getitem state "symbol";
  result ← dict_copy state;
  setitem result "fundamentals_status" (VStr "processing");;
  try_except
    (financial_metrics ← await (svc_fetch_financial_metrics svc symbol);
     data_sources ← get_list_copy state "data_sources";
     append data_sources "yfinance_fundamentals";;
     update result
       [("financial_metrics", VMetrics financial_metrics);
        ("data_sources", VRef data_sources);
        ("fundamentals_status", VStr "success")];;
     mark_completed result "fundamentals";;
     mret result)
    (λ e,
     errors ← get_list_copy state "processing_errors";
     append errors ("Fundamentals fetch failed: " +:+ exn_str e);;
     update result
       [("financial_metrics", VMetrics empty_metrics);
        ("fundamentals_error", VStr (exn_str e));
        ("processing_errors", VRef errors);
        ("partial_data", VBool true);
        ("fundamentals_status", VStr "failed")];;
     mret result).

Definition analyst_agent (state : loc) : M loc :=
  symbol ← getitem state "symbol";
  result ← dict_copy state;
  setitem result "analyst_status" (VStr "processing");;
  try_except
    (analyst_ratings ← await (svc_fetch_analyst_ratings svc symbol);
     earnings_data ← await (svc_fetch_earnings_data svc symbol);
     data_sources ← get_list_copy state "data_sources";
     (match analyst_ratings with
      | [] => (mret () : M unit)
      | _ :: _ => append data_sources "finnhub_analysts"
      end);;
     (match earnings_data with
      | [] => (mret () : M unit)
      | _ :: _ => append data_sources "yfinance_earnings"
      end);;
     update result
       [("analyst_ratings", VRatings analyst_ratings);
        ("earnings_data", VEarnings earnings_data);
        ("data_sources", VRef data_sources);
        ("analyst_status", VStr "success")];;
     mark_completed result "analyst";;
     mret result)
    (λ e,
     errors ← get_list_copy state "processing_errors";
     append errors ("Analyst data fetch failed: " +:+ exn_str e);;
     update result
       [("analyst_ratings", VRatings []);
        ("earnings_data", VEarnings []);
        ("analyst_error", VStr (exn_str e));
        ("processing_errors", VRef errors);
        ("partial_data", VBool true);
        ("analyst_status", VStr "failed")];;
     mret result).

Definition sentiment_agent (state : loc) : M loc :=
  symbol ← getitem state "symbol";
  result ← dict_copy state;
  setitem result "sentiment_status" (VStr "processing");;
  try_except
    ('(sentiment_items, sentiment_summary) ←
       await (svc_fetch_comprehensive_sentiment svc symbol);
     data_sources ← get_list_copy state "data_sources";
     extend data_sources ["newsapi"; "rss_feeds"];;
     update result
       [("sentiment_items", VItems sentiment_items);
        ("sentiment_summary", VSummary sentiment_summary);
        ("data_sources", VRef data_sources);
        ("sentiment_status", VStr "success")];;
     mark_completed result "sentiment";;
     mret result)
    (λ e,
     errors ← get_list_copy state "processing_errors";
     append errors ("Sentiment analysis failed: " +:+ exn_str e);;
     let empty_sentiment := neutral_summary "Sentiment analysis unavailable" in
     update result
       [("sentiment_items", VItems []);
        ("sentiment_summary", VSummary empty_sentiment);
        ("sentiment_error", VStr (exn_str e));
        ("processing_errors", VRef errors);
        ("partial_data", VBool true);
        ("sentiment_status", VStr "failed")];;
     mret result).

Definition company_info_agent (state : loc) : M loc :=
  symbol ← getitem state "symbol";
  result ← dict_copy state;
  setitem result "company_status" (VStr "processing");;
  try_except
    (company_name ← await (svc_get_company_name svc symbol);
     update result
       [("company_name", of_option_str company_name);
        ("company_status", VStr "success")];;
     mark_completed result "company";;
     mret result)
    (λ e,
     update result
       [("company_name", VNone);
        ("company_status", VStr "failed")];;
     mret result).
End Agents.

(** ** [agents.py]: the coordinating agent *)

(** [repr] of a list of [str] *)
Definition repr_list (xs : list string) : string :=
  "[" +:+ join ", " ((λ x, "'" +:+ x +:+ "'") <$> xs) +:+ "]".

Definition _validate_price_data (state : loc) : M (bool * string) :=
  price_data ← dict_get state "price_data";
  ok ← truthy price_data;
  if negb ok then mret (false, "No price data available")
  else
    match price_data with
    | VPrice p =>
        let missing :=
          (if pd_price p is Some _ then [] else ["price"])
          ++ (if pd_source p is Some _ then [] else ["source"]) in
        match missing, pd_price p with
        | [], Some price =>
            if PrimFloat.leb price 0 then mret (false, "Invalid price value")
            else mret (true, "Price data validated successfully")
        | _, _ => mret (false, "Missing required fields: " +:+ repr_list missing)
        end
    | _ => raise TypeError "price_data is not a dict"
    end.

Definition _validate_financial_metrics (state : loc) : M (bool * string) :=
  metrics ← dict_get state "financial_metrics";
  ok ← truthy metrics;
  if negb ok then mret (false, "No financial metrics available (rate limited)")
  else mret (true, "Financial metrics processed (may be limited due to API constraints)").

Definition rating_well_formed (r : AnalystRating) : bool :=
  negb (bool_decide (ar_firm r = "")) && negb (bool_decide (ar_rating r = "")).

Definition _validate_analyst_data (state : loc) : M (bool * string) :=
  o ← dict_lookup state "analyst_ratings";
  let ratings := default py_empty_list o in
  ok ← truthy ratings;
  if negb ok then mret (false, "No analyst ratings available")
  else
    match ratings with
    | VRatings l =>
        if forallb rating_well_formed l then
          mret (true, "Validated " +:+ pretty (length l) +:+ " analyst ratings")
        else mret (false, "Invalid rating structure")
    | _ => mret (false, "Unknown rating format")
    end.

Definition _validate_sentiment_data (state : loc) : M (bool * string) :=
  o ← dict_lookup state "sentiment_items";
  let sentiment_items := default py_empty_list o in
  sentiment_summary ← dict_get state "sentiment_summary";
  has_items ← truthy sentiment_items;
  has_summary ← truthy sentiment_summary;
  if negb has_items && negb has_summary then mret (false, "No sentiment data available")
  else if has_summary && negb (if sentiment_summary is VSummary _ then true else false) then
    mret (false, "Invalid sentiment summary structure")
  else
    n ← py_len sentiment_items;
    mret (true, "Validated sentiment data with " +:+ pretty n +:+ " articles").

Definition _validate_company_data (state : loc) : M (bool * string) :=
  company_name ← dict_get state "company_name";
  ok ← truthy company_name;
  if negb ok then mret (false, "Company name not available")
  else mret (true, "Company validated: " +:+ format_value company_name).

(** [self.agent_validators.get(agent_name)] *)
Definition agent_validators (agent_name : string) : option (loc → M (bool * string)) :=
  if bool_decide (agent_name = "price") then Some _validate_price_data
  else if bool_decide (agent_name = "fundamentals") then Some _validate_financial_metrics
  else if bool_decide (agent_name = "analyst") then Some _validate_analyst_data
  else if bool_decide (agent_name = "sentiment") then Some _validate_sentiment_data
  else if bool_decide (agent_name = "company") then Some _validate_company_data
  else None.

(** [d.get(k, {})] followed by an item assignment: the dict stored under
    [k], or a new empty dict. *)
Definition get_dict (d : loc) (k : string) : M loc :=
  o ← dict_lookup d k;
  match o with
  | Some (VRef l) => _ ← load_dict l; mret l
  | Some _ => raise TypeError "not a dict"
  | None => alloc (ODict ∅)
  end.

Definition validate_agent_result (agent_name : string) (state : loc) : M loc :=
  match agent_validators agent_name with
  | None => mret state
  | Some validator =>
      '(is_valid, message) ← validator state;
      validation_results ← get_dict state "validation_results";
      setitem validation_results agent_name (VBool is_valid);;
      setitem state "validation_results" (VRef validation_results);;
      (if (is_valid : bool) then (mret () : M unit)
       else
         errors ← get_list state "processing_errors";
         append errors (agent_name +:+ ": " +:+ message);;
         setitem state "processing_errors" (VRef errors));;
      mret state
  end.

(** [float(n)] for a length (exact below 2^53) *)
Definition float_of_Z (n : Z) : float := PrimFloat.of_uint63 (Uint63.of_Z n).

(** [int(x)]: truncation towards zero of a finite float. *)
Definition int_of_float (x : float) : Z :=
  match Prim2SF x with
  | S754_finite s m e =>
      let a := if 0 <=? e then Z.pos m * 2 ^ e else Z.pos m / 2 ^ (- e) in
      if s then - a else a
  | _ => 0
  end.

(** The arithmetic of [calculate_progress] on the two lengths. *)
Definition progress_of (completed validated : Z) : Z :=
  let total_agents := 5 in
  let base_progress := (float_of_Z completed / float_of_Z total_agents * 85)%float in
  let validation_progress := (float_of_Z validated / float_of_Z total_agents * 10)%float in
  let formatting_progress := if completed =? total_agents then 5%float else 0%float in
  Z.min 100 (int_of_float (base_progress + validation_progress + formatting_progress)%float).

(** [len(d.get(k, dflt))] for an empty default *)
Definition len_of_key (d : loc) (k : string) : M Z :=
  o ← dict_lookup d k;
  match o with
  | Some v => py_len v
  | None => mret 0
  end.

Definition calculate_progress (state : loc) : M Z :=
  completed ← len_of_key state "agents_completed";
  validation_results ← len_of_key state "validation_results";
  mret (progress_of completed validation_results).

(** ** [agents.py]: response formatting *)

(** [rating_counts[k] = rating_counts.get(k, 0) + 1] on a dict kept in
    insertion order *)
Fixpoint bump (k : string) (counts : list (string * Z)) : list (string * Z) :=
  match counts with
  | [] => [(k, 1)]
  | (k', n) :: rest => if bool_decide (k' = k) then (k', n + 1) :: rest else (k', n) :: bump k rest
  end.

(** [max(counts, key=counts.get)]: the first key with the largest count *)
Fixpoint max_key (best : string * Z) (counts : list (string * Z)) : string :=
  match counts with
  | [] => best.1
  | (k, n) :: rest => if best.2 <? n then max_key (k, n) rest else max_key best rest
  end.

Definition count_rating (counts : list (string * Z)) (rating : AnalystRating) : list (string * Z) :=
  let rating_text := upper (str (ar_rating rating)) in
  if contains (str "BUY") rating_text then bump "BUY" counts
  else if contains (str "HOLD") rating_text then bump "HOLD" counts
  else if contains (str "SELL") rating_text then bump "SELL" counts
  else counts.

Definition calculate_consensus_rating (ratings : list AnalystRating) : option string :=
  match ratings with
  | [] => None
  | _ :: _ =>
      match foldl count_rating [] ratings with
      | first :: rest => Some (max_key first rest)
      | [] => Some "HOLD"
      end
  end.

(** [x and len(y) > 0] as the formatter writes it: the truth value of
    the conjunction. *)
Definition non_empty (o : option value) : M bool :=
  ok ← truthy (default VNone o);
  if negb ok then mret false
  else n ← py_len (default py_empty_list o); mret (0 <? n).

(** The constructor [StockResponse(...)]: each keyword argument must fit
    the declared type of its field. *)
Definition make_StockResponse (symbol : string) (company_name : value)
    (price : option float) (currency : string) (change change_percent : option float)
    (volume : option Z) (financial_metrics analyst_ratings earnings_data
                         sentiment_items : value)
    (sentiment_summary : SentimentSummary) (data_sources : list string) : M StockResponse :=
  company_name ←
    match company_name with
    | VNone => mret None
    | VStr s => mret (Some s)
    | _ => raise ValidationError "company_name"
    end;
  financial_metrics ←
    match financial_metrics with
    | VMetrics m => mret m
    | _ => raise ValidationError "financial_metrics"
    end;
  analyst_ratings ←
    match analyst_ratings with
    | VRatings l => mret l
    | VEarnings [] | VItems [] => mret []
    | _ => raise ValidationError "analyst_ratings"
    end;
  earnings_data ←
    match earnings_data with
    | VEarnings l => mret l
    | VRatings [] | VItems [] => mret []
    | _ => raise ValidationError "earnings_data"
    end;
  sentiment_items ←
    match sentiment_items with
    | VItems l => mret l
    | VRatings [] | VEarnings [] => mret []
    | _ => raise ValidationError "sentiment_items"
    end;
  mret {| r_symbol := symbol; r_company_name := company_name; r_price := price;
          r_currency := currency; r_change := change;
          r_change_percent := change_percent; r_volume := volume;
          r_financial_metrics := financial_metrics;
          r_analyst_ratings := analyst_ratings;
          r_consensus_rating := None;
          r_average_price_target := None;
          r_earnings_data := earnings_data;
          r_next_earnings_date := None;
          r_sentiment_items := sentiment_items;
          r_sentiment_summary := sentiment_summary;
          r_data_sources := data_sources |}.

(** [list(set(xs))]: the distinct elements, in an order of the set's
    choosing. *)
Definition list_set (xs : list string) : list string :=
  elements (list_to_set xs : gset string).

(** [d.get(k, [])] read as a list of [str] *)
Definition get_list_items (d : loc) (k : string) : M (list string) :=
  o ← dict_lookup d k;
  match o with
  | Some v => l ← list_ref v; load_list l
  | None => mret []
  end.

Definition format_response (symbol : string) (state : loc) : M StockResponse :=
  price_data ← dict_get state "price_data";
  fm ← dict_get state "financial_metrics";
  let has_fundamentals := negb (if fm is VNone then true else false) in
  has_analyst ← (o ← dict_lookup state "analyst_ratings"; non_empty o);
  has_sentiment ← (o ← dict_lookup state "sentiment_items"; non_empty o);
  cn ← dict_get state "company_name";
  let has_company := negb (if cn is VNone then true else false) in
  has_price ← truthy price_data;
  if negb (has_price || has_fundamentals || has_analyst || has_sentiment || has_company) then
    raise StockDataError "No data available - all agents failed"
  else
    let '(price, currency, change, change_percent, volume) :=
      match price_data with
      | VPrice p =>
          match pd_price p with
          | Some price =>
              (Some price, default "USD" (pd_currency p), pd_change p,
               pd_change_percent p, pd_volume p)
          | None => (None, "USD", None, None, None)
          end
      | _ => (None, "USD", None, None, None)
      end in
    financial_metrics ← (o ← dict_lookup state "financial_metrics"; mret (default py_empty_list o));
    analyst_ratings ← (o ← dict_lookup state "analyst_ratings"; mret (default py_empty_list o));
    earnings_data ← (o ← dict_lookup state "earnings_data"; mret (default py_empty_list o));
    sentiment_items ← (o ← dict_lookup state "sentiment_items"; mret (default py_empty_list o));
    sentiment_summary ← (o ← dict_lookup state "sentiment_summary"; mret (default py_empty_list o));
    has_summary ← truthy sentiment_summary;
    sentiment_summary ←
      (if negb has_summary then mret (neutral_summary "No sentiment data available")
       else
         match sentiment_summary with
         | VSummary s => mret s
         | _ => raise ValidationError "sentiment_summary"
         end);
    data_sources ← get_list_items state "data_sources";
    company_name ← (o ← dict_lookup state "company_name";
                    mret (default (VStr (symbol +:+ " Corporation")) o));
    make_StockResponse symbol company_name price currency change change_percent volume
      financial_metrics analyst_ratings earnings_data sentiment_items
      sentiment_summary (list_set data_sources).

(** ** [agents.py]: the streaming driver *)

(** The events the generator yields (their fixed display messages are
    left out). *)
Inductive event :=
  | Started (progress : Z)
  | Processing (progress : Z) (current_agent : string)
  | AgentComplete (progress : Z) (agent : string) (agent_status : string) (partial_data : value)
  | Finalizing (progress : Z)
  | Complete (progress : Z) (data : StockResponse)
  | ErrorEvent (progress : Z) (error : string).

(** A generator: the events yielded so far, then an exception or a
    value. *)
Definition G (A : Type) : Type := heap → (list event * result A) * heap.

#[export] Instance G_ret : MRet G := λ A a h, (([], inr a), h).

#[export] Instance G_bind : MBind G := λ A B f m h,
  match m h with
  | ((evs, inl e), h') => ((evs, inl e), h')
  | ((evs, inr a), h') =>
      match f a h' with
      | ((evs', r), h'') => ((evs ++ evs', r), h'')
      end
  end.

Definition yield (e : event) : G unit := λ h, (([e], inr ()), h).

Definition run {A} (m : M A) : G A := λ h,
  match m h with
  | (r, h') => (([], r), h')
  end.

(** [int((i / len(agents)) * 80)] *)
Definition processing_progress (i : nat) : Z :=
  int_of_float (float_of_Z (Z.of_nat i) / float_of_Z 5 * 80)%float.

(** [a or b] on values *)
Definition or_value (a b : value) : M value :=
  t ← truthy a; mret (if (t : bool) then a else b).

(** [state.get('validation_results', {}).get(agent_name, False)] *)
Definition validation_of (state : loc) (agent_name : string) : M value :=
  o ← dict_lookup state "validation_results";
  match o with
  | None => mret (VBool false)
  | Some (VRef l) => m ← load_dict l; mret (default (VBool false) (m !! agent_name))
  | Some _ => raise TypeError "not a dict"
  end.

Section Driver.
Variable svc : Services.

Definition agents : list (string * (loc → M loc)) :=
  [("price", price_agent svc);
   ("fundamentals", fundamentals_agent svc);
   ("analyst", analyst_agent svc);
   ("sentiment", sentiment_agent svc);
   ("company", company_info_agent svc)].

(** One turn of the loop over the agents. *)
Definition agent_turn (i : nat) (agent : string * (loc → M loc)) (state : loc) : G loc :=
  let '(agent_name, agent_func) := agent in
  yield (Processing (processing_progress i) agent_name);;
  state ← run (agent_func state);
  state ← run (validate_agent_result agent_name state);
  progress ← run (calculate_progress state);
  validation ← run (v ← validation_of state agent_name; truthy v);
  let agent_status := if (validation : bool) then "success" else "warning" in
  partial_data ← run (a ← dict_get state (agent_name +:+ "_data");
                      b ← dict_get state agent_name;
                      or_value a b);
  yield (AgentComplete progress agent_name agent_status partial_data);;
  mret state.

Fixpoint agent_loop (i : nat) (todo : list (string * (loc → M loc))) (state : loc) : G loc :=
  match todo with
  | [] => mret state
  | agent :: rest => state ← agent_turn i agent state; agent_loop (S i) rest state
  end.

(** The closing [try]: the formatted response, or an error event. *)
Definition final_event (symbol : string) (state : loc) : G unit := λ h,
  match format_response symbol state h with
  | (inr response, h') => (([Complete 100 response], inr ()), h')
  | (inl e, h') => (([ErrorEvent 100 (exn_str e)], inr ()), h')
  end.

Definition stream_coordinated_analysis (symbol : string) : G unit :=
  (* Validate symbol format first before doing anything else *)
  _ ← run (await (validate_stock_symbol (VStr symbol)));
  state ← run (alloc (ODict {["symbol" := VStr symbol]}));
  state ← run (root_node state);
  yield (Started 0);;
  state ← agent_loop 0 agents state;
  yield (Finalizing 95);;
  final_event symbol state.

(** ** [agents.py]: the orchestrating agent *)

(** [asyncio.gather(..., return_exceptions=True)] keeps what a task
    raises as its result. *)
Definition gathered {A} (task : M A) : M (result A) := λ h,
  match task h with
  | (r, h') => (inr r, h')
  end.

(** [value if isinstance(value, list) else []], read as strings *)
Definition as_new_list (v : value) : M (list string) :=
  match v with
  | VRef l =>
      o ← load l;
      match o with
      | OList xs => mret xs
      | ODict _ => mret []
      end
  | VRatings (_ :: _) | VEarnings (_ :: _) | VItems (_ :: _) =>
      raise TypeError "not a list of str"
  | _ => mret []
  end.

(** The body of the loop over [result.items()]. *)
Definition merge_item (final_state : loc) (key : string) (v : value) : M unit :=
  if bool_decide (key = "data_sources") then
    existing ← get_list_items final_state "data_sources";
    new_sources ← as_new_list v;
    merged ← alloc (OList (list_set (existing ++ new_sources)));
    setitem final_state "data_sources" (VRef merged)
  else if bool_decide (key = "processing_errors") then
    existing ← get_list_items final_state "processing_errors";
    new_errors ← as_new_list v;
    merged ← alloc (OList (existing ++ new_errors));
    setitem final_state "processing_errors" (VRef merged)
  else
    match v with
    | VNone => (mret () : M unit)
    | _ => setitem final_state key v
    end.

Fixpoint merge_items (final_state : loc) (items : list (string * value)) : M unit :=
  match items with
  | [] => mret ()
  | (key, v) :: rest => merge_item final_state key v;; merge_items final_state rest
  end.

(** One turn of the loop over [results]. *)
Definition merge_result (final_state : loc) (result : exn + loc) : M unit :=
  match result with
  | inr result =>
      items ← load_dict result;
      merge_items final_state (map_to_list items)
  | inl e =>
      o ← dict_lookup final_state "processing_errors";
      (if o is None then
         fresh ← alloc (OList []);
         setitem final_state "processing_errors" (VRef fresh)
       else (mret () : M unit));;
      v ← getitem final_state "processing_errors";
      errors ← list_ref v;
      append errors (exn_str e)
  end.

Fixpoint merge_results (final_state : loc) (results : list (exn + loc)) : M unit :=
  match results with
  | [] => mret ()
  | result :: rest => merge_result final_state result;; merge_results final_state rest
  end.

(** [orchestrating_agent].  The five tasks are given the same [state];
    the model runs them to completion one after the other, which is
    one of the schedules of [asyncio.gather]. *)
Definition orchestrating_agent (state : loc) : M loc :=
  _ ← getitem state "symbol";
  r1 ← gathered (price_agent svc state);
  r2 ← gathered (fundamentals_agent svc state);
  r3 ← gathered (analyst_agent svc state);
  r4 ← gathered (sentiment_agent svc state);
  r5 ← gathered (company_info_agent svc state);
  let results := [r1; r2; r3; r4; r5] in
  final_state ← dict_copy state;
  merge_results final_state results;;
  mret final_state.

(** [orchestrate], for a symbol that [StockRequest] has accepted: the
    compiled graph runs [root_node], then [orchestrating_agent]. *)
Definition orchestrate (req_symbol : string) : M StockResponse :=
  let symbol := of_pystr (upper (str req_symbol)) in
  try_except
    (state ← alloc (ODict {["symbol" := VStr symbol]});
     state ← root_node state;
     result ← orchestrating_agent state;
     format_response symbol result)
    (λ e, raise StockDataError
            ("Failed to process stock data for " +:+ symbol +:+ ": " +:+ exn_str e)).
End Driver.

(** ** The statements' vocabulary *)

(** The symbol format in the words of the specification: one to five
    characters, each an uppercase letter or a dot, no dot first or last,
    no two dots in a row. *)
Definition symbol_shape (s : pystr) : Prop :=
  (1 ≤ length s ≤ 5)%nat
  ∧ Forall (λ c, is_upper_letter c = true ∨ c = dot) s
  ∧ head s ≠ Some dot
  ∧ last s ≠ Some dot
  ∧ ¬ ∃ i, s !! i = Some dot ∧ s !! S i = Some dot.

(** What [validate_stock_symbol] looks at: the input stripped and
    uppercased. *)
Definition normalised (s : string) : pystr := upper (strip (str s)).

Definition ascii_only (s : string) : Prop := Forall (λ c, is_ascii c = true) (str s).

(** Overall progress in the words of the specification. *)
Definition progress_formula (completed validated : Z) : Z :=
  Z.min 100 (85 * completed / 5 + 10 * validated / 5 + (if completed =? 5 then 5 else 0)).

(** The company lookup gives no name: the ticker or its [info] raises,
    [info] is not a dict or is empty, or both names are empty. *)
Definition no_company_name (ticker : reply Ticker) : Prop :=
  match ticker with
  | inl _ => True
  | inr t =>
      match tk_info t with
      | inl _ => True
      | inr None => True
      | inr (Some info) =>
          ti_len info = 0%nat
          ∨ (truthy_str (ti_longName info) = false ∧ truthy_str (ti_shortName info) = false)
      end
  end.

(** The range check of [SentimentSummary] on the confidence computed
    from a deviation. *)
Definition confidence_accepted (std : float) : bool :=
  let c := max0 (1 - std / 2)%float in PrimFloat.leb 0 c && PrimFloat.leb c 1.

(** [agents_completed] after an agent has added its name. *)
Definition completed_with (name : string) (cs : list string) : list string :=
  if bool_decide (name ∈ cs) then cs else cs ++ [name].

(** An analysis state as [root_node] and the agents leave it: a dict
    with a symbol and its three bookkeeping lists. *)
Record analysis_state (h : heap) (state : loc) (st : gmap string value) (symbol : value)
    (cl dl el : loc) (cs ds es : list string) : Prop := {
  as_dict : h !! state = Some (ODict st);
  as_symbol : st !! "symbol" = Some symbol;
  as_completed : st !! "agents_completed" = Some (VRef cl);
  as_completed_list : h !! cl = Some (OList cs);
  as_sources : st !! "data_sources" = Some (VRef dl);
  as_sources_list : h !! dl = Some (OList ds);
  as_errors : st !! "processing_errors" = Some (VRef el);
  as_errors_list : h !! el = Some (OList es)
}.

(** A failure captured as state, as the specification words it: the
    exception's message at the end of the error list, the partial-data
    flag set, the agent's status [failed]. *)
Definition failure_recorded (h' : heap) (st' : gmap string value) (es : list string)
    (status_key : string) (e : exn) : Prop :=
  (∃ el' pre, st' !! "processing_errors" = Some (VRef el')
              ∧ h' !! el' = Some (OList (es ++ [pre +:+ exn_str e])))
  ∧ st' !! "partial_data" = Some (VBool true)
  ∧ st' !! status_key = Some (VStr "failed").

(** The state an agent returns: the agent does not raise, its result is
    a new dict, and [P] holds of the new heap and of that dict. *)
Definition returns (run : result loc * heap) (h : heap)
    (P : heap → gmap string value → Prop) : Prop :=
  ∃ h' st', run = (inr (length h), h') ∧ h' !! length h = Some (ODict st') ∧ P h' st'.

(** ** Sample runs *)

(** Services that all raise. *)
Definition failing_services (msg : string) : Services :=
  {| svc_fetch_current_price := λ _, inl (Exn StockDataError msg);
     svc_fetch_financial_metrics := λ _, inl (Exn StockDataError msg);
     svc_fetch_analyst_ratings := λ _, inl (Exn StockDataError msg);
     svc_fetch_earnings_data := λ _, inl (Exn StockDataError msg);
     svc_fetch_comprehensive_sentiment := λ _, inl (Exn StockDataError msg);
     svc_get_company_name := λ _, inl (Exn StockDataError msg) |}.

Definition sample_price : PriceData :=
  {| pd_price := Some 150%float; pd_change := Some 1%float;
     pd_change_percent := Some 0.5%float; pd_volume := Some 1000000;
     pd_currency := Some "USD"; pd_source := Some "mock" |}.

Definition sample_rating : AnalystRating :=
  {| ar_firm := "Mock Firm"; ar_rating := "BUY"; ar_price_target := None; ar_date := None |}.

(** Services that all answer (the values of the repository's mocked
    test). *)
Definition sample_services : Services :=
  {| svc_fetch_current_price := λ _, inr sample_price;
     svc_fetch_financial_metrics := λ _, inr empty_metrics;
     svc_fetch_analyst_ratings := λ _, inr [sample_rating];
     svc_fetch_earnings_data := λ _, inr [];
     svc_fetch_comprehensive_sentiment := λ _, inr ([], neutral_summary "Mock sentiment");
     svc_get_company_name := λ _, inr (Some "Apple Inc.") |}.

(** The heap after [root_node] has run on [{"symbol": symbol}] in an
    empty heap: the request dict at 0, the analysis state at 1, then
    [agents_completed], [validation_results], [data_sources] and
    [processing_errors] at 2, 3, 4 and 5. *)
Definition root_heap (symbol : string) : heap :=
  ((state ← alloc (ODict {["symbol" := VStr symbol]}); root_node state) []).2.

(** The services of [market_data.py] and [sentiment.py] over given
    collaborators; [sentiment] is the outcome of
    [fetch_comprehensive_sentiment]. *)
Definition services_of (cfg : Settings) (p : Providers)
    (sentiment : result (list SentimentItem * SentimentSummary)) : Services :=
  {| svc_fetch_current_price := fetch_current_price p;
     svc_fetch_financial_metrics := fetch_financial_metrics cfg p;
     svc_fetch_analyst_ratings := fetch_analyst_ratings p;
     svc_fetch_earnings_data := fetch_earnings_data p;
     svc_fetch_comprehensive_sentiment := λ _, sentiment;
     svc_get_company_name := get_company_name (p_company_ticker p) |}.

(** Collaborators that have nothing for the symbol: both price sources
    raise, yfinance is rate limited, there are no ratings and no
    earnings. *)
Definition no_data_providers : Providers :=
  {| p_price_alpha := inl (Exn StockDataError "Error in fetch_price_alpha: rate limit");
     p_price_yfinance := inl (Exn StockDataError "Error in fetch_price_yfinance: no data");
     p_fundamentals_ticker := λ _, inl "429 Too Many Requests";
     p_analyst_finnhub := inr [];
     p_earnings_yf := inr [];
     p_company_ticker := inl "429 Too Many Requests" |}.

Definition no_data_services : Services :=
  services_of default_settings no_data_providers
    (inr ([], neutral_summary "No sentiment data available")).

(** ** Reading the merge accumulator *)

(** The list of [str] under key [k] of the dict at [d] (empty when the
    key is absent). *)
Definition list_at (h : heap) (d : loc) (k : string) : list string :=
  match get_list_items d k h with
  | (inr xs, _) => xs
  | (inl _, _) => []
  end.

(** The value under key [k] of the dict at [d]. *)
Definition value_at (h : heap) (d : loc) (k : string) : option value :=
  match h !! d with
  | Some (ODict m) => m !! k
  | _ => None
  end.

(** ** Lists held by a dict, read off the heap *)

(** The dict [m] holds under [k] a reference to a list object. *)
Definition holds_list (h : heap) (m : gmap string value) (k : string) : Prop :=
  ∃ l xs, m !! k = Some (VRef l) ∧ h !! l = Some (OList xs).

(** The elements of the list that the dict at [d] holds under [k]; none
    when the key is missing. *)
Definition stored (h : heap) (d : loc) (k : string) : list string :=
  match h !! d with
  | Some (ODict m) =>
      match m !! k with
      | Some (VRef l) =>
          match h !! l with
          | Some (OList xs) => xs
          | _ => []
          end
      | _ => []
      end
  | _ => []
  end.

(** ** What the merge reads *)

(** Key [k] of the dict at [d] is absent or holds a list of [str]. *)
Definition list_or_absent (h : heap) (d : loc) (k : string) : Prop :=
  ∃ xs, get_list_items d k h = (inr xs, h).

(** The merge can read the incoming value, when there is one
    ([as_new_list] returns on it). *)
Definition readable (h : heap) (o : option value) : Prop :=
  ∀ v, o = Some v → ∃ xs, as_new_list v h = (inr xs, h).

(** What the merge reads from an incoming value (the outcome of
    [as_new_list] on it). *)
Definition incoming (h : heap) (o : option value) : list string :=
  match o with
  | Some v =>
      match as_new_list v h with
      | (inr xs, _) => xs
      | (inl _, _) => []
      end
  | None => []
  end.

(** The overwrite rule for the other keys: an incoming null, or no
    incoming value, keeps what was there. *)
Definition overwritten (incoming existing : option value) : option value :=
  match incoming with
  | Some VNone | None => existing
  | Some v => Some v
  end.

(** The heap [h'] extends [h] around the accumulator: no cell is lost,
    and no cell other than the accumulator is changed. *)
Definition extends (final : loc) (h h' : heap) : Prop :=
  (length h ≤ length h')%nat
  ∧ ∀ l, (l < length h)%nat → l ≠ final → h' !! l = h !! l.

(** A heap for the merge: the accumulator at 0, two results at 1 and 2,
    and the lists they refer to. *)
Definition merge_heap : heap :=
  [ODict {["data_sources" := VRef 3; "processing_errors" := VRef 4]};
   ODict {["data_sources" := VRef 5; "processing_errors" := VRef 8;
           "price_status" := VStr "success"; "company_name" := VNone]};
   ODict {["data_sources" := VRef 6; "processing_errors" := VRef 7;
           "company_name" := VStr "Apple Inc."]};
   OList ["yfinance"]; OList [];
   OList ["yfinance"; "newsapi"]; OList ["newsapi"; "rss_feeds"];
   OList ["Price fetch failed: no data"]; OList []].

(** ** Reading a run *)

(** The events a generator has yielded. *)
Definition events_of {A} (r : (list event * result A) * heap) : list event := r.1.1.

Definition is_error_event (ev : event) : bool :=
  match ev with
  | ErrorEvent _ _ => true
  | _ => false
  end.


(** No rating text holds one of the three keywords. *)
Definition no_keyword (rating : AnalystRating) : Prop :=
  let rating_text := upper (str (ar_rating rating)) in
  contains (str "BUY") rating_text = false
  ∧ contains (str "HOLD") rating_text = false
  ∧ contains (str "SELL") rating_text = false.

(** * More of the code, and the vocabulary of its properties *)

(** ** Reading the outcome of a call *)

(** The call raises an exception that the retry decorator retries. *)
Definition raises_retryable {A} (r : result A) : Prop :=
  ∃ e, r = inl e ∧ retryable (exn_class e) = true.

(** The source answers with data: it neither raises nor returns null. *)
Definition answers {A} (r : result (option A)) : Prop := ∃ a, r = inr (Some a).

(** The number of calls [stop_after_attempt(settings.max_retries)]
    allows: the first call is always made. *)
Definition max_attempts (cfg : Settings) : nat := max_retries cfg `max` 1.

(** ** The state the streaming driver threads through its agents *)

(** The payload keys hold values of their declared types, when set. *)
Definition payload_typed (st : gmap string value) : Prop :=
  (∀ v, st !! "price_data" = Some v → ∃ p, v = VPrice p)
  ∧ (∀ v, st !! "financial_metrics" = Some v → ∃ m, v = VMetrics m)
  ∧ (∀ v, st !! "analyst_ratings" = Some v → ∃ l, v = VRatings l)
  ∧ (∀ v, st !! "earnings_data" = Some v → ∃ l, v = VEarnings l)
  ∧ (∀ v, st !! "sentiment_items" = Some v → ∃ l, v = VItems l)
  ∧ (∀ v, st !! "sentiment_summary" = Some v → ∃ s, v = VSummary s)
  ∧ (∀ v, st !! "company_name" = Some v → v = VNone ∨ ∃ s, v = VStr s).

(** The keys the driver probes for an agent's partial data, other than
    [price_data]: no agent sets them. *)
Definition probed_keys : list string :=
  ["price"; "fundamentals_data"; "fundamentals"; "analyst_data"; "analyst";
   "sentiment_data"; "sentiment"; "company_data"; "company"].

Definition no_stray_keys (st : gmap string value) : Prop :=
  Forall (λ k, st !! k = None) probed_keys.

(** The state between two turns of the driver's loop: an analysis
    state whose [validation_results] is a dict of its own, whose three
    lists are three different objects, and whose payload is typed. *)
Record stream_state (h : heap) (state : loc) (st : gmap string value)
    (cl vl dl el : loc) (cs ds es : list string) (vr : gmap string value) : Prop := {
  ss_analysis : ∃ symbol, analysis_state h state st symbol cl dl el cs ds es;
  ss_validation : st !! "validation_results" = Some (VRef vl);
  ss_validation_dict : h !! vl = Some (ODict vr);
  ss_apart : state ≠ vl ∧ cl ≠ dl ∧ cl ≠ el ∧ dl ≠ el;
  ss_typed : payload_typed st;
  ss_no_stray : no_stray_keys st
}.

(** The fundamentals payload is set. *)
Definition has_metrics (st : gmap string value) : Prop :=
  ∃ m, st !! "financial_metrics" = Some (VMetrics m).

(** The two events of one turn of the loop. *)
Definition agent_events (progress : Z) (name : string) (evs : list event) : Prop :=
  ∃ p status partial_data,
    evs = [Processing progress name; AgentComplete p name status partial_data]
    ∧ (status = "success" ∨ status = "warning").

(** ** What the formatter reads off a state *)

(** The price fields of the response: those of [price_data] when it
    holds a price, the defaults otherwise. *)
Definition price_fields (o : option value)
    : option float * string * option float * option float * option Z :=
  match o with
  | Some (VPrice p) =>
      match pd_price p with
      | Some price =>
          (Some price, default "USD" (pd_currency p), pd_change p,
           pd_change_percent p, pd_volume p)
      | None => (None, "USD", None, None, None)
      end
  | _ => (None, "USD", None, None, None)
  end.

(** The company name of the response: the synthetic name when the key
    is missing, null when the key holds null. *)
Definition company_field (symbol : string) (o : option value) : option string :=
  match o with
  | None => Some (symbol +:+ " Corporation")
  | Some (VStr s) => Some s
  | Some _ => None
  end.


(** The keys [root_node] sets. *)
Definition root_keys : list string :=
  ["price_status"; "fundamentals_status"; "analyst_status"; "sentiment_status";
   "company_status"; "agents_completed"; "validation_results"; "overall_status";
   "progress_percentage"; "data_sources"; "processing_errors"; "partial_data"].

(** A request as the two drivers build it, in a heap of its own. *)
Definition request_heap (symbol : string) : heap := [ODict {["symbol" := VStr symbol]}].

(** A success captured as state: the payload set, the status [success],
    the agent's sources at the end of a copy of the source list, and
    the agent's name in the shared list of completed agents. *)
Definition success_recorded (h' : heap) (st' : gmap string value) (cl : loc)
    (cs ds : list string) (name status_key : string) (sources : list string) : Prop :=
  st' !! status_key = Some (VStr "success")
  ∧ (∃ dl', st' !! "data_sources" = Some (VRef dl') ∧ h' !! dl' = Some (OList (ds ++ sources)))
  ∧ st' !! "agents_completed" = Some (VRef cl)
  ∧ h' !! cl = Some (OList (completed_with name cs)).

(** The five tests of the formatter on a state with typed payload:
    which kinds of data it counts as present. *)
Definition has_price_data (st : gmap string value) : bool :=
  match st !! "price_data" with
  | Some (VPrice p) => bool_decide (0 < price_len p)%nat
  | _ => false
  end.

Definition has_fundamentals (st : gmap string value) : bool :=
  match st !! "financial_metrics" with
  | Some (VMetrics _) => true
  | _ => false
  end.

Definition has_analyst_ratings (st : gmap string value) : bool :=
  match st !! "analyst_ratings" with
  | Some (VRatings (_ :: _)) => true
  | _ => false
  end.

Definition has_sentiment_items (st : gmap string value) : bool :=
  match st !! "sentiment_items" with
  | Some (VItems (_ :: _)) => true
  | _ => false
  end.

Definition has_company_name (st : gmap string value) : bool :=
  match st !! "company_name" with
  | Some (VStr _) => true
  | _ => false
  end.

Definition any_data (st : gmap string value) : bool :=
  has_price_data st || has_fundamentals st || has_analyst_ratings st
  || has_sentiment_items st || has_company_name st.

(** ** [schemas.py]: the request model *)

(** [StockRequest(symbol=...)]: the field pattern [^[A-Z]{1,5}$], as
    pydantic compiles it (the whole string, one to five letters A to Z). *)
Definition StockRequest (symbol : string) : result string :=
  if bool_decide (1 ≤ length (str symbol) ≤ 5)%nat && forallb is_upper_letter (str symbol)
  then inr symbol
  else inl (Exn ValidationError "symbol").

(** The keys [fetch_fundamentals_yf] can collect. *)
Definition collected_keys : list string :=
  ["fifty_two_week_high"; "fifty_two_week_low"; "market_cap"; "pe_ratio"; "price_to_book";
   "dividend_yield"; "beta"; "revenue_ttm"; "profit_margin"; "shares_outstanding"].

(** The eighteen fields of a [FinancialMetrics]. *)
Definition metric_fields (m : FinancialMetrics) : list (option float) :=
  [market_cap m; pe_ratio m; peg_ratio m; price_to_book m; price_to_sales m;
   revenue_ttm m; gross_margin m; operating_margin m; profit_margin m;
   return_on_equity m; return_on_assets m; debt_to_equity m; current_ratio m;
   quick_ratio m; dividend_yield m; beta m; fifty_two_week_high m;
   fifty_two_week_low m].

(** ** The vote of [calculate_consensus_rating] *)

(** The keyword a rating votes for: the first of BUY, HOLD and SELL
    that its uppercased text contains. *)
Definition rating_keyword (rating : AnalystRating) : option string :=
  let rating_text := upper (str (ar_rating rating)) in
  if contains (str "BUY") rating_text then Some "BUY"
  else if contains (str "HOLD") rating_text then Some "HOLD"
  else if contains (str "SELL") rating_text then Some "SELL"
  else None.

(** The number of ratings that vote for [k]. *)
Definition votes (k : string) (ratings : list AnalystRating) : Z :=
  Z.of_nat (length (filter (λ r, rating_keyword r = Some k) ratings)).

(** Keyword [k] gets a vote before [k'] gets any. *)
Definition votes_first (k k' : string) (ratings : list AnalystRating) : Prop :=
  ∃ a r, ratings !! a = Some r ∧ rating_keyword r = Some k
         ∧ ∀ b r', (b ≤ a)%nat → ratings !! b = Some r' → rating_keyword r' ≠ Some k'.

(** ** The concurrent driver *)

(** The payload keys, the ones the five agents fill. *)
Definition payload_names : list string :=
  ["price_data"; "financial_metrics"; "analyst_ratings"; "earnings_data";
   "sentiment_items"; "sentiment_summary"; "company_name"].

(** A state that holds no payload yet. *)
Definition payload_absent (st : gmap string value) : Prop :=
  Forall (λ k, st !! k = None) payload_names.

(** The keys each agent may write in its copy of the state. *)
Definition price_keys : list string :=
  ["price_status"; "price_data"; "price_error"; "data_sources"; "processing_errors";
   "partial_data"].
Definition fundamentals_keys : list string :=
  ["fundamentals_status"; "financial_metrics"; "fundamentals_error"; "data_sources";
   "processing_errors"; "partial_data"].
Definition analyst_keys : list string :=
  ["analyst_status"; "analyst_ratings"; "earnings_data"; "analyst_error"; "data_sources";
   "processing_errors"; "partial_data"].
Definition sentiment_keys : list string :=
  ["sentiment_status"; "sentiment_items"; "sentiment_summary"; "sentiment_error";
   "data_sources"; "processing_errors"; "partial_data"].
Definition company_keys : list string := ["company_status"; "company_name"].

(** What the services give for a symbol, as the agents store it. *)
Definition price_of (svc : Services) (symbol : value) : option value :=
  match svc_fetch_current_price svc symbol with
  | inr price_data => Some (VPrice price_data)
  | inl _ => None
  end.

Definition metrics_of (svc : Services) (symbol : value) : FinancialMetrics :=
  match svc_fetch_financial_metrics svc symbol with
  | inr financial_metrics => financial_metrics
  | inl _ => empty_metrics
  end.

Definition analyst_of (svc : Services) (symbol : value)
    : list AnalystRating * list EarningsData :=
  match svc_fetch_analyst_ratings svc symbol, svc_fetch_earnings_data svc symbol with
  | inr analyst_ratings, inr earnings_data => (analyst_ratings, earnings_data)
  | _, _ => ([], [])
  end.

Definition sentiment_of (svc : Services) (symbol : value)
    : list SentimentItem * SentimentSummary :=
  match svc_fetch_comprehensive_sentiment svc symbol with
  | inr found => found
  | inl _ => ([], neutral_summary "Sentiment analysis unavailable")
  end.

Definition company_of (svc : Services) (symbol : value) : option string :=
  match svc_get_company_name svc symbol with
  | inr (Some company_name) => Some company_name
  | _ => None
  end.

(** The sources each agent adds to its copy of the source list. *)
Definition price_sources (svc : Services) (symbol : value) : list string :=
  match svc_fetch_current_price svc symbol with
  | inr price_data => [default "unknown" (pd_source price_data)]
  | inl _ => []
  end.

Definition fundamentals_sources (svc : Services) (symbol : value) : list string :=
  match svc_fetch_financial_metrics svc symbol with
  | inr _ => ["yfinance_fundamentals"]
  | inl _ => []
  end.

Definition analyst_sources (svc : Services) (symbol : value) : list string :=
  match svc_fetch_analyst_ratings svc symbol, svc_fetch_earnings_data svc symbol with
  | inr analyst_ratings, inr earnings_data =>
      (if analyst_ratings is [] then [] else ["finnhub_analysts"])
      ++ (if earnings_data is [] then [] else ["yfinance_earnings"])
  | _, _ => []
  end.

Definition sentiment_sources (svc : Services) (symbol : value) : list string :=
  match svc_fetch_comprehensive_sentiment svc symbol with
  | inr _ => ["newsapi"; "rss_feeds"]
  | inl _ => []
  end.

(** The message each agent adds to its copy of the error list. *)
Definition price_errors (svc : Services) (symbol : value) : list string :=
  match svc_fetch_current_price svc symbol with
  | inr _ => []
  | inl e => ["Price fetch failed: " +:+ exn_str e]
  end.

Definition fundamentals_errors (svc : Services) (symbol : value) : list string :=
  match svc_fetch_financial_metrics svc symbol with
  | inr _ => []
  | inl e => ["Fundamentals fetch failed: " +:+ exn_str e]
  end.

Definition analyst_errors (svc : Services) (symbol : value) : list string :=
  match svc_fetch_analyst_ratings svc symbol, svc_fetch_earnings_data svc symbol with
  | inr _, inr _ => []
  | inl e, _ | inr _, inl e => ["Analyst data fetch failed: " +:+ exn_str e]
  end.

Definition sentiment_errors (svc : Services) (symbol : value) : list string :=
  match svc_fetch_comprehensive_sentiment svc symbol with
  | inr _ => []
  | inl e => ["Sentiment analysis failed: " +:+ exn_str e]
  end.

(** An agent's run beside the others: its result is a well-formed state
    of its own, the state it was given is as it was but for the shared
    list of completed agents, and nothing else has changed. *)
Record beside (h h' : heap) (state : loc) (st st' : gmap string value)
    (cl vl dl el dl' el' : loc) (cs cs' ds ds' es es' : list string)
    (vr : gmap string value) : Prop := {
  bs_result : stream_state h' (length h) st' cl vl dl' el' cs' ds' es' vr;
  bs_given : stream_state h' state st cl vl dl el cs' ds es vr;
  bs_frame : extends cl h h';
  bs_grown : (length h < length h')%nat
}.

(** The accumulator of the merge. *)
Record merged (h : heap) (final : loc) (fd : gmap string value) : Prop := {
  mg_dict : h !! final = Some (ODict fd);
  mg_sources : list_or_absent h final "data_sources";
  mg_errors : list_or_absent h final "processing_errors";
  mg_typed : payload_typed fd
}.

(** A state as [root_node] leaves it on a request that holds a symbol
    only: no payload, every status pending, no partial data. *)
Record root_state (st : gmap string value) : Prop := {
  rs_payload : payload_absent st;
  rs_statuses :
    Forall (λ k, st !! k = Some (VStr "pending"))
      ["price_status"; "fundamentals_status"; "analyst_status"; "sentiment_status";
       "company_status"];
  rs_partial : st !! "partial_data" = Some (VBool false)
}.

(** The sources and the error messages of a whole analysis. *)
Definition sources_of (svc : Services) (symbol : value) : list string :=
  price_sources svc symbol ++ fundamentals_sources svc symbol
  ++ analyst_sources svc symbol ++ sentiment_sources svc symbol.

Definition errors_of (svc : Services) (symbol : value) : list string :=
  price_errors svc symbol ++ fundamentals_errors svc symbol
  ++ analyst_errors svc symbol ++ sentiment_errors svc symbol.

(** * Properties *)

(** ** Strings *)

Lemma is_space_newline : is_space newline = true.
Proof. reflexivity. Qed.

Lemma upper_char_newline c : upper_char c = newline → c = newline.
Proof.
  unfold upper_char. destruct (is_lower_letter c) eqn:Hl; [|done].
  unfold is_lower_letter in Hl.
  apply andb_prop in Hl as [H1%bool_decide_eq_true H2%bool_decide_eq_true].
  intros Hc. apply (f_equal nat_of_ascii) in Hc.
  rewrite nat_ascii_embedding in Hc by (unfold code in *; lia).
  unfold newline in Hc. rewrite nat_ascii_embedding in Hc by lia.
  unfold code in *. lia.
Qed.

Lemma head_lstrip s c : head (lstrip s) = Some c → is_space c = false.
Proof.
  induction s as [|a s IH]; [done|]. simpl.
  destruct (is_space a) eqn:Ha; [done|]. simpl. by intros [= <-].
Qed.

Lemma last_strip s c : last (strip s) = Some c → is_space c = false.
Proof. unfold strip. rewrite last_reverse. apply head_lstrip. Qed.

(** A normalised symbol does not end in a newline, so [$] can only
    match at the very end. *)
Lemma last_normalised s : last (upper (strip s)) ≠ Some newline.
Proof.
  unfold upper. rewrite fmap_last.
  destruct (last (strip s)) as [c|] eqn:Hc; [|done].
  simpl. intros Hn. injection Hn as Hn. apply upper_char_newline in Hn. subst c.
  apply last_strip in Hc. by rewrite is_space_newline in Hc.
Qed.

Lemma run_then_end_all s :
  run_then_end s = true → last s ≠ Some newline → forallb letter_or_dot s = true.
Proof.
  induction s as [|c s IH]; [done|]. simpl.
  destruct (letter_or_dot c) eqn:Hc.
  - intros Hr Hl. apply IH; [done|]. destruct s; [done|]. by rewrite last_cons_cons in Hl.
  - intros Hr Hl. apply andb_prop in Hr as [Hn Hs].
    apply bool_decide_eq_true in Hn, Hs. by subst.
Qed.

Lemma all_run_then_end s : forallb letter_or_dot s = true → run_then_end s = true.
Proof.
  induction s as [|c s IH]; [done|]. simpl.
  intros [Hc Hs]%andb_prop. rewrite Hc. by apply IH.
Qed.

Lemma re_match_letters_dots_spec s :
  last s ≠ Some newline →
  re_match_letters_dots s = true ↔ s ≠ [] ∧ forallb letter_or_dot s = true.
Proof.
  intros Hl. destruct s as [|c s]; [split; [done|by intros [? _]]|]. simpl. split.
  - intros [Hc Hr]%andb_prop. split; [done|]. rewrite Hc. simpl.
    apply run_then_end_all; [done|]. destruct s; [done|]. by rewrite last_cons_cons in Hl.
  - intros [_ [Hc Hs]%andb_prop]. rewrite Hc. simpl. by apply all_run_then_end.
Qed.

Lemma startswith_one c s : startswith [c] s = true ↔ head s = Some c.
Proof.
  destruct s as [|a s]; simpl; [naive_solver|].
  rewrite andb_true_r, bool_decide_eq_true. naive_solver.
Qed.

Lemma endswith_one c s : endswith [c] s = true ↔ last s = Some c.
Proof. unfold endswith. rewrite reverse_singleton, startswith_one. by rewrite head_reverse. Qed.

Lemma contains_pair c s :
  contains [c; c] s = true ↔ ∃ i, s !! i = Some c ∧ s !! S i = Some c.
Proof.
  induction s as [|a s IH].
  - simpl. split; [done|]. by intros (i & Hi & _).
  - cbn [contains]. rewrite orb_true_iff, IH. split.
    + intros [Hp|(i & H1 & H2)].
      * destruct s as [|b s]; simpl in Hp.
        { by rewrite andb_false_r in Hp. }
        rewrite andb_true_r in Hp.
        apply andb_prop in Hp as [->%bool_decide_eq_true ->%bool_decide_eq_true].
        by exists 0%nat.
      * by exists (S i).
    + intros ([|i] & H1 & H2).
      * left. destruct s as [|b s]; [done|]. simpl in *.
        injection H1 as ->. injection H2 as ->.
        by rewrite !bool_decide_eq_true_2.
      * right. by exists i.
Qed.

(** ** Symbol validation *)

Lemma letter_or_dot_all s :
  forallb letter_or_dot s = true ↔ Forall (λ c, is_upper_letter c = true ∨ c = dot) s.
Proof.
  induction s as [|c s IH]; simpl.
  - split; [constructor|done].
  - rewrite andb_true_iff, Forall_cons, IH. unfold letter_or_dot.
    rewrite orb_true_iff, bool_decide_eq_true. done.
Qed.

(** The four tests of the validator, on a normalised symbol, are the
    five clauses of [symbol_shape]. *)
Lemma symbol_shape_tests n :
  last n ≠ Some newline →
  symbol_shape n ↔
    (bool_decide (length n < 1)%nat || bool_decide (5 < length n)%nat) = false
    ∧ re_match_letters_dots n = true
    ∧ (startswith [dot] n || endswith [dot] n) = false
    ∧ contains [dot; dot] n = false.
Proof.
  intros Hl. unfold symbol_shape.
  rewrite (re_match_letters_dots_spec _ Hl), letter_or_dot_all.
  rewrite !orb_false_iff, !bool_decide_eq_false.
  rewrite <- !not_true_iff_false, startswith_one, endswith_one, contains_pair.
  split.
  - intros (Hlen & Hall & Hh & Ht & Hd). repeat split; try done; try lia.
    intros ->. simpl in Hlen. lia.
  - intros ((H1 & H5) & (Hne & Hall) & (Hh & Ht) & Hd). repeat split; try done; lia.
Qed.

Lemma validate_cases s :
  (symbol_shape (normalised s) ∧ validate_stock_symbol (VStr s) = inr true)
  ∨ (¬ symbol_shape (normalised s)
     ∧ ∃ msg, validate_stock_symbol (VStr s) = inl (Exn InvalidSymbolError msg)).
Proof.
  pose proof (symbol_shape_tests (normalised s) (last_normalised _)) as Ht.
  unfold validate_stock_symbol, invalid_symbol. fold (normalised s).
  destruct (decide (s = "")) as [->|He].
  { right. split; [|eexists; reflexivity].
    intros [Hlen _]. simpl in Hlen. lia. }
  rewrite (bool_decide_eq_false_2 _ He).
  destruct (bool_decide (length (normalised s) < 1)%nat
            || bool_decide (5 < length (normalised s))%nat) eqn:H1.
  { right. split; [|eexists; reflexivity]. intros (? & _)%Ht. congruence. }
  destruct (re_match_letters_dots (normalised s)) eqn:H2; cbn [negb].
  2:{ right. split; [|eexists; reflexivity]. intros (_ & ? & _)%Ht. congruence. }
  destruct (startswith [dot] (normalised s) || endswith [dot] (normalised s)) eqn:H3.
  { right. split; [|eexists; reflexivity]. intros (_ & _ & ? & _)%Ht. congruence. }
  destruct (contains [dot; dot] (normalised s)) eqn:H4.
  { right. split; [|eexists; reflexivity]. intros (_ & _ & _ & ?)%Ht. congruence. }
  left. split; [|done]. by apply Ht.
Qed.

(** C1, as amended: on ASCII input the validator accepts exactly the
    strings whose stripped and uppercased form is one to five characters
    long, made of uppercase letters and dots, with no dot first or last
    and no two dots in a row, and raises [InvalidSymbolError] on every
    other string; when it raises, the streaming driver raises the same
    exception before it yields an event or touches the heap, hence
    before any agent runs. *)
Theorem validate_stock_symbol_normalised (s : string) :
  ascii_only s →
  (symbol_shape (normalised s) ↔ validate_stock_symbol (VStr s) = inr true)
  ∧ (¬ symbol_shape (normalised s) →
     ∃ msg, validate_stock_symbol (VStr s) = inl (Exn InvalidSymbolError msg)
            ∧ ∀ svc h,
                stream_coordinated_analysis svc s h
                = (([], inl (Exn InvalidSymbolError msg)), h)).
Proof.
  intros _. destruct (validate_cases s) as [[Hs Hv]|[Hn [msg Hm]]].
  { split; [by split|]. by intros []. }
  split.
  - split; [done|]. rewrite Hm. intros H. discriminate H.
  - intros _. exists msg. split; [done|].
    intros svc h. unfold stream_coordinated_analysis, run, await.
    unfold mbind at 1, G_bind. by rewrite Hm.
Qed.

(** Lowercase input passes: the validator uppercases before it tests. *)
Lemma validate_stock_symbol_lowercase :
  validate_stock_symbol (VStr "aapl") = inr true ∧ ¬ symbol_shape (str "aapl").
Proof.
  split; [reflexivity|].
  intros (_ & Hall & _). apply Forall_cons in Hall as [[H|H] _]; [|]; discriminate H.
Qed.

Lemma validate_stock_symbol_normalised_witness :
  ascii_only " brk.b"
  ∧ validate_stock_symbol (VStr " brk.b") = inr true.
Proof.
  assert (Ha : ascii_only " brk.b") by (repeat constructor).
  split; [exact Ha|].
  apply (proj1 (validate_stock_symbol_normalised " brk.b" Ha)).
  assert (Hn : normalised " brk.b" = str "BRK.B") by (vm_compute; reflexivity).
  rewrite Hn. unfold symbol_shape. repeat split.
  - simpl. lia.
  - simpl. lia.
  - repeat (apply Forall_cons; split; [first [left; reflexivity|right; reflexivity]|]).
    constructor.
  - intros H. discriminate H.
  - intros H. discriminate H.
  - intros (i & H1 & H2).
    do 6 (destruct i as [|i]; [discriminate|]). discriminate.
Defined.

(** ** Running computations on a heap *)

Lemma bind_ok {A B} (m : M A) (f : A → M B) h a h' :
  m h = (inr a, h') → (m ≫= f) h = f a h'.
Proof. intros H. unfold mbind, M_bind. by rewrite H. Qed.

Lemma bind_err {A B} (m : M A) (f : A → M B) h e h' :
  m h = (inl e, h') → (m ≫= f) h = (inl e, h').
Proof. intros H. unfold mbind, M_bind. by rewrite H. Qed.

Lemma try_ok {A} (m : M A) handler h a h' :
  m h = (inr a, h') → try_except m handler h = (inr a, h').
Proof. intros H. unfold try_except. by rewrite H. Qed.

Lemma try_err {A} (m : M A) handler h e h' :
  m h = (inl e, h') → try_except m handler h = handler e h'.
Proof. intros H. unfold try_except. by rewrite H. Qed.

Lemma load_run h l o : h !! l = Some o → load l h = (inr o, h).
Proof. intros H. unfold load. by rewrite H. Qed.

Lemma load_dict_run h l d : h !! l = Some (ODict d) → load_dict l h = (inr d, h).
Proof. intros H. unfold load_dict. by rewrite (bind_ok _ _ _ _ _ (load_run _ _ _ H)). Qed.

Lemma load_list_run h l xs : h !! l = Some (OList xs) → load_list l h = (inr xs, h).
Proof. intros H. unfold load_list. by rewrite (bind_ok _ _ _ _ _ (load_run _ _ _ H)). Qed.

Lemma getitem_run h d m k v :
  h !! d = Some (ODict m) → m !! k = Some v → getitem d k h = (inr v, h).
Proof.
  intros Hd Hk. unfold getitem.
  rewrite (bind_ok _ _ _ _ _ (load_dict_run _ _ _ Hd)). by rewrite Hk.
Qed.

Lemma dict_lookup_run h d m k :
  h !! d = Some (ODict m) → dict_lookup d k h = (inr (m !! k), h).
Proof.
  intros Hd. unfold dict_lookup.
  by rewrite (bind_ok _ _ _ _ _ (load_dict_run _ _ _ Hd)).
Qed.

Lemma dict_get_run h d m k :
  h !! d = Some (ODict m) → dict_get d k h = (inr (default VNone (m !! k)), h).
Proof.
  intros Hd. unfold dict_get.
  by rewrite (bind_ok _ _ _ _ _ (load_dict_run _ _ _ Hd)).
Qed.

Lemma setitem_run h d m k v :
  h !! d = Some (ODict m) → setitem d k v h = (inr (), <[d := ODict (<[k := v]> m)]> h).
Proof.
  intros Hd. unfold setitem.
  by rewrite (bind_ok _ _ _ _ _ (load_dict_run _ _ _ Hd)).
Qed.

Lemma update_run h d m kvs :
  h !! d = Some (ODict m) → update d kvs h = (inr (), <[d := ODict (update_all kvs m)]> h).
Proof.
  intros Hd. unfold update.
  by rewrite (bind_ok _ _ _ _ _ (load_dict_run _ _ _ Hd)).
Qed.

Lemma dict_copy_run h d m :
  h !! d = Some (ODict m) → dict_copy d h = (inr (length h), h ++ [ODict m]).
Proof.
  intros Hd. unfold dict_copy.
  by rewrite (bind_ok _ _ _ _ _ (load_dict_run _ _ _ Hd)).
Qed.

Lemma list_ref_run h l xs : h !! l = Some (OList xs) → list_ref (VRef l) h = (inr l, h).
Proof.
  intros Hl. unfold list_ref.
  by rewrite (bind_ok _ _ _ _ _ (load_list_run _ _ _ Hl)).
Qed.

Lemma get_list_run h d m k l xs :
  h !! d = Some (ODict m) → m !! k = Some (VRef l) → h !! l = Some (OList xs) →
  get_list d k h = (inr l, h).
Proof.
  intros Hd Hk Hl. unfold get_list.
  rewrite (bind_ok _ _ _ _ _ (dict_lookup_run _ _ _ k Hd)), Hk.
  by apply list_ref_run with xs.
Qed.

Lemma get_list_items_run h d m k l xs :
  h !! d = Some (ODict m) → m !! k = Some (VRef l) → h !! l = Some (OList xs) →
  get_list_items d k h = (inr xs, h).
Proof.
  intros Hd Hk Hl. unfold get_list_items.
  rewrite (bind_ok _ _ _ _ _ (dict_lookup_run _ _ _ k Hd)), Hk.
  rewrite (bind_ok _ _ _ _ _ (list_ref_run _ _ _ Hl)).
  by apply load_list_run.
Qed.

Lemma get_list_items_missing h d m k :
  h !! d = Some (ODict m) → m !! k = None → get_list_items d k h = (inr [], h).
Proof.
  intros Hd Hk. unfold get_list_items.
  by rewrite (bind_ok _ _ _ _ _ (dict_lookup_run _ _ _ k Hd)), Hk.
Qed.

Lemma get_list_copy_run h d m k l xs :
  h !! d = Some (ODict m) → m !! k = Some (VRef l) → h !! l = Some (OList xs) →
  get_list_copy d k h = (inr (length h), h ++ [OList xs]).
Proof.
  intros Hd Hk Hl. unfold get_list_copy.
  rewrite (bind_ok _ _ _ _ _ (dict_lookup_run _ _ _ k Hd)), Hk.
  rewrite (bind_ok _ _ _ _ _ (list_ref_run _ _ _ Hl)).
  by rewrite (bind_ok _ _ _ _ _ (load_list_run _ _ _ Hl)).
Qed.

Lemma append_run h l xs x :
  h !! l = Some (OList xs) → append l x h = (inr (), <[l := OList (xs ++ [x])]> h).
Proof.
  intros Hl. unfold append.
  by rewrite (bind_ok _ _ _ _ _ (load_list_run _ _ _ Hl)).
Qed.

Lemma extend_run h l xs ys :
  h !! l = Some (OList xs) → extend l ys h = (inr (), <[l := OList (xs ++ ys)]> h).
Proof.
  intros Hl. unfold extend.
  by rewrite (bind_ok _ _ _ _ _ (load_list_run _ _ _ Hl)).
Qed.

Lemma list_mem_run h l xs x :
  h !! l = Some (OList xs) → list_mem x l h = (inr (bool_decide (x ∈ xs)), h).
Proof.
  intros Hl. unfold list_mem.
  by rewrite (bind_ok _ _ _ _ _ (load_list_run _ _ _ Hl)).
Qed.

Lemma py_len_list h l xs :
  h !! l = Some (OList xs) → py_len (VRef l) h = (inr (Z.of_nat (length xs)), h).
Proof. intros Hl. unfold py_len. by rewrite (bind_ok _ _ _ _ _ (load_run _ _ _ Hl)). Qed.

Lemma py_len_dict h l d :
  h !! l = Some (ODict d) → py_len (VRef l) h = (inr (Z.of_nat (size d)), h).
Proof. intros Hl. unfold py_len. by rewrite (bind_ok _ _ _ _ _ (load_run _ _ _ Hl)). Qed.

(** The heap as a prefix and the cells allocated since. *)
Lemma insert_new0 (h : heap) o o' t : <[length h := o']> (h ++ o :: t) = h ++ o' :: t.
Proof. rewrite insert_app_r_alt by lia. by rewrite Nat.sub_diag. Qed.

Lemma insert_new1 (h : heap) o1 o o' t :
  <[S (length h) := o']> (h ++ o1 :: o :: t) = h ++ o1 :: o' :: t.
Proof.
  rewrite insert_app_r_alt by lia.
  by replace (S (length h) - length h)%nat with 1%nat by lia.
Qed.

Lemma insert_new0_moved (h h' : heap) o o' t :
  length h' = length h → <[length h := o']> (h' ++ o :: t) = h' ++ o' :: t.
Proof. intros <-. apply insert_new0. Qed.

Lemma lookup_new0 (h : heap) o t : (h ++ o :: t) !! length h = Some o.
Proof. by rewrite list_lookup_middle. Qed.

Lemma insert_new0_lookup (h : heap) cl o' o t :
  (<[cl := o']> h ++ o :: t) !! length h = Some o.
Proof. rewrite <- (length_insert h cl o'). apply lookup_new0. Qed.

Lemma lookup_new1 (h : heap) o1 o t : (h ++ o1 :: o :: t) !! S (length h) = Some o.
Proof.
  rewrite lookup_app_r by lia.
  by replace (S (length h) - length h)%nat with 1%nat by lia.
Qed.

Lemma lookup_old (h t : heap) l o : h !! l = Some o → (h ++ t) !! l = Some o.
Proof. intros. by apply lookup_app_l_Some. Qed.

Lemma insert_old (h t : heap) l o o' :
  h !! l = Some o → <[l := o']> (h ++ t) = <[l := o']> h ++ t.
Proof. intros H%lookup_lt_Some. by rewrite insert_app_l. Qed.

(** ** Progress *)

Lemma progress_of_table c v :
  0 ≤ c ≤ 5 → 0 ≤ v ≤ 5 →
  progress_of c v = 17 * c + 2 * v + (if c =? 5 then 5 else 0).
Proof.
  intros Hc Hv.
  assert (c = 0 ∨ c = 1 ∨ c = 2 ∨ c = 3 ∨ c = 4 ∨ c = 5) as Hc' by lia.
  assert (v = 0 ∨ v = 1 ∨ v = 2 ∨ v = 3 ∨ v = 4 ∨ v = 5) as Hv' by lia.
  destruct Hc' as [->|[->|[->|[->|[->| ->]]]]];
    destruct Hv' as [->|[->|[->|[->|[->| ->]]]]];
    vm_compute; reflexivity.
Qed.

Lemma progress_formula_table c v :
  0 ≤ c ≤ 5 → 0 ≤ v ≤ 5 →
  progress_formula c v = 17 * c + 2 * v + (if c =? 5 then 5 else 0).
Proof.
  intros Hc Hv. unfold progress_formula.
  replace (85 * c / 5) with (17 * c) by (apply Z.div_unique_exact; lia).
  replace (10 * v / 5) with (2 * v) by (apply Z.div_unique_exact; lia).
  destruct (c =? 5) eqn:E; lia.
Qed.

(** C5: [calculate_progress] reads the length of [agents_completed] and
    the number of entries of [validation_results]; on counts between 0
    and 5 its floating-point arithmetic gives exactly
    min(100, 85*completed/5 + 10*validated/5 + (5 if completed==5 else 0)),
    which does not decrease when either count grows and is 100 when both
    are 5. *)
Theorem calculate_progress_formula (h : heap) (state cl vl : loc)
    (st vr : gmap string value) (cs : list string) :
  h !! state = Some (ODict st) →
  st !! "agents_completed" = Some (VRef cl) → h !! cl = Some (OList cs) →
  st !! "validation_results" = Some (VRef vl) → h !! vl = Some (ODict vr) →
  (length cs ≤ 5)%nat → (size vr ≤ 5)%nat →
  calculate_progress state h
  = (inr (progress_formula (Z.of_nat (length cs)) (Z.of_nat (size vr))), h)
  ∧ (∀ c v, 0 ≤ c ≤ 5 → 0 ≤ v ≤ 5 → progress_of c v = progress_formula c v)
  ∧ (∀ c v c' v', 0 ≤ c ≤ c' → c' ≤ 5 → 0 ≤ v ≤ v' → v' ≤ 5 →
       progress_of c v ≤ progress_of c' v')
  ∧ progress_of 5 5 = 100.
Proof.
  intros Hs Hc Hcl Hv Hvl Hnc Hnv.
  assert (Heq : ∀ c v, 0 ≤ c ≤ 5 → 0 ≤ v ≤ 5 → progress_of c v = progress_formula c v).
  { intros c v ? ?. by rewrite progress_of_table, progress_formula_table. }
  split; [|split; [done|split]].
  - unfold calculate_progress, len_of_key.
    erewrite bind_ok; [|erewrite bind_ok; [|by apply dict_lookup_run];
                        rewrite Hc; by apply py_len_list].
    erewrite bind_ok; [|erewrite bind_ok; [|by apply dict_lookup_run];
                        rewrite Hv; by apply py_len_dict].
    unfold mret, M_ret. rewrite Heq by lia. done.
  - intros c v c' v' ? ? ? ?. rewrite !progress_of_table by lia.
    destruct (c =? 5) eqn:E1, (c' =? 5) eqn:E2; lia.
  - reflexivity.
Qed.

Lemma calculate_progress_formula_witness :
  calculate_progress 0%nat
    [ODict {[ "agents_completed" := VRef 1%nat; "validation_results" := VRef 2%nat ]};
     OList ["price"; "company"]; ODict {[ "price" := VBool true ]}]
  = (inr 36,
     [ODict {[ "agents_completed" := VRef 1%nat; "validation_results" := VRef 2%nat ]};
      OList ["price"; "company"]; ODict {[ "price" := VBool true ]}]).
Proof.
  refine (proj1 (calculate_progress_formula _ 0%nat 1%nat 2%nat
                   {[ "agents_completed" := VRef 1%nat; "validation_results" := VRef 2%nat ]}
                   {[ "price" := VBool true ]} ["price"; "company"] _ _ _ _ _ _ _)).
  - reflexivity.
  - reflexivity.
  - reflexivity.
  - reflexivity.
  - reflexivity.
  - simpl. lia.
  - vm_compute. lia.
Defined.

(** ** Sentiment aggregation *)

Section SentimentProperties.
Variable cfg : Settings.
Variables mean stdev : list float → float.
Variable analyze_article_sentiment : Article → result SentimentItem.
Variable generate_ai_summary : list SentimentItem → float → result string.

(** C7: whenever the aggregation returns, the three counts of its
    summary add up to the number of scored items, and with nothing
    scored the counts are 0, the label is neutral and the confidence is
    0; for an empty article set it does return, with no items.  It
    raises when a title is null; otherwise, when [statistics.stdev]
    gives a deviation for which the confidence lies in the unit
    interval, it returns. *)
Theorem sentiment_counts_add_up (news rss : result (list Article)) :
  let all_articles :=
    match news with inr l => l | inl _ => [] end
    ++ match rss with inr l => l | inl _ => [] end in
  let run :=
    fetch_comprehensive_sentiment cfg mean stdev analyze_article_sentiment
      generate_ai_summary news rss in
  (∀ items summary,
     run = inr (items, summary) →
     positive_count summary + negative_count summary + neutral_count summary
     = Z.of_nat (length items)
     ∧ (items = [] →
        positive_count summary = 0 ∧ negative_count summary = 0
        ∧ neutral_count summary = 0 ∧ overall_score summary = NEUTRAL
        ∧ confidence summary = 0%float))
  ∧ (all_articles = [] →
     ∃ summary,
       run = inr ([], summary)
       ∧ positive_count summary = 0 ∧ negative_count summary = 0
       ∧ neutral_count summary = 0 ∧ overall_score summary = NEUTRAL
       ∧ confidence summary = 0%float)
  ∧ (existsb null_title all_articles = true →
     ∃ e, run = inl e ∧ exn_class e = TypeError)
  ∧ (existsb null_title all_articles = false →
     (∀ polarities, confidence_accepted (stdev polarities) = true) →
     ∃ items summary, run = inr (items, summary)).
Proof.
  cbv zeta. unfold fetch_comprehensive_sentiment.
  destruct (_ ++ _) as [|a all] eqn:Hall.
  { split; [intros items summary [= <- <-]; by repeat split|].
    split; [intros _; eexists; by repeat split|].
    split; [intros H; discriminate H|]. intros _ _. by eexists _, _. }
  destruct (existsb null_title (a :: all)) eqn:Hnull.
  { split; [intros items summary H; discriminate H|].
    split; [intros H; discriminate H|].
    split; [intros _; by eexists|]. intros H. discriminate H. }
  destruct (analyze_all _ _) as [|i items] eqn:Hitems.
  { split; [intros items summary [= <- <-]; by repeat split|].
    split; [intros H; discriminate H|].
    split; [intros H; discriminate H|]. intros _ _. by eexists _, _. }
  unfold make_SentimentSummary.
  split; [|split; [intros H; discriminate H|split; [intros H; discriminate H|]]].
  - intros items' summary.
    destruct (PrimFloat.leb 0 _ && PrimFloat.leb _ 1); [|intros H; discriminate H].
    intros [= <- <-]. cbn [positive_count negative_count neutral_count].
    split; [rewrite ?length_fmap; cbn [length]; lia|]. intros H. discriminate H.
  - intros _ stdev_accepted.
    set (std := if bool_decide _ then _ else _).
    assert (Hstd : confidence_accepted std = true).
    { unfold std. case_bool_decide; [apply stdev_accepted|reflexivity]. }
    unfold confidence_accepted in Hstd. cbv zeta in Hstd. rewrite Hstd.
    by eexists _, _.
Qed.
End SentimentProperties.

Lemma sentiment_counts_add_up_witness :
  ∃ items summary,
    fetch_comprehensive_sentiment default_settings (λ _, 0.5%float) (λ _, 0%float)
      (λ a, inr {| si_source := "Unknown"; si_title := title_text a;
                   si_polarity := 0.5; si_sentiment_score := VERY_POSITIVE;
                   si_published_at := None; si_url := None |})
      (λ _ _, inl (Exn DataNotFoundError "OpenAI summarization failed"))
      (inr [{| a_title := Text "Shares rally"; a_description := None; a_url := None;
               a_publishedAt := None; a_source_name := None |}])
      (inl (Exn StockDataError "Error in fetch_rss_news"))
    = inr (items, summary)
    ∧ positive_count summary + negative_count summary + neutral_count summary
      = Z.of_nat (length items)
    ∧ length items = 1%nat ∧ positive_count summary = 1.
Proof.
  pose proof (sentiment_counts_add_up default_settings (λ _, 0.5%float) (λ _, 0%float)
      (λ a, inr {| si_source := "Unknown"; si_title := title_text a;
                   si_polarity := 0.5; si_sentiment_score := VERY_POSITIVE;
                   si_published_at := None; si_url := None |})
      (λ _ _, inl (Exn DataNotFoundError "OpenAI summarization failed"))
      (inr [{| a_title := Text "Shares rally"; a_description := None; a_url := None;
               a_publishedAt := None; a_source_name := None |}])
      (inl (Exn StockDataError "Error in fetch_rss_news")))
    as [Hsum [_ [_ Hreturns]]].
  cbv zeta in Hsum, Hreturns.
  destruct (Hreturns eq_refl (λ _, eq_refl)) as (items & summary & Hrun).
  exists items, summary. split; [exact Hrun|].
  split; [exact (proj1 (Hsum items summary Hrun))|].
  vm_compute in Hrun. injection Hrun as <- <-. split; reflexivity.
Defined.

(** ** The task agents, run on an analysis state *)

(** A key that is none of the keys of a literal dict. *)
Ltac keys_apart :=
  cbn [fmap list_fmap fst];
  repeat (apply not_elem_of_cons; split; [discriminate|]);
  apply not_elem_of_nil.

Lemma update_all_lookup_other kvs (m : gmap string value) k :
  k ∉ kvs.*1 → update_all kvs m !! k = m !! k.
Proof.
  revert m. induction kvs as [|[k' v] kvs IH]; intros m Hk; [done|].
  rewrite fmap_cons in Hk. apply not_elem_of_cons in Hk as [Hne Hk].
  simpl in Hne. cbn [update_all]. rewrite IH by done. by apply lookup_insert_ne.
Qed.

Lemma mark_completed_run (h : heap) (result cl : loc) name st cs :
  h !! result = Some (ODict st) →
  st !! "agents_completed" = Some (VRef cl) →
  h !! cl = Some (OList cs) →
  mark_completed result name h
  = (inr (), <[result := ODict st]> (<[cl := OList (completed_with name cs)]> h)).
Proof.
  intros Hr Hc Hl. unfold mark_completed.
  rewrite (bind_ok _ _ _ _ _ (get_list_run _ _ _ _ _ _ Hr Hc Hl)).
  rewrite (bind_ok _ _ _ _ _ (list_mem_run _ _ _ name Hl)).
  assert (Hne : result ≠ cl) by (intros ->; congruence).
  unfold completed_with. destruct (bool_decide (name ∈ cs)).
  - rewrite (bind_ok _ _ h () h) by done.
    rewrite (setitem_run _ _ _ _ _ Hr), (insert_id st) by done.
    by rewrite (list_insert_id h cl).
  - rewrite (bind_ok _ _ _ _ _ (append_run _ _ _ name Hl)).
    erewrite setitem_run; [|by rewrite list_lookup_insert_ne].
    by rewrite (insert_id st).
Qed.

Section AgentRuns.
Variable svc : Services.
Variables (h : heap) (state : loc) (st : gmap string value) (symbol : value).
Variables (cl dl el : loc) (cs ds es : list string).
Hypothesis Hstate : analysis_state h state st symbol cl dl el cs ds es.

(** What every agent does before it awaits its service. *)
Lemma agent_prologue {A} status (k : value → loc → M A) (agent : M A) :
  agent = (symbol ← getitem state "symbol";
           result ← dict_copy state;
           setitem result status (VStr "processing");; k symbol result) →
  agent h = k symbol (length h) (h ++ [ODict (<[status := VStr "processing"]> st)]).
Proof.
  intros ->. destruct Hstate.
  erewrite bind_ok; [|by eapply getitem_run].
  erewrite bind_ok; [|by eapply dict_copy_run].
  erewrite bind_ok; [|apply setitem_run, lookup_new0].
  by rewrite insert_new0.
Qed.

(** The [except] branch of the four agents that record their error. *)
Lemma failure_run (msg : string) (fields : loc → list (string * value))
    (d : gmap string value) :
  (errors ← get_list_copy state "processing_errors";
   append errors msg;;
   update (length h) (fields errors);;
   mret (length h)) (h ++ [ODict d])
  = (inr (length h),
     h ++ [ODict (update_all (fields (S (length h))) d); OList (es ++ [msg])]).
Proof.
  destruct Hstate.
  erewrite bind_ok; [|eapply get_list_copy_run; by eauto using lookup_old].
  rewrite length_app, <- app_assoc. cbn [length app]. rewrite Nat.add_1_r.
  erewrite bind_ok; [|apply append_run, lookup_new1].
  rewrite insert_new1.
  erewrite bind_ok; [|apply update_run, lookup_new0].
  by rewrite insert_new0.
Qed.
(** The success branch of the four agents that record their sources:
    [fill l k] appends [src] to the copy [l] of [data_sources] and goes
    on with [k]. *)
Lemma success_run (fill : loc → M loc → M loc) (src : list string)
    (fields : loc → list (string * value)) (name : string) (d : gmap string value) :
  (∀ (H : heap) l xs k, H !! l = Some (OList xs) →
     fill l k H = k (<[l := OList (xs ++ src)]> H)) →
  "agents_completed" ∉ (fields (S (length h))).*1 →
  d !! "agents_completed" = Some (VRef cl) →
  (data_sources ← get_list_copy state "data_sources";
   fill data_sources
     (update (length h) (fields data_sources);;
      mark_completed (length h) name;;
      mret (length h))) (h ++ [ODict d])
  = (inr (length h),
     <[cl := OList (completed_with name cs)]> h
     ++ [ODict (update_all (fields (S (length h))) d); OList (ds ++ src)]).
Proof.
  intros Hfill Hfields Hd. destruct Hstate.
  erewrite bind_ok; [|eapply get_list_copy_run; by eauto using lookup_old].
  rewrite length_app, <- app_assoc. cbn [length app]. rewrite Nat.add_1_r.
  erewrite Hfill; [|apply lookup_new1].
  rewrite insert_new1.
  erewrite bind_ok; [|apply update_run, lookup_new0].
  rewrite insert_new0.
  erewrite bind_ok;
    [|eapply mark_completed_run;
      [apply lookup_new0
      |by rewrite update_all_lookup_other
      |by apply lookup_old]].
  erewrite insert_old by done.
  by rewrite insert_new0_moved by apply length_insert.
Qed.

Lemma append_fills x (H : heap) l xs :
  H !! l = Some (OList xs) → append l x H = (inr (), <[l := OList (xs ++ [x])]> H).
Proof. apply append_run. Qed.

Lemma status_keeps_completed status :
  status ≠ "agents_completed" →
  <[status := VStr "processing"]> st !! "agents_completed" = Some (VRef cl).
Proof. intros ?. rewrite lookup_insert_ne by done. by destruct Hstate. Qed.

Lemma price_agent_failure e :
  svc_fetch_current_price svc symbol = inl e →
  price_agent svc state h
  = (inr (length h),
     h ++ [ODict (update_all
                    [("price_error", VStr (exn_str e));
                     ("processing_errors", VRef (S (length h)));
                     ("partial_data", VBool true);
                     ("price_status", VStr "failed")]
                    (<["price_status" := VStr "processing"]> st));
           OList (es ++ ["Price fetch failed: " +:+ exn_str e])]).
Proof.
  intros He. rewrite (agent_prologue "price_status" _ (price_agent svc state) eq_refl).
  erewrite try_err; [|by erewrite bind_err; [|unfold await; by rewrite He]].
  exact (failure_run _ (λ errors, [_; ("processing_errors", VRef errors); _; _]) _).
Qed.

Lemma price_agent_success price_data :
  svc_fetch_current_price svc symbol = inr price_data →
  price_agent svc state h
  = (inr (length h),
     <[cl := OList (completed_with "price" cs)]> h
     ++ [ODict (update_all
                  [("price_data", VPrice price_data);
                   ("data_sources", VRef (S (length h)));
                   ("price_status", VStr "success")]
                  (<["price_status" := VStr "processing"]> st));
         OList (ds ++ [default "unknown" (pd_source price_data)])]).
Proof.
  intros He. rewrite (agent_prologue "price_status" _ (price_agent svc state) eq_refl).
  erewrite try_ok; [reflexivity|].
  erewrite bind_ok; [|unfold await; by rewrite He].
  apply (success_run (λ l k, append l _;; k) [_]
           (λ data_sources, [_; ("data_sources", VRef data_sources); _])).
  - intros. by erewrite bind_ok; [|by apply append_run].
  - keys_apart.
  - by apply status_keeps_completed.
Qed.

Lemma fundamentals_agent_failure e :
  svc_fetch_financial_metrics svc symbol = inl e →
  fundamentals_agent svc state h
  = (inr (length h),
     h ++ [ODict (update_all
                    [("financial_metrics", VMetrics empty_metrics);
                     ("fundamentals_error", VStr (exn_str e));
                     ("processing_errors", VRef (S (length h)));
                     ("partial_data", VBool true);
                     ("fundamentals_status", VStr "failed")]
                    (<["fundamentals_status" := VStr "processing"]> st));
           OList (es ++ ["Fundamentals fetch failed: " +:+ exn_str e])]).
Proof.
  intros He.
  rewrite (agent_prologue "fundamentals_status" _ (fundamentals_agent svc state) eq_refl).
  erewrite try_err; [|by erewrite bind_err; [|unfold await; by rewrite He]].
  exact (failure_run _ (λ errors, [_; _; ("processing_errors", VRef errors); _; _]) _).
Qed.

Lemma fundamentals_agent_success financial_metrics :
  svc_fetch_financial_metrics svc symbol = inr financial_metrics →
  fundamentals_agent svc state h
  = (inr (length h),
     <[cl := OList (completed_with "fundamentals" cs)]> h
     ++ [ODict (update_all
                  [("financial_metrics", VMetrics financial_metrics);
                   ("data_sources", VRef (S (length h)));
                   ("fundamentals_status", VStr "success")]
                  (<["fundamentals_status" := VStr "processing"]> st));
         OList (ds ++ ["yfinance_fundamentals"])]).
Proof.
  intros He.
  rewrite (agent_prologue "fundamentals_status" _ (fundamentals_agent svc state) eq_refl).
  erewrite try_ok; [reflexivity|].
  erewrite bind_ok; [|unfold await; by rewrite He].
  apply (success_run (λ l k, append l _;; k) [_]
           (λ data_sources, [_; ("data_sources", VRef data_sources); _])).
  - intros. by erewrite bind_ok; [|by apply append_run].
  - keys_apart.
  - by apply status_keeps_completed.
Qed.

Lemma analyst_agent_failure e :
  svc_fetch_analyst_ratings svc symbol = inl e
  ∨ (∃ ratings, svc_fetch_analyst_ratings svc symbol = inr ratings
                ∧ svc_fetch_earnings_data svc symbol = inl e) →
  analyst_agent svc state h
  = (inr (length h),
     h ++ [ODict (update_all
                    [("analyst_ratings", VRatings []);
                     ("earnings_data", VEarnings []);
                     ("analyst_error", VStr (exn_str e));
                     ("processing_errors", VRef (S (length h)));
                     ("partial_data", VBool true);
                     ("analyst_status", VStr "failed")]
                    (<["analyst_status" := VStr "processing"]> st));
           OList (es ++ ["Analyst data fetch failed: " +:+ exn_str e])]).
Proof.
  intros He.
  rewrite (agent_prologue "analyst_status" _ (analyst_agent svc state) eq_refl).
  erewrite try_err.
  - exact (failure_run _ (λ errors, [_; _; _; ("processing_errors", VRef errors); _; _]) _).
  - destruct He as [He|(ratings & Hr & He)].
    + by erewrite bind_err; [|unfold await; by rewrite He].
    + erewrite bind_ok; [|unfold await; by rewrite Hr].
      by erewrite bind_err; [|unfold await; by rewrite He].
Qed.

Lemma analyst_agent_success analyst_ratings earnings_data :
  svc_fetch_analyst_ratings svc symbol = inr analyst_ratings →
  svc_fetch_earnings_data svc symbol = inr earnings_data →
  analyst_agent svc state h
  = (inr (length h),
     <[cl := OList (completed_with "analyst" cs)]> h
     ++ [ODict (update_all
                  [("analyst_ratings", VRatings analyst_ratings);
                   ("earnings_data", VEarnings earnings_data);
                   ("data_sources", VRef (S (length h)));
                   ("analyst_status", VStr "success")]
                  (<["analyst_status" := VStr "processing"]> st));
         OList (ds ++ (if analyst_ratings is [] then [] else ["finnhub_analysts"])
                   ++ (if earnings_data is [] then [] else ["yfinance_earnings"]))]).
Proof.
  intros Hr He.
  rewrite (agent_prologue "analyst_status" _ (analyst_agent svc state) eq_refl).
  erewrite try_ok; [reflexivity|].
  erewrite bind_ok; [|unfold await; by rewrite Hr].
  erewrite bind_ok; [|unfold await; by rewrite He].
  apply (success_run
           (λ l k, (match analyst_ratings with
                    | [] => (mret () : M unit)
                    | _ :: _ => append l "finnhub_analysts"
                    end);;
                   (match earnings_data with
                    | [] => (mret () : M unit)
                    | _ :: _ => append l "yfinance_earnings"
                    end);; k)
           _ (λ data_sources, [_; _; ("data_sources", VRef data_sources); _])).
  - intros H l xs k Hl.
    assert (Hm : ∀ (H : heap) l xs, H !! l = Some (OList xs) →
                 (mret () : M unit) H = (inr (), <[l := OList (xs ++ [])]> H)).
    { intros H' l' xs' Hl'. by rewrite app_nil_r, list_insert_id. }
    assert (Hi : ∀ x, <[l := x]> H !! l = Some x).
    { intros x. apply list_lookup_insert_eq. by eapply lookup_lt_Some. }
    destruct analyst_ratings, earnings_data.
    + erewrite bind_ok; [|by apply Hm]. erewrite bind_ok; [|by apply Hm].
      rewrite list_insert_insert_eq. by rewrite !app_nil_r.
    + erewrite bind_ok; [|by apply Hm]. erewrite bind_ok; [|by apply append_run].
      rewrite list_insert_insert_eq. by rewrite !app_nil_r.
    + erewrite bind_ok; [|by apply append_run]. erewrite bind_ok; [|by apply Hm].
      rewrite list_insert_insert_eq. by rewrite !app_nil_r.
    + erewrite bind_ok; [|by apply append_run]. erewrite bind_ok; [|by apply append_run].
      rewrite list_insert_insert_eq. by rewrite <- !app_assoc.
  - keys_apart.
  - by apply status_keeps_completed.
Qed.

Lemma sentiment_agent_failure e :
  svc_fetch_comprehensive_sentiment svc symbol = inl e →
  sentiment_agent svc state h
  = (inr (length h),
     h ++ [ODict (update_all
                    [("sentiment_items", VItems []);
                     ("sentiment_summary",
                      VSummary (neutral_summary "Sentiment analysis unavailable"));
                     ("sentiment_error", VStr (exn_str e));
                     ("processing_errors", VRef (S (length h)));
                     ("partial_data", VBool true);
                     ("sentiment_status", VStr "failed")]
                    (<["sentiment_status" := VStr "processing"]> st));
           OList (es ++ ["Sentiment analysis failed: " +:+ exn_str e])]).
Proof.
  intros He.
  rewrite (agent_prologue "sentiment_status" _ (sentiment_agent svc state) eq_refl).
  erewrite try_err; [|by erewrite bind_err; [|unfold await; by rewrite He]].
  exact (failure_run _ (λ errors, [_; _; _; ("processing_errors", VRef errors); _; _]) _).
Qed.

Lemma sentiment_agent_success sentiment_items sentiment_summary :
  svc_fetch_comprehensive_sentiment svc symbol = inr (sentiment_items, sentiment_summary) →
  sentiment_agent svc state h
  = (inr (length h),
     <[cl := OList (completed_with "sentiment" cs)]> h
     ++ [ODict (update_all
                  [("sentiment_items", VItems sentiment_items);
                   ("sentiment_summary", VSummary sentiment_summary);
                   ("data_sources", VRef (S (length h)));
                   ("sentiment_status", VStr "success")]
                  (<["sentiment_status" := VStr "processing"]> st));
         OList (ds ++ ["newsapi"; "rss_feeds"])]).
Proof.
  intros He.
  rewrite (agent_prologue "sentiment_status" _ (sentiment_agent svc state) eq_refl).
  erewrite try_ok; [reflexivity|].
  erewrite bind_ok; [|unfold await; by rewrite He].
  apply (success_run (λ l k, extend l _;; k) _
           (λ data_sources, [_; _; ("data_sources", VRef data_sources); _])).
  - intros. by erewrite bind_ok; [|by apply extend_run].
  - keys_apart.
  - by apply status_keeps_completed.
Qed.

Lemma company_info_agent_failure e :
  svc_get_company_name svc symbol = inl e →
  company_info_agent svc state h
  = (inr (length h),
     h ++ [ODict (update_all
                    [("company_name", VNone); ("company_status", VStr "failed")]
                    (<["company_status" := VStr "processing"]> st))]).
Proof.
  intros He.
  rewrite (agent_prologue "company_status" _ (company_info_agent svc state) eq_refl).
  erewrite try_err; [|by erewrite bind_err; [|unfold await; by rewrite He]].
  erewrite bind_ok; [|apply update_run, lookup_new0].
  by rewrite insert_new0.
Qed.

Lemma company_info_agent_success company_name :
  svc_get_company_name svc symbol = inr company_name →
  company_info_agent svc state h
  = (inr (length h),
     <[cl := OList (completed_with "company" cs)]> h
     ++ [ODict (update_all
                  [("company_name", of_option_str company_name);
                   ("company_status", VStr "success")]
                  (<["company_status" := VStr "processing"]> st))]).
Proof.
  intros He. destruct Hstate.
  rewrite (agent_prologue "company_status" _ (company_info_agent svc state) eq_refl).
  erewrite try_ok; [reflexivity|].
  erewrite bind_ok; [|unfold await; by rewrite He].
  erewrite bind_ok; [|apply update_run, lookup_new0].
  rewrite insert_new0.
  erewrite bind_ok;
    [|eapply mark_completed_run;
      [apply lookup_new0
      |rewrite update_all_lookup_other by keys_apart; by apply status_keeps_completed
      |by apply lookup_old]].
  erewrite insert_old by done.
  by rewrite insert_new0_moved by apply length_insert.
Qed.
End AgentRuns.

(** ** Failures captured as state *)

(** Reading a key of a dict after a literal [update]. *)
Ltac read_key :=
  cbn [update_all];
  repeat first [rewrite lookup_insert_eq | rewrite lookup_insert_ne by discriminate];
  try reflexivity.

(** C6, as amended: no task agent raises when its service does.  The
    fundamentals, analyst and sentiment agents return a state with the
    message at the end of a copy of the error list, the payload set to
    its empty default, [partial_data] true and the status [failed] (the
    analyst agent whichever of its two fetches raises); the price agent
    records the failure in the same way and leaves [price_data] as it
    was; the company agent sets [company_name] to null and its status
    to [failed], and changes neither the error list nor
    [partial_data]. *)
Theorem agents_capture_failure (svc : Services) (h : heap) (state : loc)
    (st : gmap string value) (symbol : value) (cl dl el : loc) (cs ds es : list string)
    (e : exn) :
  analysis_state h state st symbol cl dl el cs ds es →
  (svc_fetch_current_price svc symbol = inl e →
   returns (price_agent svc state h) h (λ h' st',
     failure_recorded h' st' es "price_status" e
     ∧ st' !! "price_data" = st !! "price_data"))
  ∧ (svc_fetch_financial_metrics svc symbol = inl e →
     returns (fundamentals_agent svc state h) h (λ h' st',
       failure_recorded h' st' es "fundamentals_status" e
       ∧ st' !! "financial_metrics" = Some (VMetrics empty_metrics)))
  ∧ (svc_fetch_analyst_ratings svc symbol = inl e
     ∨ (∃ ratings, svc_fetch_analyst_ratings svc symbol = inr ratings
                   ∧ svc_fetch_earnings_data svc symbol = inl e) →
     returns (analyst_agent svc state h) h (λ h' st',
       failure_recorded h' st' es "analyst_status" e
       ∧ st' !! "analyst_ratings" = Some (VRatings [])
       ∧ st' !! "earnings_data" = Some (VEarnings [])))
  ∧ (svc_fetch_comprehensive_sentiment svc symbol = inl e →
     returns (sentiment_agent svc state h) h (λ h' st',
       failure_recorded h' st' es "sentiment_status" e
       ∧ st' !! "sentiment_items" = Some (VItems [])
       ∧ st' !! "sentiment_summary"
         = Some (VSummary (neutral_summary "Sentiment analysis unavailable"))))
  ∧ (svc_get_company_name svc symbol = inl e →
     returns (company_info_agent svc state h) h (λ h' st',
       h' = h ++ [ODict st']
       ∧ st' !! "company_name" = Some VNone
       ∧ st' !! "company_status" = Some (VStr "failed")
       ∧ st' !! "processing_errors" = st !! "processing_errors"
       ∧ st' !! "partial_data" = st !! "partial_data")).
Proof.
  intros Hstate. unfold returns, failure_recorded. repeat split.
  - intros He. eexists _, _.
    split; [by eapply price_agent_failure|]. split; [apply lookup_new0|].
    repeat split; [eexists _, _; split; [|apply lookup_new1]| | |]; read_key.
  - intros He. eexists _, _.
    split; [by eapply fundamentals_agent_failure|]. split; [apply lookup_new0|].
    repeat split; [eexists _, _; split; [|apply lookup_new1]| | |]; read_key.
  - intros He. eexists _, _.
    split; [by eapply analyst_agent_failure|]. split; [apply lookup_new0|].
    repeat split; [eexists _, _; split; [|apply lookup_new1]| | | |]; read_key.
  - intros He. eexists _, _.
    split; [by eapply sentiment_agent_failure|]. split; [apply lookup_new0|].
    repeat split; [eexists _, _; split; [|apply lookup_new1]| | | |]; read_key.
  - intros He. eexists _, _.
    split; [by eapply company_info_agent_failure|]. split; [apply lookup_new0|].
    repeat split; read_key.
Qed.

Lemma root_heap_state symbol :
  ∃ st, analysis_state (root_heap symbol) 1 st (VStr symbol) 2 4 5 [] [] []
        ∧ st !! "partial_data" = Some (VBool false)
        ∧ st !! "validation_results" = Some (VRef 3)
        ∧ st !! "price_data" = None.
Proof. eexists. split; [split; reflexivity|]. repeat split; reflexivity. Qed.

(** Where the code departs from C6 as the specification words it, with
    the services of [market_data.py] themselves.  On a symbol that the
    validator rejects [get_company_name] raises, and the company agent
    neither records the message nor sets the flag.  With both price
    sources failing the price fetch raises, and the price agent leaves
    [price_data] unset instead of giving it a default. *)
Lemma company_and_price_failures_unrecorded :
  (∃ msg h' st',
     svc_get_company_name no_data_services (VStr "TOOLONG")
     = inl (Exn InvalidSymbolError msg)
     ∧ company_info_agent no_data_services 1 (root_heap "TOOLONG") = (inr 6%nat, h')
     ∧ h' !! 6%nat = Some (ODict st')
     ∧ ¬ failure_recorded h' st' [] "company_status" (Exn InvalidSymbolError msg))
  ∧ (∃ msg h' st',
       svc_fetch_current_price no_data_services (VStr "ZZZZZ")
       = inl (Exn StockDataError msg)
       ∧ price_agent no_data_services 1 (root_heap "ZZZZZ") = (inr 6%nat, h')
       ∧ h' !! 6%nat = Some (ODict st')
       ∧ st' !! "price_status" = Some (VStr "failed")
       ∧ st' !! "price_data" = None).
Proof.
  split.
  - destruct (root_heap_state "TOOLONG") as (st & Hst & Hp & _).
    eexists _, _, _. split; [vm_compute; reflexivity|].
    split; [exact (company_info_agent_failure no_data_services
                     _ _ _ _ _ _ _ _ _ _ Hst _ eq_refl)|].
    split; [exact (lookup_new0 (root_heap "TOOLONG") _ _)|].
    intros (_ & Hflag & _). revert Hflag. read_key. rewrite Hp. discriminate.
  - destruct (root_heap_state "ZZZZZ") as (st & Hst & _ & _ & Hpd).
    eexists _, _, _. split; [vm_compute; reflexivity|].
    split; [exact (price_agent_failure no_data_services
                     _ _ _ _ _ _ _ _ _ _ Hst _ eq_refl)|].
    split; [exact (lookup_new0 (root_heap "ZZZZZ") _ _)|].
    split; [by read_key|]. read_key. exact Hpd.
Qed.

Lemma agents_capture_failure_witness :
  ∃ msg,
    svc_fetch_current_price no_data_services (VStr "ZZZZZ") = inl (Exn StockDataError msg)
    ∧ returns (price_agent no_data_services 1 (root_heap "ZZZZZ")) (root_heap "ZZZZZ")
        (λ h' st',
           failure_recorded h' st' [] "price_status" (Exn StockDataError msg)
           ∧ st' !! "price_data" = None).
Proof.
  destruct (root_heap_state "ZZZZZ") as (st & Hst & _ & _ & Hpd).
  eexists. split; [vm_compute; reflexivity|].
  destruct (proj1 (agents_capture_failure no_data_services
              (root_heap "ZZZZZ") 1 st (VStr "ZZZZZ") 2 4 5 [] [] [] _ Hst) eq_refl)
    as (h' & st' & Hrun & Hlook & Hrec & Hprice).
  exists h', st'. split; [exact Hrun|]. split; [exact Hlook|].
  split; [exact Hrec|]. by rewrite Hprice.
Defined.

(** ** What an agent leaves untouched *)

Lemma frame_appended (h t : heap) l : (l < length h)%nat → (h ++ t) !! l = h !! l.
Proof. intros. by apply lookup_app_l. Qed.

Lemma frame_appended_but (h t : heap) cl o l :
  (l < length h)%nat → l ≠ cl → (<[cl := o]> h ++ t) !! l = h !! l.
Proof.
  intros Hl Hne. rewrite lookup_app_l by (by rewrite length_insert).
  by apply list_lookup_insert_ne.
Qed.

(** C3, as amended: every task agent returns a new dict, a shallow copy
    of the dict it is given.  It writes to no object of the given heap
    other than the [agents_completed] list: the given dict keeps its
    bindings, and the given [data_sources] and [processing_errors]
    lists keep their contents (the agent extends copies of them).  What
    the agent does not replace is shared by reference between the given
    state and the returned one, as [validation_results] is. *)
Theorem agents_work_on_shallow_copy (svc : Services) (h : heap) (state : loc)
    (st : gmap string value) (symbol : value) (cl dl el : loc) (cs ds es : list string)
    (name : string) (agent : loc → M loc) :
  analysis_state h state st symbol cl dl el cs ds es →
  (name, agent) ∈ agents svc →
  returns (agent state h) h (λ h' st',
    (∀ l, (l < length h)%nat → l ≠ cl → h' !! l = h !! l)
    ∧ h' !! state = Some (ODict st)
    ∧ st' !! "validation_results" = st !! "validation_results").
Proof.
  intros Hstate Hin.
  assert (Hne : state ≠ cl).
  { destruct Hstate. intros ->. congruence. }
  assert (Hlt : (state < length h)%nat).
  { destruct Hstate. by eapply lookup_lt_Some. }
  assert (Hd : h !! state = Some (ODict st)) by by destruct Hstate.
  unfold returns, agents in *.
  repeat (apply elem_of_cons in Hin as [Hin|Hin]; [injection Hin as -> ->|]);
    [| | | | | by apply elem_of_nil in Hin].
  - destruct (svc_fetch_current_price svc symbol) as [e|price_data] eqn:He.
    + eexists _, _. split; [by eapply price_agent_failure|]. split; [apply lookup_new0|].
      split; [intros; by apply frame_appended|]. split; [by apply lookup_old|read_key].
    + eexists _, _. split; [by eapply price_agent_success|].
      split; [by rewrite insert_new0_lookup|].
      split; [intros; by apply frame_appended_but|].
      split; [by rewrite frame_appended_but|read_key].
  - destruct (svc_fetch_financial_metrics svc symbol) as [e|m] eqn:He.
    + eexists _, _. split; [by eapply fundamentals_agent_failure|].
      split; [apply lookup_new0|].
      split; [intros; by apply frame_appended|]. split; [by apply lookup_old|read_key].
    + eexists _, _. split; [by eapply fundamentals_agent_success|].
      split; [by rewrite insert_new0_lookup|].
      split; [intros; by apply frame_appended_but|].
      split; [by rewrite frame_appended_but|read_key].
  - destruct (svc_fetch_analyst_ratings svc symbol) as [e|ratings] eqn:Hr;
      [|destruct (svc_fetch_earnings_data svc symbol) as [e|earnings] eqn:He].
    + eexists _, _. split; [eapply analyst_agent_failure; [done|by left]|].
      split; [apply lookup_new0|].
      split; [intros; by apply frame_appended|]. split; [by apply lookup_old|read_key].
    + eexists _, _. split; [eapply analyst_agent_failure; [done|right; by eexists]|].
      split; [apply lookup_new0|].
      split; [intros; by apply frame_appended|]. split; [by apply lookup_old|read_key].
    + eexists _, _. split; [by eapply analyst_agent_success|].
      split; [by rewrite insert_new0_lookup|].
      split; [intros; by apply frame_appended_but|].
      split; [by rewrite frame_appended_but|read_key].
  - destruct (svc_fetch_comprehensive_sentiment svc symbol) as [e|[items summary]] eqn:He.
    + eexists _, _. split; [by eapply sentiment_agent_failure|].
      split; [apply lookup_new0|].
      split; [intros; by apply frame_appended|]. split; [by apply lookup_old|read_key].
    + eexists _, _. split; [by eapply sentiment_agent_success|].
      split; [by rewrite insert_new0_lookup|].
      split; [intros; by apply frame_appended_but|].
      split; [by rewrite frame_appended_but|read_key].
  - destruct (svc_get_company_name svc symbol) as [e|company_name] eqn:He.
    + eexists _, _. split; [by eapply company_info_agent_failure|].
      split; [apply lookup_new0|].
      split; [intros; by apply frame_appended|]. split; [by apply lookup_old|read_key].
    + eexists _, _. split; [by eapply company_info_agent_success|].
      split; [by rewrite insert_new0_lookup|].
      split; [intros; by apply frame_appended_but|].
      split; [by rewrite frame_appended_but|read_key].
Qed.

(** The [agents_completed] list of the state given to all five agents is
    appended to in place: the price agent alone changes it, its result
    holds the same list, and after the concurrent run it holds all five
    names although no agent was given anything but the state at 1. *)
Lemma agents_completed_is_shared :
  root_heap "AAPL" !! 2%nat = Some (OList [])
  ∧ (∃ h' st st',
       price_agent sample_services 1 (root_heap "AAPL") = (inr 6%nat, h')
       ∧ h' !! 1%nat = Some (ODict st) ∧ h' !! 6%nat = Some (ODict st')
       ∧ st !! "agents_completed" = Some (VRef 2)
       ∧ st' !! "agents_completed" = Some (VRef 2)
       ∧ h' !! 2%nat = Some (OList ["price"]))
  ∧ (∃ final h',
       orchestrating_agent sample_services 1 (root_heap "AAPL") = (inr final, h')
       ∧ h' !! 2%nat
         = Some (OList ["price"; "fundamentals"; "analyst"; "sentiment"; "company"])).
Proof.
  split; [reflexivity|]. split.
  - eexists _, _, _. split; [vm_compute; reflexivity|]. repeat split; reflexivity.
  - eexists _, _. split; [vm_compute; reflexivity|]. reflexivity.
Qed.

Lemma agents_work_on_shallow_copy_witness :
  returns (price_agent sample_services 1 (root_heap "AAPL")) (root_heap "AAPL")
    (λ h' st',
       (∀ l, (l < length (root_heap "AAPL"))%nat → l ≠ 2%nat →
             h' !! l = root_heap "AAPL" !! l)
       ∧ h' !! 1%nat = root_heap "AAPL" !! 1%nat
       ∧ st' !! "validation_results" = Some (VRef 3)).
Proof.
  refine (agents_work_on_shallow_copy sample_services (root_heap "AAPL") 1 _
            (VStr "AAPL") 2 4 5 [] [] [] "price" (price_agent sample_services) _ _).
  - split; reflexivity.
  - unfold agents. apply list_elem_of_here.
Defined.

(** ** The company name and the fundamentals *)

Lemma get_company_name_cases (ticker : reply Ticker) (s : string) :
  validate_stock_symbol (VStr s) = inr true →
  ∃ name, get_company_name ticker (VStr s) = inr (Some name)
          ∧ (no_company_name ticker → name = s +:+ " Corporation").
Proof.
  intros Hv. unfold get_company_name, no_company_name. rewrite Hv. cbn [format_value].
  destruct ticker as [e|t]; [by eexists|].
  destruct (tk_info t) as [e|[info|]]; [by eexists| |by eexists].
  case_bool_decide as Hlen; [|by eexists].
  destruct (truthy_str (or_str (ti_longName info) (ti_shortName info))) eqn:Hn;
    [|by eexists].
  destruct (or_str (ti_longName info) (ti_shortName info)) as [name|] eqn:Ho;
    [|discriminate Hn].
  exists name. split; [done|]. intros [Hz|[Hl Hs]]; [lia|].
  unfold or_str in Ho. rewrite Hl in Ho. rewrite Ho in Hs. congruence.
Qed.

(** C9: for a symbol that passes validation [get_company_name] returns
    a string and does not raise; when the provider gives no name the
    string is the symbol followed by " Corporation"; and the company
    agent, run with this service on an analysis state for that symbol,
    succeeds with that string under [company_name]. *)
Theorem get_company_name_never_null (ticker : reply Ticker) (s : string)
    (svc : Services) (h : heap) (state : loc) (st : gmap string value)
    (cl dl el : loc) (cs ds es : list string) :
  validate_stock_symbol (VStr s) = inr true →
  svc_get_company_name svc = get_company_name ticker →
  analysis_state h state st (VStr s) cl dl el cs ds es →
  ∃ name,
    get_company_name ticker (VStr s) = inr (Some name)
    ∧ (no_company_name ticker → name = s +:+ " Corporation")
    ∧ returns (company_info_agent svc state h) h (λ h' st',
        st' !! "company_name" = Some (VStr name)
        ∧ st' !! "company_status" = Some (VStr "success")).
Proof.
  intros Hv Hsvc Hstate.
  destruct (get_company_name_cases ticker s Hv) as (name & Hname & Hfallback).
  exists name. split; [done|]. split; [done|].
  eexists _, _. split.
  { eapply company_info_agent_success; [done|]. by rewrite Hsvc. }
  split; [by rewrite insert_new0_lookup|]. split; read_key.
Qed.

Lemma get_company_name_never_null_witness :
  get_company_name (inl "429 Too Many Requests") (VStr "ZZZZZ")
  = inr (Some "ZZZZZ Corporation")
  ∧ returns (company_info_agent no_data_services 1 (root_heap "ZZZZZ")) (root_heap "ZZZZZ")
      (λ h' st', st' !! "company_name" = Some (VStr "ZZZZZ Corporation")
                 ∧ st' !! "company_status" = Some (VStr "success")).
Proof.
  destruct (root_heap_state "ZZZZZ") as (st & Hst & _).
  destruct (get_company_name_never_null (inl "429 Too Many Requests") "ZZZZZ"
              no_data_services (root_heap "ZZZZZ") 1 st 2 4 5 [] [] []
              eq_refl eq_refl Hst) as (name & Hname & Hfallback & Hagent).
  rewrite (Hfallback I) in Hname, Hagent. split; [exact Hname|exact Hagent].
Defined.

Lemma fetch_fundamentals_yf_body_total (ticker : reply Ticker) :
  ∃ m, fetch_fundamentals_yf_body ticker = inr m
       ∧ (∀ e, ticker = inl e → m = empty_metrics)
       ∧ (∀ t e1 e2 e3, ticker = inr t → tk_history t = inl e1 → tk_info t = inl e2 →
            tk_fast_info t = inl e3 → m = empty_metrics).
Proof.
  unfold fetch_fundamentals_yf_body. destruct ticker as [e|t].
  - exists empty_metrics. split; [done|]. split; [done|]. intros; discriminate.
  - eexists. split; [reflexivity|]. split; [intros; discriminate|].
    intros t' e1 e2 e3 [= <-] H1 H2 H3. by rewrite H1, H2, H3.
Qed.

Lemma retry_loop_first {A} retries (attempt : nat → result A) a :
  attempt 0%nat = inr a → retry_loop retries 0 attempt = inr a.
Proof. intros H. destruct retries; simpl; by rewrite H. Qed.

Lemma fetch_fundamentals_yf_total (cfg : Settings) (ticker : nat → reply Ticker) :
  ∃ m, fetch_fundamentals_yf cfg ticker = inr m
       ∧ (∀ e, ticker 0%nat = inl e → m = empty_metrics)
       ∧ (∀ t e1 e2 e3, ticker 0%nat = inr t → tk_history t = inl e1 →
            tk_info t = inl e2 → tk_fast_info t = inl e3 → m = empty_metrics).
Proof.
  destruct (fetch_fundamentals_yf_body_total (ticker 0%nat)) as (m & Hm & He & Ht).
  exists m. split; [|done].
  unfold fetch_fundamentals_yf, create_retry_decorator.
  by rewrite (retry_loop_first _ _ m).
Qed.

(** C10: [fetch_fundamentals_yf] returns a [FinancialMetrics] whatever
    the provider does and never raises; when creating the ticker raises,
    or all three of its reads do, the value is the empty
    [FinancialMetrics].  Hence the fundamentals agent, run with this
    service for a symbol that passes validation, does not take its
    failure branch; and with any service whatever the state it returns
    has a [FinancialMetrics] under [financial_metrics], not null. *)
Theorem fetch_fundamentals_yf_never_raises (cfg : Settings) (p : Providers) (s : string)
    (svc : Services) (h : heap) (state : loc) (st : gmap string value)
    (cl dl el : loc) (cs ds es : list string) :
  validate_stock_symbol (VStr s) = inr true →
  svc_fetch_financial_metrics svc = fetch_financial_metrics cfg p →
  analysis_state h state st (VStr s) cl dl el cs ds es →
  ∃ m,
    fetch_fundamentals_yf cfg (p_fundamentals_ticker p) = inr m
    ∧ (∀ e, p_fundamentals_ticker p 0%nat = inl e → m = empty_metrics)
    ∧ (∀ t e1 e2 e3, p_fundamentals_ticker p 0%nat = inr t → tk_history t = inl e1 →
         tk_info t = inl e2 → tk_fast_info t = inl e3 → m = empty_metrics)
    ∧ returns (fundamentals_agent svc state h) h (λ h' st',
        st' !! "financial_metrics" = Some (VMetrics m)
        ∧ st' !! "fundamentals_status" = Some (VStr "success"))
    ∧ ∀ svc', returns (fundamentals_agent svc' state h) h (λ h' st',
        ∃ m', st' !! "financial_metrics" = Some (VMetrics m')).
Proof.
  intros Hv Hsvc Hstate.
  destruct (fetch_fundamentals_yf_total cfg (p_fundamentals_ticker p)) as (m & Hm & He & Ht).
  exists m. split; [done|]. split; [done|]. split; [done|]. split.
  - eexists _, _. split.
    { eapply fundamentals_agent_success; [done|].
      rewrite Hsvc. unfold fetch_financial_metrics. by rewrite Hv. }
    split; [by rewrite insert_new0_lookup|]. split; read_key.
  - intros svc'.
    destruct (svc_fetch_financial_metrics svc' (VStr s)) as [e|m'] eqn:Hf.
    + eexists _, _. split; [by eapply fundamentals_agent_failure|].
      split; [apply lookup_new0|]. eexists. read_key.
    + eexists _, _. split; [by eapply fundamentals_agent_success|].
      split; [by rewrite insert_new0_lookup|]. eexists. read_key.
Qed.

Lemma fetch_fundamentals_yf_never_raises_witness :
  fetch_fundamentals_yf default_settings (λ _, inl "429 Too Many Requests")
  = inr empty_metrics
  ∧ returns (fundamentals_agent no_data_services 1 (root_heap "ZZZZZ")) (root_heap "ZZZZZ")
      (λ h' st', st' !! "financial_metrics" = Some (VMetrics empty_metrics)
                 ∧ st' !! "fundamentals_status" = Some (VStr "success")).
Proof.
  destruct (root_heap_state "ZZZZZ") as (st & Hst & _).
  destruct (fetch_fundamentals_yf_never_raises default_settings no_data_providers "ZZZZZ"
              no_data_services (root_heap "ZZZZZ") 1 st 2 4 5 [] [] []
              eq_refl eq_refl Hst) as (m & Hm & Hempty & _ & Hagent & _).
  rewrite (Hempty "429 Too Many Requests" eq_refl) in Hm, Hagent.
  split; [exact Hm|exact Hagent].
Defined.

(** ** The coordinator merge *)

Lemma extends_refl final h : extends final h h.
Proof. by split. Qed.

Lemma extends_trans final h1 h2 h3 :
  extends final h1 h2 → extends final h2 h3 → extends final h1 h3.
Proof.
  intros [L1 F1] [L2 F2]. split; [lia|].
  intros l Hl Hne. rewrite F2 by (done || lia). by apply F1.
Qed.

Lemma extends_store final (h : heap) o t :
  extends final h (<[final := o]> (h ++ t)).
Proof.
  split.
  - rewrite length_insert, length_app. lia.
  - intros l Hl Hne. rewrite list_lookup_insert_ne by done. by apply lookup_app_l.
Qed.

Lemma get_list_items_inv h d m k xs :
  h !! d = Some (ODict m) →
  get_list_items d k h = (inr xs, h) →
  (m !! k = None ∧ xs = [])
  ∨ ∃ l, m !! k = Some (VRef l) ∧ h !! l = Some (OList xs).
Proof.
  intros Hd. unfold get_list_items.
  rewrite (bind_ok _ _ _ _ _ (dict_lookup_run _ _ _ k Hd)).
  destruct (m !! k) as [v|]; [|intros [= <-]; by left].
  destruct v; try (intros H; discriminate H).
  unfold list_ref, load_list, load.
  unfold mbind, M_bind, mret, M_ret.
  destruct (h !! l) as [[ys|?]|] eqn:Hl; try (intros H; discriminate H).
  rewrite Hl. intros [= <-]. right. by exists l.
Qed.

Lemma as_new_list_inv h v xs :
  as_new_list v h = (inr xs, h) →
  match v with
  | VRef l => h !! l = Some (OList xs) ∨ (xs = [] ∧ ∃ d, h !! l = Some (ODict d))
  | VRatings (_ :: _) | VEarnings (_ :: _) | VItems (_ :: _) => False
  | _ => xs = []
  end.
Proof.
  destruct v as [| | | | | |[|]|[|]|[|]| |l]; cbn; try (by intros [= <-]);
    try (intros H; discriminate H).
  unfold load, mbind, M_bind, mret, M_ret.
  destruct (h !! l) as [[ys|d]|]; try (intros H; discriminate H); intros [= <-];
    [by left|right; eauto].
Qed.

Lemma as_new_list_extends final h h' fd fd' v xs :
  h !! final = Some (ODict fd) → h' !! final = Some (ODict fd') →
  extends final h h' →
  as_new_list v h = (inr xs, h) → as_new_list v h' = (inr xs, h').
Proof.
  intros Hf Hf' [Hlen Hext] Hv. pose proof (as_new_list_inv _ _ _ Hv) as Hi.
  destruct v as [| | | | | |[|]|[|]|[|]| |l]; try done; try by subst.
  unfold as_new_list.
  destruct (decide (l = final)) as [->|Hne].
  - rewrite (bind_ok _ _ _ _ _ (load_run _ _ _ Hf')).
    destruct Hi as [Hi|[-> _]]; [congruence|done].
  - assert (Hl : (l < length h)%nat).
    { destruct Hi as [Hi|[_ [d Hi]]]; by eapply lookup_lt_Some. }
    destruct Hi as [Hi|[-> [d Hi]]];
      erewrite bind_ok; try (apply load_run; rewrite Hext by done; exact Hi); done.
Qed.

Lemma list_at_run h d k xs : get_list_items d k h = (inr xs, h) → list_at h d k = xs.
Proof. intros H. unfold list_at. by rewrite H. Qed.

(** A list of the accumulator that the step leaves alone reads the same
    afterwards. *)
Lemma list_at_extends final h h' fd fd' k :
  h !! final = Some (ODict fd) → h' !! final = Some (ODict fd') →
  extends final h h' → fd' !! k = fd !! k →
  list_or_absent h final k →
  list_or_absent h' final k ∧ list_at h' final k = list_at h final k.
Proof.
  intros Hf Hf' [Hlen Hext] Hk [xs Hxs].
  rewrite (list_at_run _ _ _ _ Hxs).
  destruct (get_list_items_inv _ _ _ _ _ Hf Hxs) as [[Hn ->]|(l & Hl & Hxl)].
  - assert (get_list_items final k h' = (inr [], h')) as Hr.
    { eapply get_list_items_missing; [done|congruence]. }
    split; [by eexists|by apply list_at_run].
  - assert (get_list_items final k h' = (inr xs, h')) as Hr.
    { eapply get_list_items_run; [done|rewrite Hk; exact Hl|].
      rewrite Hext; [done|by eapply lookup_lt_Some|intros ->; congruence]. }
    split; [by eexists|by apply list_at_run].
Qed.

Lemma list_or_absent_extends final h h' fd fd' k :
  h !! final = Some (ODict fd) → h' !! final = Some (ODict fd') →
  extends final h h' → fd' !! k = fd !! k →
  list_or_absent h final k → list_or_absent h' final k.
Proof. intros Hf Hf' He Hk Ha. exact (proj1 (list_at_extends _ _ _ _ _ _ Hf Hf' He Hk Ha)). Qed.

Lemma list_at_unchanged final h h' fd fd' k :
  h !! final = Some (ODict fd) → h' !! final = Some (ODict fd') →
  extends final h h' → fd' !! k = fd !! k →
  list_or_absent h final k → list_at h' final k = list_at h final k.
Proof. intros Hf Hf' He Hk Ha. exact (proj2 (list_at_extends _ _ _ _ _ _ Hf Hf' He Hk Ha)). Qed.

Lemma list_at_stored final (h : heap) fd k xs t :
  h !! final = Some (ODict fd) →
  list_at (<[final := ODict (<[k := VRef (length h)]> fd)]> (h ++ OList xs :: t)) final k = xs.
Proof.
  intros Hf. apply list_at_run.
  assert (Hlt : (final < length h)%nat) by by eapply lookup_lt_Some.
  eapply get_list_items_run.
  - apply list_lookup_insert_eq. rewrite length_app. lia.
  - apply lookup_insert_eq.
  - rewrite list_lookup_insert_ne by lia. apply lookup_new0.
Qed.

Lemma list_or_absent_stored final (h : heap) fd k xs t :
  h !! final = Some (ODict fd) →
  list_or_absent (<[final := ODict (<[k := VRef (length h)]> fd)]> (h ++ OList xs :: t))
    final k.
Proof.
  intros Hf. exists xs.
  assert (Hlt : (final < length h)%nat) by by eapply lookup_lt_Some.
  eapply get_list_items_run.
  - apply list_lookup_insert_eq. rewrite length_app. lia.
  - apply lookup_insert_eq.
  - rewrite list_lookup_insert_ne by lia. apply lookup_new0.
Qed.

Lemma merge_item_sources final h fd v existing new :
  h !! final = Some (ODict fd) →
  get_list_items final "data_sources" h = (inr existing, h) →
  as_new_list v h = (inr new, h) →
  merge_item final "data_sources" v h
  = (inr (), <[final := ODict (<["data_sources" := VRef (length h)]> fd)]>
               (h ++ [OList (list_set (existing ++ new))])).
Proof.
  intros Hf He Hn. unfold merge_item. rewrite bool_decide_eq_true_2 by done.
  rewrite (bind_ok _ _ _ _ _ He), (bind_ok _ _ _ _ _ Hn).
  erewrite bind_ok; [|reflexivity].
  apply setitem_run. by apply lookup_old.
Qed.

Lemma merge_item_errors final h fd v existing new :
  h !! final = Some (ODict fd) →
  get_list_items final "processing_errors" h = (inr existing, h) →
  as_new_list v h = (inr new, h) →
  merge_item final "processing_errors" v h
  = (inr (), <[final := ODict (<["processing_errors" := VRef (length h)]> fd)]>
               (h ++ [OList (existing ++ new)])).
Proof.
  intros Hf He Hn. unfold merge_item.
  rewrite bool_decide_eq_false_2 by discriminate.
  rewrite bool_decide_eq_true_2 by done.
  rewrite (bind_ok _ _ _ _ _ He), (bind_ok _ _ _ _ _ Hn).
  erewrite bind_ok; [|reflexivity].
  apply setitem_run. by apply lookup_old.
Qed.

Lemma merge_item_other final h fd k v :
  h !! final = Some (ODict fd) →
  k ≠ "data_sources" → k ≠ "processing_errors" →
  merge_item final k v h
  = (inr (), if v is VNone then h else <[final := ODict (<[k := v]> fd)]> h).
Proof.
  intros Hf H1 H2. unfold merge_item.
  rewrite !bool_decide_eq_false_2 by done.
  destruct v; try done; by apply setitem_run.
Qed.

(** One turn of the loop over the items of a result. *)
Lemma merge_item_step final h fd k v :
  h !! final = Some (ODict fd) →
  (k = "data_sources" ∨ k = "processing_errors" →
   list_or_absent h final k ∧ readable h (Some v)) →
  ∃ h' fd',
    merge_item final k v h = (inr (), h')
    ∧ h' !! final = Some (ODict fd')
    ∧ extends final h h'
    ∧ (∀ k', k' ≠ k → fd' !! k' = fd !! k')
    ∧ (k = "data_sources" ∨ k = "processing_errors" → list_or_absent h' final k)
    ∧ (k = "data_sources" →
       list_at h' final k = list_set (list_at h final k ++ incoming h (Some v)))
    ∧ (k = "processing_errors" →
       list_at h' final k = list_at h final k ++ incoming h (Some v))
    ∧ (k ≠ "data_sources" → k ≠ "processing_errors" →
       fd' !! k = overwritten (Some v) (fd !! k)).
Proof.
  intros Hf Hlists.
  assert (Hlt : (final < length h)%nat) by by eapply lookup_lt_Some.
  destruct (decide (k = "data_sources")) as [->|Hds];
    [|destruct (decide (k = "processing_errors")) as [->|Hpe]].
  - destruct Hlists as [[ex Hex] Hread]; [by left|].
    destruct (Hread v eq_refl) as [new Hnew].
    eexists _, _. split; [by eapply merge_item_sources|].
    split; [apply list_lookup_insert_eq; rewrite length_app; lia|].
    split; [apply extends_store|].
    split; [intros k' Hk'; by rewrite lookup_insert_ne|].
    split; [intros _; by eapply list_or_absent_stored|].
    split; [|split; [intros H; discriminate H|done]].
    intros _. rewrite (list_at_stored _ _ _ _ _ _ Hf), (list_at_run _ _ _ _ Hex).
    unfold incoming. by rewrite Hnew.
  - destruct Hlists as [[ex Hex] Hread]; [by right|].
    destruct (Hread v eq_refl) as [new Hnew].
    eexists _, _. split; [by eapply merge_item_errors|].
    split; [apply list_lookup_insert_eq; rewrite length_app; lia|].
    split; [apply extends_store|].
    split; [intros k' Hk'; by rewrite lookup_insert_ne|].
    split; [intros _; by eapply list_or_absent_stored|].
    split; [intros H; discriminate H|split; [|done]].
    intros _. rewrite (list_at_stored _ _ _ _ _ _ Hf), (list_at_run _ _ _ _ Hex).
    unfold incoming. by rewrite Hnew.
  - rewrite (merge_item_other _ _ _ _ _ Hf Hds Hpe).
    assert (v = VNone
            ∨ (overwritten (Some v) (fd !! k) = Some v
               ∧ (if v is VNone then h else <[final := ODict (<[k := v]> fd)]> h)
                 = <[final := ODict (<[k := v]> fd)]> h)) as [->|[Hov ->]]
      by (destruct v; eauto).
    + exists h, fd. repeat split; try done. by intros [|].
    + eexists _, _. split; [reflexivity|].
      split; [by apply list_lookup_insert_eq|].
      split; [rewrite <- (app_nil_r h) at 2; apply extends_store|].
      split; [intros k' Hk'; by rewrite lookup_insert_ne|].
      split; [by intros [|]|].
      split; [done|split; [done|]].
      intros _ _. by rewrite lookup_insert_eq.
Qed.

Lemma incoming_extends final h h' fd fd' v :
  h !! final = Some (ODict fd) → h' !! final = Some (ODict fd') →
  extends final h h' → readable h (Some v) →
  readable h' (Some v) ∧ incoming h' (Some v) = incoming h (Some v).
Proof.
  intros Hf Hf' Hext Hr. destruct (Hr v eq_refl) as [xs Hxs].
  pose proof (as_new_list_extends _ _ _ _ _ _ _ Hf Hf' Hext Hxs) as Hxs'.
  split; [intros ? [= <-]; by eexists|].
  unfold incoming. by rewrite Hxs, Hxs'.
Qed.

Lemma readable_extends final h h' fd fd' v :
  h !! final = Some (ODict fd) → h' !! final = Some (ODict fd') →
  extends final h h' → readable h (Some v) → readable h' (Some v).
Proof. intros Hf Hf' He Hr. exact (proj1 (incoming_extends _ _ _ _ _ _ Hf Hf' He Hr)). Qed.

Lemma incoming_unchanged final h h' fd fd' v :
  h !! final = Some (ODict fd) → h' !! final = Some (ODict fd') →
  extends final h h' → readable h (Some v) →
  incoming h' (Some v) = incoming h (Some v).
Proof. intros Hf Hf' He Hr. exact (proj2 (incoming_extends _ _ _ _ _ _ Hf Hf' He Hr)). Qed.

(** The loop over the items of one result, for items with distinct keys. *)
Lemma merge_items_spec final items :
  NoDup items.*1 → ∀ h fd,
  h !! final = Some (ODict fd) →
  (∀ k v, (k, v) ∈ items → k = "data_sources" ∨ k = "processing_errors" →
          list_or_absent h final k ∧ readable h (Some v)) →
  ∃ h' fd',
    merge_items final items h = (inr (), h')
    ∧ h' !! final = Some (ODict fd')
    ∧ extends final h h'
    ∧ (∀ k, k ∉ items.*1 → fd' !! k = fd !! k)
    ∧ (∀ k v, (k, v) ∈ items →
         (k = "data_sources" ∨ k = "processing_errors" → list_or_absent h' final k)
         ∧ (k = "data_sources" →
            list_at h' final k = list_set (list_at h final k ++ incoming h (Some v)))
         ∧ (k = "processing_errors" →
            list_at h' final k = list_at h final k ++ incoming h (Some v))
         ∧ (k ≠ "data_sources" → k ≠ "processing_errors" →
            fd' !! k = overwritten (Some v) (fd !! k))).
Proof.
  induction items as [|[k v] rest IH]; intros Hnd h fd Hf Hlists.
  { exists h, fd. split; [done|]. split; [done|]. split; [apply extends_refl|].
    split; [done|]. intros k v Hin. by apply elem_of_nil in Hin. }
  rewrite fmap_cons in Hnd. apply NoDup_cons in Hnd as [Hk Hnd]. cbn [fst] in Hk.
  destruct (merge_item_step final h fd k v Hf) as
    (h1 & fd1 & Hrun1 & Hf1 & Hext1 & Hsame1 & Habs1 & Hds1 & Hpe1 & Hoth1).
  { intros Hkk. apply (Hlists k v); [left|done]. }
  assert (Hrest : ∀ k2 v2, (k2, v2) ∈ rest → k2 ≠ k).
  { intros k2 v2 Hin ->. apply Hk. apply list_elem_of_fmap. by exists (k, v2). }
  destruct (IH Hnd h1 fd1 Hf1) as (h' & fd' & Hrun & Hf' & Hext & Hsame & Hitems).
  { intros k2 v2 Hin Hkk.
    destruct (Hlists k2 v2) as [Habs Hread]; [by right|done|].
    split.
    - apply (list_or_absent_extends final h h1 fd fd1); eauto.
    - apply (readable_extends final h h1 fd fd1); eauto. }
  exists h', fd'.
  split; [cbn [merge_items]; by rewrite (bind_ok _ _ _ _ _ Hrun1)|].
  split; [done|]. split; [by eapply extends_trans|].
  split.
  { intros k' Hk'. rewrite fmap_cons in Hk'. apply not_elem_of_cons in Hk' as [Hne Hk'].
    rewrite Hsame by done. by apply Hsame1. }
  intros k2 v2 Hin. apply elem_of_cons in Hin as [[= -> ->]|Hin].
  - assert (Hkeep : fd' !! k = fd1 !! k) by by apply Hsame.
    split; [|split; [|split]].
    + intros Hkk. apply (list_or_absent_extends final h1 h' fd1 fd'); auto.
    + intros Hkk. rewrite <- Hds1 by done.
      apply (list_at_unchanged final h1 h' fd1 fd'); auto.
    + intros Hkk. rewrite <- Hpe1 by done.
      apply (list_at_unchanged final h1 h' fd1 fd'); auto.
    + intros ? ?. rewrite Hkeep. by apply Hoth1.
  - destruct (Hitems k2 v2 Hin) as (Habs & Hds & Hpe & Hoth).
    assert (Hne : k2 ≠ k) by by eapply Hrest.
    split; [done|].
    assert (Htransfer : k2 = "data_sources" ∨ k2 = "processing_errors" →
              list_at h1 final k2 = list_at h final k2
              ∧ incoming h1 (Some v2) = incoming h (Some v2)).
    { intros Hkk. destruct (Hlists k2 v2) as [Habs0 Hread0]; [by right|done|].
      split.
      - apply (list_at_unchanged final h h1 fd fd1); auto.
      - apply (incoming_unchanged final h h1 fd fd1); auto. }
    split; [|split].
    + intros Hkk. destruct Htransfer as [<- <-]; [by left|]. by apply Hds.
    + intros Hkk. destruct Htransfer as [<- <-]; [by right|]. by apply Hpe.
    + intros ? ?. rewrite <- (Hsame1 k2) by done. by apply Hoth.
Qed.

Lemma readable_extends_opt final h h' fd fd' o :
  h !! final = Some (ODict fd) → h' !! final = Some (ODict fd') →
  extends final h h' → readable h o → readable h' o ∧ incoming h' o = incoming h o.
Proof.
  intros Hf Hf' He Hr. destruct o as [v|]; [|split; [by intros ? [=]|done]].
  by eapply incoming_extends.
Qed.

Lemma map_to_list_key_absent (m : gmap string value) k :
  m !! k = None → k ∉ (map_to_list m).*1.
Proof.
  intros Hk [[k' v] [-> Hin]]%list_elem_of_fmap.
  apply elem_of_map_to_list in Hin. simpl in Hk. congruence.
Qed.

(** One result merged into the accumulator. *)
Lemma merge_result_spec final r h fd rd :
  h !! final = Some (ODict fd) → h !! r = Some (ODict rd) →
  list_or_absent h final "data_sources" →
  list_or_absent h final "processing_errors" →
  readable h (rd !! "data_sources") →
  readable h (rd !! "processing_errors") →
  ∃ h' fd',
    merge_result final (inr r) h = (inr (), h')
    ∧ h' !! final = Some (ODict fd')
    ∧ extends final h h'
    ∧ list_or_absent h' final "data_sources"
    ∧ list_or_absent h' final "processing_errors"
    ∧ list_at h' final "data_sources"
      = (if rd !! "data_sources" is Some _
         then list_set (list_at h final "data_sources"
                        ++ incoming h (rd !! "data_sources"))
         else list_at h final "data_sources")
    ∧ list_at h' final "processing_errors"
      = list_at h final "processing_errors" ++ incoming h (rd !! "processing_errors")
    ∧ (∀ k, k ≠ "data_sources" → k ≠ "processing_errors" →
         fd' !! k = overwritten (rd !! k) (fd !! k)).
Proof.
  intros Hf Hr Hds Hpe Hrds Hrpe.
  destruct (merge_items_spec final (map_to_list rd) (NoDup_fst_map_to_list rd) h fd Hf)
    as (h' & fd' & Hrun & Hf' & Hext & Hsame & Hitems).
  { intros k v Hin%elem_of_map_to_list [-> | ->]; split; try done; by rewrite <- Hin. }
  exists h', fd'.
  split; [unfold merge_result; by rewrite (bind_ok _ _ _ _ _ (load_dict_run _ _ _ Hr))|].
  split; [done|]. split; [done|].
  assert (Habsent : ∀ k, rd !! k = None → list_or_absent h final k →
            list_or_absent h' final k ∧ list_at h' final k = list_at h final k).
  { intros k Hk Hl. apply (list_at_extends final h h' fd fd'); auto.
    by apply Hsame, map_to_list_key_absent. }
  assert (Hpresent : ∀ k v, rd !! k = Some v → (k, v) ∈ map_to_list rd).
  { intros k v Hk. by apply elem_of_map_to_list. }
  repeat split.
  - destruct (rd !! "data_sources") as [v|] eqn:Hk; [|by apply Habsent].
    apply (Hitems _ v); auto.
  - destruct (rd !! "processing_errors") as [v|] eqn:Hk; [|by apply Habsent].
    apply (Hitems _ v); auto.
  - destruct (rd !! "data_sources") as [v|] eqn:Hk; [|by apply Habsent].
    by apply (Hitems _ v); auto.
  - destruct (rd !! "processing_errors") as [v|] eqn:Hk.
    + by apply (Hitems _ v); auto.
    + simpl. rewrite app_nil_r. by apply Habsent.
  - intros k H1 H2. destruct (rd !! k) as [v|] eqn:Hk.
    + by apply (Hitems _ v); auto.
    + simpl. by apply Hsame, map_to_list_key_absent.
Qed.

Lemma list_set_elem xs x : x ∈ list_set xs ↔ x ∈ xs.
Proof. unfold list_set. by rewrite elem_of_elements, elem_of_list_to_set. Qed.

Lemma list_set_NoDup xs : NoDup (list_set xs).
Proof. unfold list_set. apply NoDup_elements. Qed.

Lemma value_at_dict h d m k : h !! d = Some (ODict m) → value_at h d k = m !! k.
Proof. intros H. unfold value_at. by rewrite H. Qed.

Lemma stored_list_at h d m k :
  h !! d = Some (ODict m) → list_or_absent h d k → list_at h d k = stored h d k.
Proof.
  intros Hd [xs Hxs]. rewrite (list_at_run _ _ _ _ Hxs). unfold stored. rewrite Hd.
  destruct (get_list_items_inv _ _ _ _ _ Hd Hxs) as [[-> ->]|(l & -> & ->)]; done.
Qed.

Lemma holds_list_or_absent h d m k :
  h !! d = Some (ODict m) → m !! k = None ∨ holds_list h m k → list_or_absent h d k.
Proof.
  intros Hd [Hk|(l & xs & Hk & Hl)].
  - exists []. by eapply get_list_items_missing.
  - exists xs. by eapply get_list_items_run.
Qed.

Lemma or_absent_holds_list h d m k :
  h !! d = Some (ODict m) → list_or_absent h d k → m !! k = None ∨ holds_list h m k.
Proof.
  intros Hd [xs Hxs].
  destruct (get_list_items_inv _ _ _ _ _ Hd Hxs) as [[Hk _]|(l & Hk & Hl)];
    [by left|right; by exists l, xs].
Qed.

Lemma holds_list_incoming h r rd k :
  h !! r = Some (ODict rd) → holds_list h rd k →
  readable h (rd !! k) ∧ incoming h (rd !! k) = stored h r k ∧ is_Some (rd !! k).
Proof.
  intros Hr (l & xs & Hk & Hl).
  assert (as_new_list (VRef l) h = (inr xs, h)) as Hrun.
  { unfold as_new_list. by rewrite (bind_ok _ _ _ _ _ (load_run _ _ _ Hl)). }
  rewrite Hk. split; [intros v [= <-]; by eexists|]. split; [|by eexists].
  unfold incoming, stored. by rewrite Hrun, Hr, Hk, Hl.
Qed.

Lemma holds_list_extends final h h' r rd fd k :
  h !! final = Some (ODict fd) → h !! r = Some (ODict rd) → final ≠ r →
  extends final h h' → holds_list h rd k →
  h' !! r = Some (ODict rd) ∧ holds_list h' rd k ∧ stored h' r k = stored h r k.
Proof.
  intros Hf Hr Hne [_ Hext] (l & xs & Hk & Hl).
  assert (Hr' : h' !! r = Some (ODict rd)).
  { rewrite Hext; [done|by eapply lookup_lt_Some|done]. }
  assert (Hl' : h' !! l = Some (OList xs)).
  { rewrite Hext; [done|by eapply lookup_lt_Some|intros ->; congruence]. }
  split; [done|]. split; [by exists l, xs|].
  unfold stored. by rewrite Hr, Hr', Hk, Hl, Hl'.
Qed.

(** One result merged into the accumulator, read off the heap. *)
Lemma merge_result_stored final r h fd rd :
  h !! final = Some (ODict fd) → h !! r = Some (ODict rd) →
  fd !! "data_sources" = None ∨ holds_list h fd "data_sources" →
  fd !! "processing_errors" = None ∨ holds_list h fd "processing_errors" →
  holds_list h rd "data_sources" → holds_list h rd "processing_errors" →
  ∃ h1 fd1,
    merge_result final (inr r) h = (inr (), h1)
    ∧ h1 !! final = Some (ODict fd1)
    ∧ extends final h h1
    ∧ (fd1 !! "data_sources" = None ∨ holds_list h1 fd1 "data_sources")
    ∧ (fd1 !! "processing_errors" = None ∨ holds_list h1 fd1 "processing_errors")
    ∧ stored h1 final "data_sources"
      = list_set (stored h final "data_sources" ++ stored h r "data_sources")
    ∧ stored h1 final "processing_errors"
      = stored h final "processing_errors" ++ stored h r "processing_errors"
    ∧ (∀ k, k ≠ "data_sources" → k ≠ "processing_errors" →
            fd1 !! k = overwritten (rd !! k) (fd !! k)).
Proof.
  intros Hf Hr Hds Hpe Hrds Hrpe.
  pose proof (holds_list_or_absent _ _ _ _ Hf Hds) as Lds.
  pose proof (holds_list_or_absent _ _ _ _ Hf Hpe) as Lpe.
  destruct (holds_list_incoming _ _ _ _ Hr Hrds) as (Rds & Ids & [vds Sds]).
  destruct (holds_list_incoming _ _ _ _ Hr Hrpe) as (Rpe & Ipe & _).
  destruct (merge_result_spec final r h fd rd Hf Hr Lds Lpe Rds Rpe) as
    (h1 & fd1 & Hrun & Hf1 & Hext & Lds1 & Lpe1 & Hsrc & Herr & Hov).
  exists h1, fd1. split; [done|]. split; [done|]. split; [done|].
  split; [by eapply or_absent_holds_list|]. split; [by eapply or_absent_holds_list|].
  rewrite <- (stored_list_at _ _ _ _ Hf1 Lds1), <- (stored_list_at _ _ _ _ Hf1 Lpe1).
  rewrite <- (stored_list_at _ _ _ _ Hf Lds), <- (stored_list_at _ _ _ _ Hf Lpe).
  rewrite <- Ids, <- Ipe. split; [by rewrite Hsrc, Sds|]. by split.
Qed.

(** Two results merged one after the other. *)
Lemma merge_two_stored final r1 r2 h fd rd1 rd2 :
  h !! final = Some (ODict fd) →
  h !! r1 = Some (ODict rd1) → h !! r2 = Some (ODict rd2) → final ≠ r2 →
  fd !! "data_sources" = None ∨ holds_list h fd "data_sources" →
  fd !! "processing_errors" = None ∨ holds_list h fd "processing_errors" →
  holds_list h rd1 "data_sources" → holds_list h rd1 "processing_errors" →
  holds_list h rd2 "data_sources" → holds_list h rd2 "processing_errors" →
  ∃ h2,
    merge_results final [inr r1; inr r2] h = (inr (), h2)
    ∧ NoDup (stored h2 final "data_sources")
    ∧ (∀ x, x ∈ stored h2 final "data_sources"
            ↔ x ∈ stored h final "data_sources" ∨ x ∈ stored h r1 "data_sources"
              ∨ x ∈ stored h r2 "data_sources")
    ∧ stored h2 final "processing_errors"
      = stored h final "processing_errors" ++ stored h r1 "processing_errors"
        ++ stored h r2 "processing_errors".
Proof.
  intros Hf Hr1 Hr2 Hne Hds Hpe Hd1 Hp1 Hd2 Hp2.
  destruct (merge_result_stored final r1 h fd rd1) as
    (h1 & fd1 & Hrun1 & Hf1 & Hext1 & Hds1 & Hpe1 & Hsrc1 & Herr1 & _); try done.
  destruct (holds_list_extends final h h1 r2 rd2 fd "data_sources") as (Hr2' & Hd2' & Sd2);
    try done.
  destruct (holds_list_extends final h h1 r2 rd2 fd "processing_errors") as (_ & Hp2' & Sp2);
    try done.
  destruct (merge_result_stored final r2 h1 fd1 rd2) as
    (h2 & fd2 & Hrun2 & Hf2 & Hext2 & Hds2 & Hpe2 & Hsrc2 & Herr2 & _); try done.
  exists h2. split.
  { cbn [merge_results]. rewrite (bind_ok _ _ _ _ _ Hrun1).
    by rewrite (bind_ok _ _ _ _ _ Hrun2). }
  split; [rewrite Hsrc2; apply list_set_NoDup|]. split.
  - intros x. rewrite Hsrc2, list_set_elem, elem_of_app, Hsrc1, list_set_elem, elem_of_app, Sd2.
    tauto.
  - by rewrite Herr2, Herr1, Sp2, app_assoc.
Qed.

Lemma merge_one_stored final r h fd rd :
  h !! final = Some (ODict fd) → h !! r = Some (ODict rd) →
  fd !! "data_sources" = None ∨ holds_list h fd "data_sources" →
  fd !! "processing_errors" = None ∨ holds_list h fd "processing_errors" →
  holds_list h rd "data_sources" → holds_list h rd "processing_errors" →
  ∃ h1,
    merge_result final (inr r) h = (inr (), h1)
    ∧ merge_results final [inr r] h = (inr (), h1)
    ∧ NoDup (stored h1 final "data_sources")
    ∧ (∀ x, x ∈ stored h1 final "data_sources"
            ↔ x ∈ stored h final "data_sources" ∨ x ∈ stored h r "data_sources")
    ∧ stored h1 final "processing_errors"
      = stored h final "processing_errors" ++ stored h r "processing_errors"
    ∧ (∀ k, k ≠ "data_sources" → k ≠ "processing_errors" →
         value_at h1 final k = overwritten (rd !! k) (value_at h final k)).
Proof.
  intros Hf Hr Hds Hpe Hd Hp.
  destruct (merge_result_stored final r h fd rd) as
    (h1 & fd1 & Hrun1 & Hf1 & Hext1 & Hds1 & Hpe1 & Hsrc1 & Herr1 & Hov1); try done.
  exists h1. split; [done|].
  split; [cbn [merge_results]; by rewrite (bind_ok _ _ _ _ _ Hrun1)|].
  split; [rewrite Hsrc1; apply list_set_NoDup|]. split; [|split; [done|]].
  - intros x. by rewrite Hsrc1, list_set_elem, elem_of_app.
  - intros k H1 H2. rewrite (value_at_dict _ _ _ _ Hf), (value_at_dict _ _ _ _ Hf1).
    by apply Hov1.
Qed.

(** C4: merging a result into the accumulator makes [data_sources] the
    union of the sources the accumulator held and the sources the
    result holds, without repeats; makes [processing_errors] the errors
    the accumulator held followed by those the result holds; and
    overwrites any other key exactly when the result's value is not
    null.  Merging the same result twice gives the same sources as
    merging it once, merging two results in either order gives the same
    sources, and merging a=1 and then a=null leaves a=1.  The lists are
    read off the heap: those of the results before the merge, those of
    the accumulator before and after it. *)
Theorem coordinator_merge_rules (h : heap) (final r r' : loc)
    (fd rd rd' : gmap string value) :
  h !! final = Some (ODict fd) →
  h !! r = Some (ODict rd) → h !! r' = Some (ODict rd') →
  final ≠ r → final ≠ r' →
  fd !! "data_sources" = None ∨ holds_list h fd "data_sources" →
  fd !! "processing_errors" = None ∨ holds_list h fd "processing_errors" →
  holds_list h rd "data_sources" → holds_list h rd "processing_errors" →
  holds_list h rd' "data_sources" → holds_list h rd' "processing_errors" →
  (∃ h1,
     merge_result final (inr r) h = (inr (), h1)
     ∧ NoDup (stored h1 final "data_sources")
     ∧ (∀ x, x ∈ stored h1 final "data_sources"
             ↔ x ∈ stored h final "data_sources" ∨ x ∈ stored h r "data_sources")
     ∧ stored h1 final "processing_errors"
       = stored h final "processing_errors" ++ stored h r "processing_errors"
     ∧ (∀ k, k ≠ "data_sources" → k ≠ "processing_errors" →
          value_at h1 final k = overwritten (rd !! k) (value_at h final k)))
  ∧ (∃ h1 h2,
       merge_results final [inr r] h = (inr (), h1)
       ∧ merge_results final [inr r; inr r] h = (inr (), h2)
       ∧ stored h2 final "data_sources" ≡ₚ stored h1 final "data_sources")
  ∧ (∃ hA hB,
       merge_results final [inr r; inr r'] h = (inr (), hA)
       ∧ merge_results final [inr r'; inr r] h = (inr (), hB)
       ∧ stored hA final "data_sources" ≡ₚ stored hB final "data_sources"
       ∧ (∀ x, x ∈ stored hA final "data_sources"
               ↔ x ∈ stored h final "data_sources" ∨ x ∈ stored h r "data_sources"
                 ∨ x ∈ stored h r' "data_sources")
       ∧ stored hA final "processing_errors"
         = stored h final "processing_errors" ++ stored h r "processing_errors"
           ++ stored h r' "processing_errors")
  ∧ (∃ h',
       merge_results 0 [inr 1%nat; inr 2%nat]
         [ODict ∅; ODict {["a" := VInt 1]}; ODict {["a" := VNone]}] = (inr (), h')
       ∧ value_at h' 0 "a" = Some (VInt 1)).
Proof.
  intros Hf Hr Hr' Hne Hne' Hds Hpe Hd Hp Hd' Hp'.
  destruct (merge_one_stored final r h fd rd) as
    (h1 & Hrun1 & Hruns1 & Hnd1 & Hel1 & He1 & Ho1); try done.
  split; [|split; [|split]].
  - by exists h1.
  - destruct (merge_two_stored final r r h fd rd rd) as (h2 & Hrun2 & Hnd2 & Hel2 & _);
      try done.
    exists h1, h2. split; [done|]. split; [done|].
    apply NoDup_Permutation; [done|done|].
    intros x. rewrite Hel2, Hel1. tauto.
  - destruct (merge_two_stored final r r' h fd rd rd') as (hA & HrunA & HndA & HelA & HeA);
      try done.
    destruct (merge_two_stored final r' r h fd rd' rd) as (hB & HrunB & HndB & HelB & _);
      try done.
    exists hA, hB. split; [done|]. split; [done|]. split; [|by split].
    apply NoDup_Permutation; [done|done|].
    intros x. rewrite HelA, HelB. tauto.
  - eexists. split; [vm_compute; reflexivity|reflexivity].
Qed.

Lemma coordinator_merge_rules_witness :
  ∃ h1,
    merge_result 0 (inr 2%nat) merge_heap = (inr (), h1)
    ∧ stored h1 0 "processing_errors" = ["Price fetch failed: no data"]
    ∧ (∀ x, x ∈ stored h1 0 "data_sources" ↔ x ∈ ["yfinance"; "newsapi"; "rss_feeds"])
    ∧ value_at h1 0 "company_name" = Some (VStr "Apple Inc.").
Proof.
  destruct (coordinator_merge_rules merge_heap 0 2 1 _ _ _ eq_refl eq_refl eq_refl)
    as [(h1 & Hrun & _ & Hel & Herr & Hov) _].
  - discriminate.
  - discriminate.
  - right. by exists 3%nat, ["yfinance"].
  - right. by exists 4%nat, [].
  - by exists 6%nat, ["newsapi"; "rss_feeds"].
  - by exists 7%nat, ["Price fetch failed: no data"].
  - by exists 5%nat, ["yfinance"; "newsapi"].
  - by exists 8%nat, [].
  - exists h1. split; [exact Hrun|]. split; [exact Herr|]. split.
    + intros x. rewrite Hel. change (stored merge_heap 0 "data_sources") with ["yfinance"].
      change (stored merge_heap 2 "data_sources") with ["newsapi"; "rss_feeds"].
      rewrite !elem_of_cons. tauto.
    + by rewrite Hov.
Defined.

(** ** The consensus rating *)

Lemma bind_inv {A B} (m : M A) (f : A → M B) h b h' :
  (m ≫= f) h = (inr b, h') → ∃ a h1, m h = (inr a, h1) ∧ f a h1 = (inr b, h').
Proof.
  unfold mbind, M_bind. destruct (m h) as [[e|a] h1]; [intros H; discriminate H|eauto].
Qed.

Ltac unbind H :=
  repeat (let a := fresh "a" in let h := fresh "h" in let Ha := fresh "Ha" in
          apply bind_inv in H as (a & h & Ha & H)).

Lemma format_response_consensus symbol state h r h' :
  format_response symbol state h = (inr r, h') → r_consensus_rating r = None.
Proof.
  unfold format_response. intros H. unbind H.
  destruct (negb _); [discriminate H|].
  destruct (match a with VPrice _ => _ | _ => _ end) as [[[[? ?] ?] ?] ?].
  unbind H. injection H as <- _. reflexivity.
Qed.

Lemma orchestrate_consensus svc symbol h r h' :
  orchestrate svc symbol h = (inr r, h') → r_consensus_rating r = None.
Proof.
  unfold orchestrate, try_except. intros H.
  match type of H with
  | context [match ?body with _ => _ end] => destruct body as [[e|r'] h1] eqn:E
  end; [discriminate H|].
  injection H as <- <-.
  do 3 (apply bind_inv in E as (? & ? & _ & E)).
  by eapply format_response_consensus.
Qed.

(** The vote itself, as the helper computes it: ratings without a
    keyword count for nothing, and a non-empty list of them gives the
    default. *)
Lemma calculate_consensus_rating_default rating ratings :
  Forall no_keyword (rating :: ratings) →
  calculate_consensus_rating (rating :: ratings) = Some "HOLD".
Proof.
  intros Hall. unfold calculate_consensus_rating.
  assert (foldl count_rating [] (rating :: ratings) = []) as ->; [|reflexivity].
  generalize dependent (rating :: ratings). intros l Hall.
  induction Hall as [|x l (Hb & Hh & Hs) _ IH]; [reflexivity|].
  cbn [foldl]. unfold count_rating at 2. cbv zeta. by rewrite Hb, Hh, Hs.
Qed.

(** C8, where the code departs from it.  [calculate_consensus_rating]
    implements the vote, but nothing calls it: the formatter builds the
    response without a consensus rating, so the field is null in every
    response of [format_response] and of [orchestrate].  On analyst
    ratings that hold one BUY the vote gives BUY, and the response of
    [orchestrate] and the one in the final event of the streaming driver
    carry that rating with a null consensus. *)
Theorem consensus_rating_never_set :
  (∀ symbol state h r h',
     format_response symbol state h = (inr r, h') → r_consensus_rating r = None)
  ∧ (∀ svc symbol h r h',
       orchestrate svc symbol h = (inr r, h') → r_consensus_rating r = None)
  ∧ (∃ r, (orchestrate sample_services "AAPL" []).1 = inr r
       ∧ r_analyst_ratings r = [sample_rating]
       ∧ calculate_consensus_rating (r_analyst_ratings r) = Some "BUY"
       ∧ r_consensus_rating r = None)
  ∧ (∃ r, last (events_of (stream_coordinated_analysis sample_services "AAPL" []))
          = Some (Complete 100 r)
       ∧ r_analyst_ratings r = [sample_rating]
       ∧ calculate_consensus_rating (r_analyst_ratings r) = Some "BUY"
       ∧ r_consensus_rating r = None).
Proof.
  split; [apply format_response_consensus|].
  split; [apply orchestrate_consensus|]. split.
  - eexists. split; [vm_compute; reflexivity|]. by vm_compute.
  - eexists. split; [vm_compute; reflexivity|]. by vm_compute.
Qed.

(** * Further properties of the code *)

(** ** [error_handling.py]: retries, error translation, fallbacks *)

Lemma raises_retryable_dec {A} (r : result A) :
  raises_retryable r ∨ ¬ raises_retryable r.
Proof.
  destruct r as [e|a].
  - destruct (retryable (exn_class e)) eqn:E.
    + left. by exists e.
    + right. intros (e' & [= <-] & H). congruence.
  - right. intros (e' & H & _). discriminate H.
Qed.

Lemma retry_loop_settles {A} (attempt : nat → result A) retries i n :
  (∀ j, (j < n)%nat → raises_retryable (attempt (i + j)%nat)) →
  ¬ raises_retryable (attempt (i + n)%nat) →
  (n ≤ retries)%nat →
  retry_loop retries i attempt = attempt (i + n)%nat.
Proof.
  revert i n. induction retries as [|retries IH]; intros i n Hbefore Hn Hle.
  - assert (n = 0%nat) as -> by lia. rewrite Nat.add_0_r in *.
    cbn [retry_loop]. destruct (attempt i) as [e|a] eqn:E; [|reflexivity].
    destruct (retryable (exn_class e)) eqn:Er; [|reflexivity].
    destruct Hn. by exists e.
  - cbn [retry_loop]. destruct n as [|n].
    + rewrite Nat.add_0_r in *. destruct (attempt i) as [e|a] eqn:E; [|reflexivity].
      destruct (retryable (exn_class e)) eqn:Er; [|reflexivity].
      destruct Hn. by exists e.
    + destruct (Hbefore 0%nat ltac:(lia)) as (e & He & Hr).
      rewrite Nat.add_0_r in He. rewrite He, Hr.
      rewrite (IH (S i) n); [f_equal; lia| | |lia].
      * intros j Hj. replace (S i + j)%nat with (i + S j)%nat by lia.
        apply Hbefore. lia.
      * by replace (S i + n)%nat with (i + S n)%nat by lia.
Qed.

Lemma retry_loop_exhausted {A} (attempt : nat → result A) retries i :
  (∀ j, (j ≤ retries)%nat → raises_retryable (attempt (i + j)%nat)) →
  retry_loop retries i attempt = inl (Exn RetryError "RetryError").
Proof.
  revert i. induction retries as [|retries IH]; intros i Hall;
    destruct (Hall 0%nat ltac:(lia)) as (e & He & Hr);
    rewrite Nat.add_0_r in He; cbn [retry_loop]; rewrite He, Hr; [reflexivity|].
  apply IH. intros j Hj. replace (S i + j)%nat with (i + S j)%nat by lia.
  apply Hall. lia.
Qed.

(** What the retry loop raises is tenacity's own error or an exception
    it does not retry. *)
Lemma retry_loop_raises {A} (attempt : nat → result A) retries i e :
  retry_loop retries i attempt = inl e → retryable (exn_class e) = false.
Proof.
  revert i. induction retries as [|retries IH]; intros i; cbn [retry_loop];
    destruct (attempt i) as [e'|a]; try (intros H; discriminate H);
    destruct (retryable (exn_class e')) eqn:Er; try (by intros [= <-]).
  apply IH.
Qed.

(** X1: the retry decorator makes at most [max_retries] calls (and always
    one).  It gives the outcome of the first call that does not raise a
    retried exception (a timeout or a connection error), be it a value
    or another exception, when that call is among those allowed; when
    every allowed call raises a retried exception it raises tenacity's
    [RetryError], not the last exception. *)
Theorem create_retry_decorator_outcome {A} (cfg : Settings) (attempt : nat → result A) :
  (∀ n, (n < max_attempts cfg)%nat →
        (∀ j, (j < n)%nat → raises_retryable (attempt j)) →
        ¬ raises_retryable (attempt n) →
        create_retry_decorator cfg attempt = attempt n)
  ∧ ((∀ j, (j < max_attempts cfg)%nat → raises_retryable (attempt j)) →
     ∃ msg, create_retry_decorator cfg attempt = inl (Exn RetryError msg))
  ∧ (∀ attempt', (∀ j, (j < max_attempts cfg)%nat → attempt' j = attempt j) →
       create_retry_decorator cfg attempt' = create_retry_decorator cfg attempt).
Proof.
  unfold create_retry_decorator, max_attempts. split; [|split].
  - intros n Hn Hbefore Hsettled.
    apply (retry_loop_settles attempt _ 0 n); [done|done|lia].
  - intros Hall. eexists. apply (retry_loop_exhausted attempt _ 0).
    intros j Hj. apply Hall. lia.
  - intros attempt' Hsame.
    assert (∀ retries i, (∀ j, (j ≤ retries)%nat → attempt' (i + j)%nat = attempt (i + j)%nat) →
              retry_loop retries i attempt' = retry_loop retries i attempt) as Hloop.
    { induction retries as [|retries IH]; intros i Heq; cbn [retry_loop];
        pose proof (Heq 0%nat ltac:(lia)) as H0; rewrite Nat.add_0_r in H0; rewrite H0;
        [reflexivity|].
      destruct (attempt i) as [e|a]; [|reflexivity].
      destruct (retryable _); [|reflexivity].
      apply IH. intros j Hj. replace (S i + j)%nat with (i + S j)%nat by lia.
      apply Heq. lia. }
    apply Hloop. intros j Hj. apply Hsame. lia.
Qed.

(** X2: a function under [@handle_api_errors @create_retry_decorator()]
    returns what the retried function returns, and whatever goes wrong
    it raises a plain [StockDataError]: the timeout and connection
    errors that [handle_api_errors] would turn into [APITimeoutError] and
    [ServiceUnavailableError] are the ones the retry decorator retries
    and replaces by its [RetryError], and the typed errors raised
    inside ([InvalidSymbolError], [APIRateLimitError],
    [DataNotFoundError]) lose their class. *)
Theorem decorated_raises_plain_StockDataError {A} (name : string) (cfg : Settings)
    (attempt : nat → result A) :
  let decorated := handle_api_errors name (create_retry_decorator cfg attempt) in
  (∀ a, decorated = inr a ↔ create_retry_decorator cfg attempt = inr a)
  ∧ (∀ e, decorated = inl e →
       exn_class e = StockDataError
       ∧ ∃ e', create_retry_decorator cfg attempt = inl e'
               ∧ exn_str e = "Error in " +:+ name +:+ ": " +:+ exn_str e').
Proof.
  cbv zeta. unfold handle_api_errors, create_retry_decorator.
  destruct (retry_loop _ _ _) as [e'|a] eqn:E.
  - apply retry_loop_raises in E. split.
    + intros a. destruct (exn_class e'); split; intros H; discriminate H.
    + intros e He. destruct (exn_class e'); try discriminate E;
        injection He as <-; (split; [reflexivity|by exists e']).
  - split; [done|]. intros e He. discriminate He.
Qed.

Lemma try_fallbacks_answer {A} (fallbacks : list (result (option A))) i errors r :
  try_fallbacks i fallbacks errors = inr r ↔
  ∃ n, fallbacks !! n = Some (inr (Some r))
       ∧ ∀ j x, (j < n)%nat → fallbacks !! j = Some x → ¬ answers x.
Proof.
  revert i errors. induction fallbacks as [|f fs IH]; intros i errors; cbn [try_fallbacks].
  - split; [intros H; discriminate H|]. intros (n & Hn & _). discriminate Hn.
  - assert (Hskip : ¬ answers f →
              (∃ n, fs !! n = Some (inr (Some r))
                    ∧ ∀ j x, (j < n)%nat → fs !! j = Some x → ¬ answers x)
              ↔ (∃ n, (f :: fs) !! n = Some (inr (Some r))
                      ∧ ∀ j x, (j < n)%nat → (f :: fs) !! j = Some x → ¬ answers x)).
    { intros Hf. split.
      - intros (n & Hn & Hbefore). exists (S n). split; [done|].
        intros [|j] x Hj Hx; [by injection Hx as <-|].
        apply (Hbefore j); [lia|done].
      - intros ([|n] & Hn & Hbefore).
        + injection Hn as ->. destruct Hf. by eexists.
        + exists n. split; [done|]. intros j x Hj Hx.
          apply (Hbefore (S j)); [lia|done]. }
    destruct f as [e|[a|]].
    + rewrite IH. apply Hskip. intros (a & Ha). discriminate Ha.
    + split.
      * intros [= <-]. exists 0%nat. split; [done|]. intros j x Hj. lia.
      * intros ([|n] & Hn & Hbefore); [by injection Hn as <-|].
        destruct (Hbefore 0%nat (inr (Some a)) ltac:(lia) eq_refl). by eexists.
    + rewrite IH. apply Hskip. intros (a & Ha). discriminate Ha.
Qed.

Lemma try_fallbacks_errors {A} (fallbacks : list (result (option A))) i errors errors' :
  try_fallbacks i fallbacks errors = inl errors' → Forall (λ x, ¬ answers x) fallbacks.
Proof.
  revert i errors. induction fallbacks as [|f fs IH]; intros i errors; cbn [try_fallbacks].
  - intros _. constructor.
  - destruct f as [e|[a|]]; [|intros H; discriminate H|]; intros H;
      apply IH in H; (constructor; [|done]); intros (a & Ha); discriminate Ha.
Qed.

(** X3: [execute_with_fallback] returns the data of the first source, the
    primary one first and then the fallbacks in order, that neither
    raises nor returns null; it raises, and then a [StockDataError]
    naming the data type, exactly when no source answers. *)
Theorem execute_with_fallback_first_answer {A} (data_type : string)
    (primary : result (option A)) (fallbacks : list (result (option A))) :
  let sources := primary :: fallbacks in
  (∀ r, execute_with_fallback data_type primary fallbacks = inr r ↔
        ∃ n, sources !! n = Some (inr (Some r))
             ∧ ∀ j x, (j < n)%nat → sources !! j = Some x → ¬ answers x)
  ∧ (Forall (λ x, ¬ answers x) sources ↔
     ∃ e, execute_with_fallback data_type primary fallbacks = inl e)
  ∧ (∀ e, execute_with_fallback data_type primary fallbacks = inl e →
       exn_class e = StockDataError
       ∧ ∃ detail, exn_str e
                   = "All data sources failed for " +:+ data_type +:+ ": " +:+ detail).
Proof.
  cbv zeta.
  assert (Hfail : ∀ e, execute_with_fallback data_type primary fallbacks = inl e →
            Forall (λ x, ¬ answers x) (primary :: fallbacks)
            ∧ ∃ errors, e = Exn StockDataError
                ("All data sources failed for " +:+ data_type +:+ ": "
                 +:+ join "; " errors)).
  { intros e. unfold execute_with_fallback.
    destruct primary as [e0|[a|]]; [|intros H; discriminate H|];
      destruct (try_fallbacks _ _ _) as [errors|r] eqn:E; try (intros H; discriminate H);
      intros [= <-]; apply try_fallbacks_errors in E as Hall;
      (split; [constructor; [intros (a & Ha); discriminate Ha|done]|by eexists]). }
  assert (Hans : ∀ r, execute_with_fallback data_type primary fallbacks = inr r ↔
            ∃ n, (primary :: fallbacks) !! n = Some (inr (Some r))
                 ∧ ∀ j x, (j < n)%nat → (primary :: fallbacks) !! j = Some x → ¬ answers x).
  { intros r. unfold execute_with_fallback.
    destruct primary as [e0|[a|]].
    - destruct (try_fallbacks _ _ _) as [errors|r'] eqn:E.
      + split; [intros H; discriminate H|]. intros ([|n] & Hn & Hbefore); [discriminate Hn|].
        assert (try_fallbacks 0 fallbacks ["Primary source failed: " +:+ exn_str e0] = inr r)
          as E'; [|rewrite E' in E; discriminate E].
        apply try_fallbacks_answer. exists n. split; [done|].
        intros j x Hj Hx. apply (Hbefore (S j)); [lia|done].
      + apply try_fallbacks_answer in E as (n & Hn & Hbefore). split.
        * intros [= <-]. exists (S n). split; [done|].
          intros [|j] x Hj Hx; [injection Hx as <-; intros (a & Ha); discriminate Ha|].
          apply (Hbefore j); [lia|done].
        * intros ([|m] & Hm & Hbefore'); [discriminate Hm|].
          change (fallbacks !! m = Some (inr (Some r))) in Hm.
          destruct (Nat.lt_trichotomy n m) as [Hlt|[->|Hgt]].
          -- destruct (Hbefore' (S n) (inr (Some r')) ltac:(lia) Hn). by eexists.
          -- congruence.
          -- destruct (Hbefore m (inr (Some r)) Hgt Hm). by eexists.
    - split.
      + intros [= <-]. exists 0%nat. split; [done|]. intros j x Hj. lia.
      + intros ([|n] & Hn & Hbefore); [by injection Hn as <-|].
        destruct (Hbefore 0%nat (inr (Some a)) ltac:(lia) eq_refl). by eexists.
    - destruct (try_fallbacks _ _ _) as [errors|r'] eqn:E.
      + split; [intros H; discriminate H|]. intros ([|n] & Hn & Hbefore); [discriminate Hn|].
        assert (try_fallbacks 0 fallbacks [] = inr r)
          as E'; [|rewrite E' in E; discriminate E].
        apply try_fallbacks_answer. exists n. split; [done|].
        intros j x Hj Hx. apply (Hbefore (S j)); [lia|done].
      + apply try_fallbacks_answer in E as (n & Hn & Hbefore). split.
        * intros [= <-]. exists (S n). split; [done|].
          intros [|j] x Hj Hx; [injection Hx as <-; intros (a & Ha); discriminate Ha|].
          apply (Hbefore j); [lia|done].
        * intros ([|m] & Hm & Hbefore'); [discriminate Hm|].
          change (fallbacks !! m = Some (inr (Some r))) in Hm.
          destruct (Nat.lt_trichotomy n m) as [Hlt|[->|Hgt]].
          -- destruct (Hbefore' (S n) (inr (Some r')) ltac:(lia) Hn). by eexists.
          -- congruence.
          -- destruct (Hbefore m (inr (Some r)) Hgt Hm). by eexists. }
  split; [exact Hans|]. split.
  - split.
    + intros Hall.
      destruct (execute_with_fallback data_type primary fallbacks) as [e|r] eqn:E in |- *;
        [by exists e|].
      apply Hans in E as (n & Hn & _).
      rewrite Forall_lookup in Hall. destruct (Hall n _ Hn). by eexists.
    + intros (e & He). by apply Hfail in He as [Hall _].
  - intros e He. apply Hfail in He as (_ & errors & ->). split; [reflexivity|].
    by eexists.
Qed.

(** ** The streaming driver *)

Lemma no_stray_keys_lookup st k : no_stray_keys st → k ∈ probed_keys → st !! k = None.
Proof. unfold no_stray_keys. rewrite Forall_forall. auto. Qed.

(** Typing of the payload and absence of the probed keys after a
    literal [update]. *)
Ltac payload_keys Htyped Hstray :=
  first
    [ unfold payload_typed in *;
      repeat match goal with H : _ ∧ _ |- _ => destruct H end;
      repeat split; intros ?; read_key;
      first [ solve [auto]
            | intros [= <-]; solve [eauto]
            | intros Hv; discriminate Hv ]
    | unfold no_stray_keys, probed_keys;
      repeat (apply Forall_cons_2;
              [read_key; apply (no_stray_keys_lookup _ _ Hstray);
               unfold probed_keys;
               repeat first [apply list_elem_of_here | apply list_elem_of_further]|]);
      apply Forall_nil_2 ].

(** A heap grown by an agent: the completed list possibly extended, the
    returned dict and what it refers to appended. *)
Lemma stream_state_grown h state st cl vl dl el cs ds es vr cs' st' t dl' el' ds' es' :
  stream_state h state st cl vl dl el cs ds es vr →
  let h' := <[cl := OList cs']> h ++ ODict st' :: t in
  st' !! "symbol" = st !! "symbol" →
  st' !! "agents_completed" = Some (VRef cl) →
  st' !! "validation_results" = Some (VRef vl) →
  st' !! "data_sources" = Some (VRef dl') → h' !! dl' = Some (OList ds') →
  st' !! "processing_errors" = Some (VRef el') → h' !! el' = Some (OList es') →
  dl' ≠ el' → dl' ≠ cl → el' ≠ cl →
  payload_typed st' → no_stray_keys st' →
  stream_state h' (length h) st' cl vl dl' el' cs' ds' es' vr.
Proof.
  intros [(symbol & Ha) Hv Hvd (Hsv & Hcd & Hce & Hde) Ht Hs] h' Hsym Hc Hvr Hd Hdl He Hel
    Hne1 Hne2 Hne3 Ht' Hs'.
  destruct Ha as [Hst Hsy Hcl Hcs Hdsk Hdsl Hesk Hesl].
  assert (Hlen : length (<[cl := OList cs']> h) = length h) by apply length_insert.
  assert (Hcl_lt : (cl < length h)%nat) by by eapply lookup_lt_Some.
  assert (Hvl_lt : (vl < length h)%nat) by by eapply lookup_lt_Some.
  assert (Hvl_ne : vl ≠ cl) by (intros ->; congruence).
  split.
  - exists symbol. split; try done.
    + unfold h'. rewrite <- Hlen. apply lookup_new0.
    + by rewrite Hsym.
    + unfold h'. rewrite lookup_app_l by lia. by apply list_lookup_insert_eq.
  - done.
  - unfold h'. rewrite lookup_app_l by lia. by rewrite list_lookup_insert_ne.
  - repeat split; [lia|congruence|congruence|done].
  - done.
  - done.
Qed.

Lemma has_metrics_kept kvs (st : gmap string value) :
  has_metrics st → "financial_metrics" ∉ kvs.*1 → has_metrics (update_all kvs st).
Proof. intros (m & Hm) Hk. exists m. by rewrite update_all_lookup_other. Qed.

Lemma insert_new1_lookup (h : heap) cl o' o1 o t :
  (<[cl := o']> h ++ o1 :: o :: t) !! S (length h) = Some o.
Proof. rewrite <- (length_insert h cl o'). apply lookup_new1. Qed.

(** The side conditions of [stream_state_grown] on the heap an agent
    leaves. *)
Ltac grown_side Ht Hs :=
  cbv zeta;
  first
    [ lia
    | apply insert_new1_lookup
    | rewrite frame_appended_but by (lia || congruence); assumption
    | payload_keys Ht Hs
    | read_key; first [assumption | reflexivity] ].

(** One agent of the loop keeps the state well-formed, whichever branch
    it takes, and only ever adds its own name to the completed list. *)
Lemma agent_keeps_stream_state svc name agent h state st cl vl dl el cs ds es vr :
  (name, agent) ∈ agents svc →
  stream_state h state st cl vl dl el cs ds es vr →
  ∃ h' st' dl' el' cs' ds' es',
    agent state h = (inr (length h), h')
    ∧ stream_state h' (length h) st' cl vl dl' el' cs' ds' es' vr
    ∧ (cs' = cs ∨ cs' = completed_with name cs)
    ∧ (name = "fundamentals" ∨ has_metrics st → has_metrics st').
Proof.
  intros Hin Hss.
  pose proof Hss as [(symbol & Ha) Hv Hvd (Hsv & Hcd & Hce & Hde) Ht Hs].
  pose proof Ha as [Hst Hsy Hcl Hcs Hdsk Hdsl Hesk Hesl].
  assert (Hcl_lt : (cl < length h)%nat) by by eapply lookup_lt_Some.
  assert (Hdl_lt : (dl < length h)%nat) by by eapply lookup_lt_Some.
  assert (Hel_lt : (el < length h)%nat) by by eapply lookup_lt_Some.
  assert (Hsame : ∀ t, h ++ t = <[cl := OList cs]> h ++ t)
    by (intros t; by rewrite list_insert_id).
  assert (Hkept : ∀ kvs status,
            "financial_metrics" ∉ kvs.*1 → status ≠ "financial_metrics" →
            has_metrics st → has_metrics (update_all kvs (<[status := VStr "processing"]> st))).
  { intros kvs status Hk Hne (m & Hm). apply has_metrics_kept; [|done].
    exists m. by rewrite lookup_insert_ne. }
  unfold agents in Hin.
  repeat (apply elem_of_cons in Hin as [Hin|Hin]; [injection Hin as -> ->|]);
    [| | | | | by apply elem_of_nil in Hin].
  - destruct (svc_fetch_current_price svc symbol) as [e|price_data] eqn:He.
    + eexists _, _, dl, (S (length h)), cs, ds, _.
      split; [by eapply price_agent_failure|]. rewrite Hsame.
      split; [eapply stream_state_grown; [done|..]; grown_side Ht Hs|].
      split; [by left|]. intros [H|H]; [discriminate H|]. apply Hkept; [keys_apart|done|done].
    + eexists _, _, (S (length h)), el, _, _, es.
      split; [by eapply price_agent_success|].
      split; [eapply stream_state_grown; [done|..]; grown_side Ht Hs|].
      split; [by right|]. intros [H|H]; [discriminate H|]. apply Hkept; [keys_apart|done|done].
  - destruct (svc_fetch_financial_metrics svc symbol) as [e|m] eqn:He.
    + eexists _, _, dl, (S (length h)), cs, ds, _.
      split; [by eapply fundamentals_agent_failure|]. rewrite Hsame.
      split; [eapply stream_state_grown; [done|..]; grown_side Ht Hs|].
      split; [by left|]. intros _. eexists. read_key.
    + eexists _, _, (S (length h)), el, _, _, es.
      split; [by eapply fundamentals_agent_success|].
      split; [eapply stream_state_grown; [done|..]; grown_side Ht Hs|].
      split; [by right|]. intros _. eexists. read_key.
  - destruct (svc_fetch_analyst_ratings svc symbol) as [e|ratings] eqn:Hr;
      [|destruct (svc_fetch_earnings_data svc symbol) as [e|earnings] eqn:He].
    + eexists _, _, dl, (S (length h)), cs, ds, _.
      split; [eapply analyst_agent_failure; [done|by left]|]. rewrite Hsame.
      split; [eapply stream_state_grown; [done|..]; grown_side Ht Hs|].
      split; [by left|]. intros [H|H]; [discriminate H|]. apply Hkept; [keys_apart|done|done].
    + eexists _, _, dl, (S (length h)), cs, ds, _.
      split; [eapply analyst_agent_failure; [done|right; by eexists]|]. rewrite Hsame.
      split; [eapply stream_state_grown; [done|..]; grown_side Ht Hs|].
      split; [by left|]. intros [H|H]; [discriminate H|]. apply Hkept; [keys_apart|done|done].
    + eexists _, _, (S (length h)), el, _, _, es.
      split; [by eapply analyst_agent_success|].
      split; [eapply stream_state_grown; [done|..]; grown_side Ht Hs|].
      split; [by right|]. intros [H|H]; [discriminate H|]. apply Hkept; [keys_apart|done|done].
  - destruct (svc_fetch_comprehensive_sentiment svc symbol) as [e|[items summary]] eqn:He.
    + eexists _, _, dl, (S (length h)), cs, ds, _.
      split; [by eapply sentiment_agent_failure|]. rewrite Hsame.
      split; [eapply stream_state_grown; [done|..]; grown_side Ht Hs|].
      split; [by left|]. intros [H|H]; [discriminate H|]. apply Hkept; [keys_apart|done|done].
    + eexists _, _, (S (length h)), el, _, _, es.
      split; [by eapply sentiment_agent_success|].
      split; [eapply stream_state_grown; [done|..]; grown_side Ht Hs|].
      split; [by right|]. intros [H|H]; [discriminate H|]. apply Hkept; [keys_apart|done|done].
  - destruct (svc_get_company_name svc symbol) as [e|company_name] eqn:He.
    + eexists _, _, dl, el, cs, ds, es.
      split; [by eapply company_info_agent_failure|]. rewrite Hsame.
      split; [eapply stream_state_grown; [done|..]; grown_side Ht Hs|].
      split; [by left|]. intros [H|H]; [discriminate H|]. apply Hkept; [keys_apart|done|done].
    + eexists _, _, dl, el, _, ds, es.
      split; [by eapply company_info_agent_success|].
      split; [eapply stream_state_grown; [done|..]; destruct company_name; grown_side Ht Hs|].
      split; [by right|]. intros [H|H]; [discriminate H|]. apply Hkept; [keys_apart|done|done].
Qed.

(** A computation on known constructors, run by evaluation. *)
Ltac run_pure :=
  repeat (progress (unfold mbind, M_bind, mret, M_ret; cbn));
  repeat case_match; simplify_eq.

(** On a well-formed state every validator gives its verdict: it does
    not raise and writes nothing. *)
Lemma validator_runs name validator h state st cl vl dl el cs ds es vr :
  agent_validators name = Some validator →
  stream_state h state st cl vl dl el cs ds es vr →
  ∃ is_valid message, validator state h = (inr (is_valid, message), h).
Proof.
  intros Hname [(symbol & Ha) _ _ _ Ht _]. destruct Ha as [Hst _ _ _ _ _ _ _].
  destruct Ht as (Hp & Hm & Hr & He & Hi & Hsu & Hc).
  unfold agent_validators in Hname.
  repeat (case_bool_decide; [injection Hname as <-|]); [| | | | |discriminate Hname].
  - unfold _validate_price_data.
    rewrite (bind_ok _ _ _ _ _ (dict_get_run _ _ _ "price_data" Hst)).
    destruct (st !! "price_data") as [v|] eqn:E; [destruct (Hp v eq_refl) as (p & ->)|];
      run_pure; by eexists _, _.
  - unfold _validate_financial_metrics.
    rewrite (bind_ok _ _ _ _ _ (dict_get_run _ _ _ "financial_metrics" Hst)).
    destruct (st !! "financial_metrics") as [v|] eqn:E;
      [destruct (Hm v eq_refl) as (m & ->)|]; run_pure; by eexists _, _.
  - unfold _validate_analyst_data.
    rewrite (bind_ok _ _ _ _ _ (dict_lookup_run _ _ _ "analyst_ratings" Hst)).
    destruct (st !! "analyst_ratings") as [v|] eqn:E;
      [destruct (Hr v eq_refl) as (l & ->)|]; run_pure; by eexists _, _.
  - unfold _validate_sentiment_data.
    rewrite (bind_ok _ _ _ _ _ (dict_lookup_run _ _ _ "sentiment_items" Hst)).
    rewrite (bind_ok _ _ _ _ _ (dict_get_run _ _ _ "sentiment_summary" Hst)).
    destruct (st !! "sentiment_items") as [v|] eqn:E;
      [destruct (Hi v eq_refl) as (l & ->)|];
      (destruct (st !! "sentiment_summary") as [v'|] eqn:E';
       [destruct (Hsu v' eq_refl) as (s & ->)|]);
      run_pure; by eexists _, _.
  - unfold _validate_company_data.
    rewrite (bind_ok _ _ _ _ _ (dict_get_run _ _ _ "company_name" Hst)).
    destruct (st !! "company_name") as [v|] eqn:E;
      [destruct (Hc v eq_refl) as [->|(s & ->)]|]; run_pure; by eexists _, _.
Qed.

Lemma get_dict_run h d m k l x :
  h !! d = Some (ODict m) → m !! k = Some (VRef l) → h !! l = Some (ODict x) →
  get_dict d k h = (inr l, h).
Proof.
  intros Hd Hk Hl. unfold get_dict.
  rewrite (bind_ok _ _ _ _ _ (dict_lookup_run _ _ _ k Hd)), Hk.
  by rewrite (bind_ok _ _ _ _ _ (load_dict_run _ _ _ Hl)).
Qed.

(** Validation records its verdict in the shared dict and, when the
    verdict is negative, its message at the end of the state's own
    error list; the state dict itself is left as it was. *)
Lemma validate_keeps_stream_state name validator h state st cl vl dl el cs ds es vr :
  agent_validators name = Some validator →
  stream_state h state st cl vl dl el cs ds es vr →
  ∃ is_valid message h',
    validator state h = (inr (is_valid, message), h)
    ∧ validate_agent_result name state h = (inr state, h')
    ∧ stream_state h' state st cl vl dl el cs ds
        (if is_valid then es else es ++ [name +:+ ": " +:+ message])
        (<[name := VBool is_valid]> vr)
    ∧ h' = <[el := OList (if is_valid then es else es ++ [name +:+ ": " +:+ message])]>
             (<[vl := ODict (<[name := VBool is_valid]> vr)]> h).
Proof.
  intros Hname Hss.
  destruct (validator_runs _ _ _ _ _ _ _ _ _ _ _ _ _ Hname Hss) as (b & msg & Hrun).
  pose proof Hss as [(symbol & Ha) Hv Hvd (Hsv & Hcd & Hce & Hde) Ht Hs].
  pose proof Ha as [Hst Hsy Hcl Hcs Hdsk Hdsl Hesk Hesl].
  assert (Hne1 : vl ≠ cl) by (intros ->; congruence).
  assert (Hne2 : vl ≠ dl) by (intros ->; congruence).
  assert (Hne3 : vl ≠ el) by (intros ->; congruence).
  assert (Hne4 : state ≠ cl) by (intros ->; congruence).
  assert (Hne5 : state ≠ dl) by (intros ->; congruence).
  assert (Hne6 : state ≠ el) by (intros ->; congruence).
  set (h1 := <[vl := ODict (<[name := VBool b]> vr)]> h).
  assert (Hh1 : ∀ l, l ≠ vl → h1 !! l = h !! l)
    by (intros l Hl; unfold h1; by rewrite list_lookup_insert_ne).
  assert (Hvl1 : h1 !! vl = Some (ODict (<[name := VBool b]> vr))).
  { unfold h1. apply list_lookup_insert_eq. by eapply lookup_lt_Some. }
  set (es' := if b then es else es ++ [name +:+ ": " +:+ msg]).
  set (h2 := <[el := OList es']> h1).
  assert (Hh2 : ∀ l, l ≠ el → h2 !! l = h1 !! l)
    by (intros l Hl; unfold h2; by rewrite list_lookup_insert_ne).
  assert (Hel2 : h2 !! el = Some (OList es')).
  { unfold h2. apply list_lookup_insert_eq. unfold h1. rewrite length_insert.
    by eapply lookup_lt_Some. }
  exists b, msg, h2. split; [done|]. split.
  - unfold validate_agent_result. rewrite Hname.
    rewrite (bind_ok _ _ _ _ _ Hrun). cbv beta iota.
    rewrite (bind_ok _ _ _ _ _ (get_dict_run _ _ _ _ _ _ Hst Hv Hvd)).
    rewrite (bind_ok _ _ _ _ _ (setitem_run _ _ _ _ _ Hvd)). fold h1.
    erewrite bind_ok; [|apply setitem_run; by rewrite Hh1].
    rewrite insert_id by done. rewrite list_insert_id by by rewrite Hh1.
    unfold h2, es'. destruct b.
    + rewrite (bind_ok _ _ h1 () h1) by done.
      by rewrite list_insert_id by (by rewrite Hh1).
    + erewrite bind_ok; [reflexivity|].
      erewrite bind_ok; [|eapply get_list_run; [by rewrite Hh1|done|by rewrite Hh1]].
      erewrite bind_ok; [|apply append_run; by rewrite Hh1].
      erewrite setitem_run;
        [|rewrite list_lookup_insert_ne by done; by rewrite Hh1].
      rewrite insert_id by done.
      rewrite list_insert_id; [done|].
      rewrite list_lookup_insert_ne by done. by rewrite Hh1.
  - split; [|reflexivity]. split.
    + exists symbol. split; try done; rewrite ?Hh2, ?Hh1 by done; done.
    + done.
    + by rewrite Hh2, Hvl1.
    + done.
    + done.
    + done.
Qed.

Lemma gbind_run {A B} (m : M A) (f : A → G B) h a h' :
  m h = (inr a, h') → (run m ≫= f) h = f a h'.
Proof.
  intros Hm. unfold mbind, G_bind, run. rewrite Hm.
  by destruct (f a h') as [[evs r] h''].
Qed.

Lemma gbind_yield {B} (e : event) (f : unit → G B) h evs r h' :
  f () h = ((evs, r), h') → (yield e ≫= f) h = ((e :: evs, r), h').
Proof. intros Hf. unfold mbind, G_bind, yield. by rewrite Hf. Qed.

Lemma gbind_ok {A B} (m : G A) (f : A → G B) h evs a h1 evs' r h2 :
  m h = ((evs, inr a), h1) → f a h1 = ((evs', r), h2) →
  (m ≫= f) h = ((evs ++ evs', r), h2).
Proof. intros Hm Hf. unfold mbind, G_bind. by rewrite Hm, Hf. Qed.

Lemma calculate_progress_run h state st cl vl dl el cs ds es vr :
  stream_state h state st cl vl dl el cs ds es vr →
  calculate_progress state h
  = (inr (progress_of (Z.of_nat (length cs)) (Z.of_nat (size vr))), h).
Proof.
  intros [(symbol & Ha) Hv Hvd _ _ _]. destruct Ha as [Hst _ Hcl Hcs _ _ _ _].
  unfold calculate_progress, len_of_key.
  erewrite bind_ok;
    [|rewrite (bind_ok _ _ _ _ _ (dict_lookup_run _ _ _ "agents_completed" Hst)), Hcl;
      by apply py_len_list].
  erewrite bind_ok;
    [|rewrite (bind_ok _ _ _ _ _ (dict_lookup_run _ _ _ "validation_results" Hst)), Hv;
      by apply py_len_dict].
  reflexivity.
Qed.

(** The partial data the driver attaches to an agent's completion
    event: the price payload for the price agent, null for the others. *)
Lemma partial_data_run name h state st cl vl dl el cs ds es vr :
  name ∈ ["price"; "fundamentals"; "analyst"; "sentiment"; "company"] →
  stream_state h state st cl vl dl el cs ds es vr →
  ∃ partial_data,
    (a ← dict_get state (name +:+ "_data"); b ← dict_get state name; or_value a b) h
    = (inr partial_data, h).
Proof.
  intros Hname [(symbol & Ha) _ _ _ Ht Hs]. destruct Ha as [Hst _ _ _ _ _ _ _].
  destruct Ht as (Hp & _).
  assert (Hnone : ∀ k k', k ∈ probed_keys → k' ∈ probed_keys →
            ∃ partial_data,
              (a ← dict_get state k; b ← dict_get state k'; or_value a b) h
              = (inr partial_data, h)).
  { intros k k' Hk Hk'.
    rewrite (bind_ok _ _ _ _ _ (dict_get_run _ _ _ k Hst)).
    rewrite (bind_ok _ _ _ _ _ (dict_get_run _ _ _ k' Hst)).
    rewrite !(no_stray_keys_lookup st) by done. by eexists. }
  repeat (apply elem_of_cons in Hname as [->|Hname]);
    [|apply Hnone; unfold probed_keys;
      repeat first [apply list_elem_of_here | apply list_elem_of_further]..
     |by apply elem_of_nil in Hname].
  change ("price" +:+ "_data") with "price_data".
  rewrite (bind_ok _ _ _ _ _ (dict_get_run _ _ _ "price_data" Hst)).
  rewrite (bind_ok _ _ _ _ _ (dict_get_run _ _ _ "price" Hst)).
  destruct (st !! "price_data") as [v|] eqn:E; [destruct (Hp v eq_refl) as (p & ->)|];
    unfold or_value; run_pure; by eexists.
Qed.

Lemma agents_have_validators svc name agent :
  (name, agent) ∈ agents svc →
  name ∈ ["price"; "fundamentals"; "analyst"; "sentiment"; "company"]
  ∧ ∃ validator, agent_validators name = Some validator.
Proof.
  unfold agents. intros Hin.
  repeat (apply elem_of_cons in Hin as [Hin|Hin]; [injection Hin as -> ->|]);
    [..|by apply elem_of_nil in Hin];
    (split; [repeat first [apply list_elem_of_here | apply list_elem_of_further]
            |by eexists]).
Qed.

(** One turn of the loop, once its agent has run: validation, the
    progress figure and the completion event; the state of the next
    turn is the one the agent returned, with the verdict recorded. *)
Lemma agent_turn_from svc i name agent h state h1 st1 cl vl dl1 el1 cs1 ds1 es1 vr :
  (name, agent) ∈ agents svc →
  agent state h = (inr (length h), h1) →
  stream_state h1 (length h) st1 cl vl dl1 el1 cs1 ds1 es1 vr →
  ∃ h' es' is_valid partial_data,
    agent_turn i (name, agent) state h
    = (([Processing (processing_progress i) name;
         AgentComplete
           (progress_of (Z.of_nat (length cs1))
              (Z.of_nat (size (<[name := VBool is_valid]> vr))))
           name (if is_valid then "success" else "warning") partial_data],
        inr (length h)), h')
    ∧ stream_state h' (length h) st1 cl vl dl1 el1 cs1 ds1 es'
        (<[name := VBool is_valid]> vr).
Proof.
  intros Hin Hrun Hss1.
  destruct (agents_have_validators _ _ _ Hin) as (Hname & validator & Hval).
  destruct (validate_keeps_stream_state _ _ _ _ _ _ _ _ _ _ _ _ _ Hval Hss1)
    as (b & msg & h2 & _ & Hvrun & Hss2 & _).
  destruct (partial_data_run _ _ _ _ _ _ _ _ _ _ _ _ Hname Hss2) as (pd & Hpd).
  eexists h2, _, b, pd.
  split; [|exact Hss2].
  unfold agent_turn.
  apply gbind_yield.
  rewrite (gbind_run _ _ _ _ _ Hrun).
  rewrite (gbind_run _ _ _ _ _ Hvrun).
  rewrite (gbind_run _ _ _ _ _ (calculate_progress_run _ _ _ _ _ _ _ _ _ _ _ Hss2)).
  erewrite gbind_run; [|].
  2:{ destruct Hss2 as [(symbol & Ha) Hv Hvd _ _ _]. destruct Ha as [Hst _ _ _ _ _ _ _].
      unfold validation_of.
      erewrite bind_ok;
        [|rewrite (bind_ok _ _ _ _ _ (dict_lookup_run _ _ _ "validation_results" Hst)), Hv;
          rewrite (bind_ok _ _ _ _ _ (load_dict_run _ _ _ Hvd));
          rewrite lookup_insert_eq; reflexivity].
      reflexivity. }
  rewrite (gbind_run _ _ _ _ _ Hpd).
  by destruct b.
Qed.

(** One turn of the loop: two events, and a well-formed state again. *)
Lemma agent_turn_keeps_stream_state svc i name agent h state st cl vl dl el cs ds es vr :
  (name, agent) ∈ agents svc →
  stream_state h state st cl vl dl el cs ds es vr →
  ∃ h' st' dl' el' cs' ds' es' is_valid partial_data,
    agent_turn i (name, agent) state h
    = (([Processing (processing_progress i) name;
         AgentComplete
           (progress_of (Z.of_nat (length cs'))
              (Z.of_nat (size (<[name := VBool is_valid]> vr))))
           name (if is_valid then "success" else "warning") partial_data],
        inr (length h)), h')
    ∧ stream_state h' (length h) st' cl vl dl' el' cs' ds' es'
        (<[name := VBool is_valid]> vr)
    ∧ (cs' = cs ∨ cs' = completed_with name cs)
    ∧ (name = "fundamentals" ∨ has_metrics st → has_metrics st').
Proof.
  intros Hin Hss.
  destruct (agent_keeps_stream_state _ _ _ _ _ _ _ _ _ _ _ _ _ _ Hin Hss)
    as (h1 & st1 & dl1 & el1 & cs1 & ds1 & es1 & Hrun & Hss1 & Hcs & Hm).
  destruct (agent_turn_from _ i _ _ _ _ _ _ _ _ _ _ _ _ _ _ Hin Hrun Hss1)
    as (h2 & es2 & b & pd & Hturn & Hss2).
  by eexists h2, st1, dl1, el1, cs1, ds1, es2, b, pd.
Qed.

Lemma completed_with_length name cs :
  (length cs ≤ length (completed_with name cs) ≤ S (length cs))%nat.
Proof.
  unfold completed_with. case_bool_decide; [lia|]. rewrite length_app. cbn. lia.
Qed.

(** The loop over the five agents, from a state nobody has completed
    or validated yet: ten events, the well-formed state after the last
    turn, and how many agents had completed at each completion event. *)
Lemma agent_loop_runs svc h state st cl vl dl el ds es :
  stream_state h state st cl vl dl el [] ds es ∅ →
  ∃ h' state' st' dl' el' cs' ds' es' vr' c1 c2 c3 c4 c5 s1 s2 s3 s4 s5 d1 d2 d3 d4 d5,
    agent_loop 0 (agents svc) state h
    = (([Processing 0 "price";
         AgentComplete (progress_of c1 1) "price" s1 d1;
         Processing 16 "fundamentals";
         AgentComplete (progress_of c2 2) "fundamentals" s2 d2;
         Processing 32 "analyst";
         AgentComplete (progress_of c3 3) "analyst" s3 d3;
         Processing 48 "sentiment";
         AgentComplete (progress_of c4 4) "sentiment" s4 d4;
         Processing 64 "company";
         AgentComplete (progress_of c5 5) "company" s5 d5],
        inr state'), h')
    ∧ stream_state h' state' st' cl vl dl' el' cs' ds' es' vr'
    ∧ has_metrics st'
    ∧ 0 ≤ c1 ≤ 1 ∧ c1 ≤ c2 ≤ c1 + 1 ∧ c2 ≤ c3 ≤ c2 + 1 ∧ c3 ≤ c4 ≤ c3 + 1
    ∧ c4 ≤ c5 ≤ c4 + 1
    ∧ Forall (λ s, s = "success" ∨ s = "warning") [s1; s2; s3; s4; s5].
Proof.
  intros Hss0.
  assert (Hstep : ∀ name cs cs', cs' = cs ∨ cs' = completed_with name cs →
            Z.of_nat (length cs) ≤ Z.of_nat (length cs') ≤ Z.of_nat (length cs) + 1).
  { intros name cs cs' [->| ->]; [lia|]. pose proof (completed_with_length name cs). lia. }
  unfold agents. cbn [agent_loop].
  edestruct (agent_turn_keeps_stream_state svc 0 "price") as
    (h1 & st1 & dl1 & el1 & cs1 & ds1 & es1 & b1 & d1 & Hrun1 & Hss1 & Hcs1 & _);
    [unfold agents; apply list_elem_of_here|exact Hss0|].
  edestruct (agent_turn_keeps_stream_state svc 1 "fundamentals") as
    (h2 & st2 & dl2 & el2 & cs2 & ds2 & es2 & b2 & d2 & Hrun2 & Hss2 & Hcs2 & Hm2);
    [unfold agents; do 1 apply list_elem_of_further; apply list_elem_of_here|exact Hss1|].
  edestruct (agent_turn_keeps_stream_state svc 2 "analyst") as
    (h3 & st3 & dl3 & el3 & cs3 & ds3 & es3 & b3 & d3 & Hrun3 & Hss3 & Hcs3 & Hm3);
    [unfold agents; do 2 apply list_elem_of_further; apply list_elem_of_here|exact Hss2|].
  edestruct (agent_turn_keeps_stream_state svc 3 "sentiment") as
    (h4 & st4 & dl4 & el4 & cs4 & ds4 & es4 & b4 & d4 & Hrun4 & Hss4 & Hcs4 & Hm4);
    [unfold agents; do 3 apply list_elem_of_further; apply list_elem_of_here|exact Hss3|].
  edestruct (agent_turn_keeps_stream_state svc 4 "company") as
    (h5 & st5 & dl5 & el5 & cs5 & ds5 & es5 & b5 & d5 & Hrun5 & Hss5 & Hcs5 & Hm5);
    [unfold agents; do 4 apply list_elem_of_further; apply list_elem_of_here|exact Hss4|].
  apply Hstep in Hcs1, Hcs2, Hcs3, Hcs4, Hcs5. cbn [length] in Hcs1.
  assert (Hnone : ∀ (k : string) (m : gmap string value),
            m !! k = None → ∀ k' v, k' ≠ k → <[k' := v]> m !! k = None)
    by (intros; by rewrite lookup_insert_ne).
  rewrite !map_size_insert_None, map_size_empty in Hrun1 by (repeat (apply Hnone; [|done]); apply lookup_empty).
  rewrite !map_size_insert_None, map_size_empty in Hrun2 by (repeat (apply Hnone; [|done]); apply lookup_empty).
  rewrite !map_size_insert_None, map_size_empty in Hrun3 by (repeat (apply Hnone; [|done]); apply lookup_empty).
  rewrite !map_size_insert_None, map_size_empty in Hrun4 by (repeat (apply Hnone; [|done]); apply lookup_empty).
  rewrite !map_size_insert_None, map_size_empty in Hrun5 by (repeat (apply Hnone; [|done]); apply lookup_empty).
  eexists h5, _, st5, dl5, el5, cs5, ds5, es5, _,
    (Z.of_nat (length cs1)), (Z.of_nat (length cs2)), (Z.of_nat (length cs3)),
    (Z.of_nat (length cs4)), (Z.of_nat (length cs5)), _, _, _, _, _, d1, d2, d3, d4, d5.
  split; [|split; [exact Hss5|split; [|repeat split; try lia]]].
  - erewrite gbind_ok; [|exact Hrun1|].
    2:{ erewrite gbind_ok; [|exact Hrun2|].
        2:{ erewrite gbind_ok; [|exact Hrun3|].
            2:{ erewrite gbind_ok; [|exact Hrun4|].
                2:{ erewrite gbind_ok; [|exact Hrun5|reflexivity]. reflexivity. }
                reflexivity. }
            reflexivity. }
        reflexivity. }
    reflexivity.
  - apply Hm5, or_intror, Hm4, or_intror, Hm3, or_intror, Hm2. by left.
  - repeat (apply Forall_cons_2; [by destruct b1, b2, b3, b4, b5; auto|]).
    apply Forall_nil_2.
Qed.

(** ** [root_node] *)

Lemma alloc_run (o : obj) (h : heap) : alloc o h = (inr (length h), h ++ [o]).
Proof. reflexivity. Qed.

(** The fields [root_node] sets, given where its four new objects are. *)
Lemma root_node_run h state m :
  h !! state = Some (ODict m) →
  root_node state h
  = (inr (length h),
     h ++ [ODict (update_all
                    [("price_status", VStr "pending");
                     ("fundamentals_status", VStr "pending");
                     ("analyst_status", VStr "pending");
                     ("sentiment_status", VStr "pending");
                     ("company_status", VStr "pending");
                     ("agents_completed", VRef (length h + 1));
                     ("validation_results", VRef (length h + 2));
                     ("overall_status", VStr "initializing");
                     ("progress_percentage", VInt 0);
                     ("data_sources", VRef (length h + 3));
                     ("processing_errors", VRef (length h + 4));
                     ("partial_data", VBool false)] m);
           OList []; ODict ∅; OList []; OList []]).
Proof.
  intros Hst. unfold root_node.
  rewrite (bind_ok _ _ _ _ _ (dict_copy_run _ _ _ Hst)).
  do 4 rewrite (bind_ok _ _ _ _ _ (alloc_run _ _)).
  rewrite <- !app_assoc. cbn [app].
  erewrite bind_ok; [|apply update_run, lookup_new0].
  rewrite insert_new0. rewrite !length_app. cbn [length].
  unfold mret, M_ret. repeat f_equal; lia.
Qed.

(** ** [format_response] on a well-formed state *)

Lemma truthy_run_typed h (o : option value) (P : value → Prop) :
  (∀ v, o = Some v → P v) →
  (∀ v, P v → ∃ b, truthy v h = (inr b, h)) →
  ∀ dflt, (∃ b, truthy dflt h = (inr b, h)) →
  ∃ b, truthy (default dflt o) h = (inr b, h).
Proof. intros Ho HP dflt Hd. destruct o as [v|]; [apply HP, Ho; reflexivity|exact Hd]. Qed.

Lemma non_empty_run h (o : option value) :
  (∀ v, o = Some v →
     (∃ l, v = VRatings l) ∨ (∃ l, v = VEarnings l) ∨ (∃ l, v = VItems l)) →
  ∃ b, non_empty o h = (inr b, h).
Proof.
  intros Ho. unfold non_empty.
  destruct o as [v|]; [destruct (Ho v eq_refl) as [(l & ->)|[(l & ->)|(l & ->)]]|];
    run_pure; by eexists.
Qed.

Lemma make_StockResponse_run symbol (ocn oar oed osi : option value)
    price currency change change_percent volume m ss sources h :
  (∀ v, ocn = Some v → v = VNone ∨ ∃ s, v = VStr s) →
  (∀ v, oar = Some v → ∃ l, v = VRatings l) →
  (∀ v, oed = Some v → ∃ l, v = VEarnings l) →
  (∀ v, osi = Some v → ∃ l, v = VItems l) →
  make_StockResponse symbol (default (VStr (symbol +:+ " Corporation")) ocn)
    price currency change change_percent volume (VMetrics m)
    (default py_empty_list oar) (default py_empty_list oed) (default py_empty_list osi)
    ss sources h
  = (inr {| r_symbol := symbol; r_company_name := company_field symbol ocn;
            r_price := price; r_currency := currency; r_change := change;
            r_change_percent := change_percent; r_volume := volume;
            r_financial_metrics := m;
            r_analyst_ratings := (if oar is Some (VRatings l) then l else []);
            r_consensus_rating := None;
            r_average_price_target := None;
            r_earnings_data := (if oed is Some (VEarnings l) then l else []);
            r_next_earnings_date := None;
            r_sentiment_items := (if osi is Some (VItems l) then l else []);
            r_sentiment_summary := ss;
            r_data_sources := sources |}, h).
Proof.
  intros Hc Hr He Hi.
  destruct ocn as [v|]; [destruct (Hc v eq_refl) as [->|(s & ->)]|];
    (destruct oar as [v2|]; [destruct (Hr v2 eq_refl) as (l2 & ->)|]);
    (destruct oed as [v3|]; [destruct (He v3 eq_refl) as (l3 & ->)|]);
    (destruct osi as [v4|]; [destruct (Hi v4 eq_refl) as (l4 & ->)|]);
    reflexivity.
Qed.

(** What the formatter needs of a state: a typed payload that holds
    metrics, and a source list that can be read. *)
Lemma format_response_merged symbol h state st m :
  merged h state st →
  st !! "financial_metrics" = Some (VMetrics m) →
  ∃ r,
    format_response symbol state h = (inr r, h)
    ∧ r_symbol r = symbol
    ∧ r_financial_metrics r = m
    ∧ r_company_name r = company_field symbol (st !! "company_name")
    ∧ (r_price r, r_currency r, r_change r, r_change_percent r, r_volume r)
      = price_fields (st !! "price_data")
    ∧ r_analyst_ratings r
      = (if st !! "analyst_ratings" is Some (VRatings l) then l else [])
    ∧ r_earnings_data r
      = (if st !! "earnings_data" is Some (VEarnings l) then l else [])
    ∧ r_sentiment_items r
      = (if st !! "sentiment_items" is Some (VItems l) then l else [])
    ∧ r_sentiment_summary r
      = (if st !! "sentiment_summary" is Some (VSummary s) then s
         else neutral_summary "No sentiment data available")
    ∧ r_consensus_rating r = None
    ∧ r_data_sources r = list_set (list_at h state "data_sources").
Proof.
  intros [Hst [ds Hds] _ Ht] Hm.
  destruct Ht as (Hp & _ & Hr & He & Hi & Hsu & Hc).
  destruct (non_empty_run h (st !! "analyst_ratings")) as (b1 & Hb1);
    [intros v Hv; left; by apply Hr|].
  destruct (non_empty_run h (st !! "sentiment_items")) as (b2 & Hb2);
    [intros v Hv; right; right; by apply Hi|].
  assert (∃ b3, truthy (default VNone (st !! "price_data")) h = (inr b3, h)) as (b3 & Hb3).
  { destruct (st !! "price_data") as [v|]; [destruct (Hp v eq_refl) as (p & ->)|];
      run_pure; by eexists. }
  assert (∃ ss, (has_summary ← truthy (default py_empty_list (st !! "sentiment_summary"));
                 if negb has_summary
                 then mret (neutral_summary "No sentiment data available")
                 else match default py_empty_list (st !! "sentiment_summary") with
                      | VSummary s => mret s
                      | _ => raise ValidationError "sentiment_summary"
                      end) h = (inr ss, h)
               ∧ ss = (if st !! "sentiment_summary" is Some (VSummary s) then s
                       else neutral_summary "No sentiment data available"))
    as (ss & Hss & Hsseq).
  { destruct (st !! "sentiment_summary") as [v|]; [destruct (Hsu v eq_refl) as (s & ->)|];
      run_pure; by eexists. }
  unfold format_response.
  rewrite (bind_ok _ _ _ _ _ (dict_get_run _ _ _ "price_data" Hst)).
  rewrite (bind_ok _ _ _ _ _ (dict_get_run _ _ _ "financial_metrics" Hst)), Hm.
  cbv zeta. cbn [default negb].
  erewrite bind_ok;
    [|rewrite (bind_ok _ _ _ _ _ (dict_lookup_run _ _ _ "analyst_ratings" Hst)); exact Hb1].
  erewrite bind_ok;
    [|rewrite (bind_ok _ _ _ _ _ (dict_lookup_run _ _ _ "sentiment_items" Hst)); exact Hb2].
  rewrite (bind_ok _ _ _ _ _ (dict_get_run _ _ _ "company_name" Hst)).
  rewrite (bind_ok _ _ _ _ _ Hb3).
  rewrite orb_true_r. cbn [orb negb].
  assert (Hrest : ∀ price currency change change_percent volume,
    ∃ r,
      (financial_metrics ← (o ← dict_lookup state "financial_metrics";
                            mret (default py_empty_list o));
       analyst_ratings ← (o ← dict_lookup state "analyst_ratings";
                          mret (default py_empty_list o));
       earnings_data ← (o ← dict_lookup state "earnings_data";
                        mret (default py_empty_list o));
       sentiment_items ← (o ← dict_lookup state "sentiment_items";
                          mret (default py_empty_list o));
       sentiment_summary ← (o ← dict_lookup state "sentiment_summary";
                            mret (default py_empty_list o));
       has_summary ← truthy sentiment_summary;
       sentiment_summary ←
         (if negb has_summary then mret (neutral_summary "No sentiment data available")
          else
            match sentiment_summary with
            | VSummary s => mret s
            | _ => raise ValidationError "sentiment_summary"
            end);
       data_sources ← get_list_items state "data_sources";
       company_name ← (o ← dict_lookup state "company_name";
                       mret (default (VStr (symbol +:+ " Corporation")) o));
       make_StockResponse symbol company_name price currency change change_percent volume
         financial_metrics analyst_ratings earnings_data sentiment_items
         sentiment_summary (list_set data_sources)) h = (inr r, h)
      ∧ r_symbol r = symbol
      ∧ r_financial_metrics r = m
      ∧ r_company_name r = company_field symbol (st !! "company_name")
      ∧ (r_price r, r_currency r, r_change r, r_change_percent r, r_volume r)
        = (price, currency, change, change_percent, volume)
      ∧ r_analyst_ratings r
        = (if st !! "analyst_ratings" is Some (VRatings l) then l else [])
      ∧ r_earnings_data r
        = (if st !! "earnings_data" is Some (VEarnings l) then l else [])
      ∧ r_sentiment_items r
        = (if st !! "sentiment_items" is Some (VItems l) then l else [])
      ∧ r_sentiment_summary r
        = (if st !! "sentiment_summary" is Some (VSummary s) then s
           else neutral_summary "No sentiment data available")
      ∧ r_consensus_rating r = None
      ∧ r_data_sources r = list_set (list_at h state "data_sources")).
  { intros price currency change change_percent volume.
    do 5 (erewrite bind_ok;
          [|rewrite (bind_ok _ _ _ _ _ (dict_lookup_run _ _ _ _ Hst)); reflexivity]).
    rewrite Hm. cbn [default].
    assert (∀ {B} (k : SentimentSummary → M B),
      (has_summary ← truthy (default py_empty_list (st !! "sentiment_summary"));
       sentiment_summary ←
         (if negb has_summary then mret (neutral_summary "No sentiment data available")
          else
            match default py_empty_list (st !! "sentiment_summary") with
            | VSummary s => mret s
            | _ => raise ValidationError "sentiment_summary"
            end);
       k sentiment_summary) h = k ss h) as Hk.
    { intros B k. rewrite Hsseq. clear Hss Hsseq.
      destruct (st !! "sentiment_summary") as [v|]; [destruct (Hsu v eq_refl) as (s & ->)|];
        reflexivity. }
    rewrite Hk.
    rewrite (bind_ok _ _ _ _ _ Hds).
    erewrite bind_ok;
      [|rewrite (bind_ok _ _ _ _ _ (dict_lookup_run _ _ _ _ Hst)); reflexivity].
    unfold id. rewrite make_StockResponse_run by done.
    eexists. split; [reflexivity|]. by rewrite Hsseq, (list_at_run _ _ _ _ Hds). }
  unfold price_fields.
  destruct (st !! "price_data") as [v|] eqn:E; [destruct (Hp v eq_refl) as (p & ->)|];
    cbn [default from_option]; unfold id; [destruct (pd_price p)|];
    cbv beta iota zeta; apply Hrest.
Qed.

Lemma format_response_run symbol h state st cl vl dl el cs ds es vr m :
  stream_state h state st cl vl dl el cs ds es vr →
  st !! "financial_metrics" = Some (VMetrics m) →
  ∃ r,
    format_response symbol state h = (inr r, h)
    ∧ r_symbol r = symbol
    ∧ r_financial_metrics r = m
    ∧ r_company_name r = company_field symbol (st !! "company_name")
    ∧ (r_price r, r_currency r, r_change r, r_change_percent r, r_volume r)
      = price_fields (st !! "price_data")
    ∧ r_analyst_ratings r
      = (if st !! "analyst_ratings" is Some (VRatings l) then l else [])
    ∧ r_earnings_data r
      = (if st !! "earnings_data" is Some (VEarnings l) then l else [])
    ∧ r_sentiment_items r
      = (if st !! "sentiment_items" is Some (VItems l) then l else [])
    ∧ r_sentiment_summary r
      = (if st !! "sentiment_summary" is Some (VSummary s) then s
         else neutral_summary "No sentiment data available")
    ∧ r_consensus_rating r = None
    ∧ r_data_sources r = list_set ds.
Proof.
  intros Hss Hm. pose proof Hss as [(sym & Ha) _ _ _ Ht _].
  destruct Ha as [Hst _ _ _ Hdk Hdl Hek Hel].
  pose proof (get_list_items_run _ _ _ _ _ _ Hst Hdk Hdl) as Hds.
  pose proof (get_list_items_run _ _ _ _ _ _ Hst Hek Hel) as Hes.
  destruct (format_response_merged symbol h state st m) as (r & Hr & Hfields);
    [split; [done|by eexists|by eexists|done]|done|].
  exists r. by rewrite (list_at_run _ _ _ _ Hds) in Hfields.
Qed.

Lemma lookup_new (h t : heap) i : (h ++ t) !! (length h + i)%nat = t !! i.
Proof. rewrite lookup_app_r by lia. f_equal. lia. Qed.

(** What [root_node] leaves is a well-formed state: nothing completed,
    nothing validated, three empty lists that are three objects. *)
Lemma root_node_stream_state h state m :
  h !! state = Some (ODict m) →
  is_Some (m !! "symbol") →
  payload_typed m → no_stray_keys m →
  ∃ h' st,
    root_node state h = (inr (length h), h')
    ∧ stream_state h' (length h) st
        (length h + 1) (length h + 2) (length h + 3) (length h + 4) [] [] [] ∅
    ∧ (∀ l, (l < length h)%nat → h' !! l = h !! l)
    ∧ (∀ k, k ∈ ["symbol"; "financial_metrics"; "price_data"; "company_name"] →
            st !! k = m !! k)
    ∧ Forall (λ k, st !! k = Some (VStr "pending"))
        ["price_status"; "fundamentals_status"; "analyst_status"; "sentiment_status";
         "company_status"]
    ∧ st !! "partial_data" = Some (VBool false).
Proof.
  intros Hst [symbol Hsym] Ht Hs. eexists _, _.
  split; [by apply root_node_run|].
  assert (Hlt : (state < length h)%nat) by by eapply lookup_lt_Some.
  split; [split|split; [|split; [|split]]].
  - exists symbol.
    split; [apply lookup_new0|..];
      rewrite ?(lookup_new h _ 1), ?(lookup_new h _ 3), ?(lookup_new h _ 4);
      try reflexivity; by read_key.
  - by read_key.
  - by rewrite (lookup_new h _ 2).
  - repeat split; lia.
  - payload_keys Ht Hs.
  - payload_keys Ht Hs.
  - intros l Hl. by apply lookup_app_l.
  - intros k Hk. repeat (apply elem_of_cons in Hk as [->|Hk]); [read_key..|].
    by apply elem_of_nil in Hk.
  - repeat (apply Forall_cons_2; [by read_key|]). apply Forall_nil_2.
  - by read_key.
Qed.

(** The whole run of the streaming driver on an accepted symbol. *)
Lemma stream_coordinated_analysis_run svc symbol h :
  validate_stock_symbol (VStr symbol) = inr true →
  ∃ c1 c2 c3 c4 c5 s1 s2 s3 s4 s5 d1 d2 d3 d4 d5 r h',
    stream_coordinated_analysis svc symbol h
    = (([Started 0;
         Processing 0 "price";
         AgentComplete (progress_of c1 1) "price" s1 d1;
         Processing 16 "fundamentals";
         AgentComplete (progress_of c2 2) "fundamentals" s2 d2;
         Processing 32 "analyst";
         AgentComplete (progress_of c3 3) "analyst" s3 d3;
         Processing 48 "sentiment";
         AgentComplete (progress_of c4 4) "sentiment" s4 d4;
         Processing 64 "company";
         AgentComplete (progress_of c5 5) "company" s5 d5;
         Finalizing 95;
         Complete 100 r],
        inr ()), h')
    ∧ 0 ≤ c1 ≤ 1 ∧ c1 ≤ c2 ≤ c1 + 1 ∧ c2 ≤ c3 ≤ c2 + 1 ∧ c3 ≤ c4 ≤ c3 + 1
    ∧ c4 ≤ c5 ≤ c4 + 1
    ∧ Forall (λ s, s = "success" ∨ s = "warning") [s1; s2; s3; s4; s5]
    ∧ r_symbol r = symbol.
Proof.
  intros Hvalid.
  set (req := {["symbol" := VStr symbol]} : gmap string value).
  destruct (root_node_stream_state (h ++ [ODict req]) (length h) req) as
    (h0 & st0 & Hroot & Hss0 & Hframe0 & _).
  { apply lookup_new0. }
  { exists (VStr symbol). apply lookup_singleton_eq. }
  { unfold payload_typed, req. repeat split; intros v;
      rewrite lookup_singleton_ne by discriminate; intros Hv; discriminate Hv. }
  { unfold no_stray_keys, probed_keys, req.
    repeat (apply Forall_cons_2; [by rewrite lookup_singleton_ne|]). apply Forall_nil_2. }
  destruct (agent_loop_runs svc _ _ _ _ _ _ _ _ _ Hss0) as
    (h1 & state1 & st1 & dl1 & el1 & cs1 & ds1 & es1 & vr1
     & c1 & c2 & c3 & c4 & c5 & s1 & s2 & s3 & s4 & s5 & d1 & d2 & d3 & d4 & d5
     & Hloop & Hss1 & (m & Hm) & Hc1 & Hc2 & Hc3 & Hc4 & Hc5 & Hs).
  destruct (format_response_run symbol _ _ _ _ _ _ _ _ _ _ _ _ Hss1 Hm) as
    (r & Hr & Hsym & _).
  exists c1, c2, c3, c4, c5, s1, s2, s3, s4, s5, d1, d2, d3, d4, d5, r, h1.
  split; [|repeat split; try done; try lia].
  unfold stream_coordinated_analysis.
  erewrite gbind_run; [|unfold await; by rewrite Hvalid].
  rewrite (gbind_run _ _ _ _ _ (alloc_run _ _)).
  rewrite (gbind_run _ _ _ _ _ Hroot).
  apply gbind_yield.
  erewrite gbind_ok;
    [|exact Hloop|apply gbind_yield; unfold final_event; by rewrite Hr].
  reflexivity.
Qed.

(** X4: once the symbol has passed validation, the streaming driver
    never raises and never yields an error event, whatever the services
    do: it yields the start event, for each of the five agents in order
    a processing event and a completion event with status success or
    warning, the finalizing event, and a complete event carrying a
    response for the symbol. *)
Theorem stream_always_completes (svc : Services) (symbol : string) (h : heap) :
  validate_stock_symbol (VStr symbol) = inr true →
  ∃ e1 e2 e3 e4 e5 r h',
    stream_coordinated_analysis svc symbol h
    = (([Started 0] ++ e1 ++ e2 ++ e3 ++ e4 ++ e5 ++ [Finalizing 95; Complete 100 r],
        inr ()), h')
    ∧ agent_events 0 "price" e1
    ∧ agent_events 16 "fundamentals" e2
    ∧ agent_events 32 "analyst" e3
    ∧ agent_events 48 "sentiment" e4
    ∧ agent_events 64 "company" e5
    ∧ r_symbol r = symbol.
Proof.
  intros Hvalid.
  destruct (stream_coordinated_analysis_run svc symbol h Hvalid) as
    (c1 & c2 & c3 & c4 & c5 & s1 & s2 & s3 & s4 & s5 & d1 & d2 & d3 & d4 & d5 & r & h'
     & Hrun & _ & _ & _ & _ & _ & Hs & Hsym).
  rewrite !Forall_cons in Hs. destruct Hs as (Hs1 & Hs2 & Hs3 & Hs4 & Hs5 & _).
  eexists [_; _], [_; _], [_; _], [_; _], [_; _], r, h'.
  split; [exact Hrun|].
  unfold agent_events. repeat split; try done; by eexists _, _, _.
Qed.

Lemma stream_always_completes_witness :
  ∃ e1 e2 e3 e4 e5 r h',
    stream_coordinated_analysis (failing_services "boom") "ZZZZZ" []
    = (([Started 0] ++ e1 ++ e2 ++ e3 ++ e4 ++ e5 ++ [Finalizing 95; Complete 100 r],
        inr ()), h')
    ∧ agent_events 0 "price" e1
    ∧ agent_events 16 "fundamentals" e2
    ∧ agent_events 32 "analyst" e3
    ∧ agent_events 48 "sentiment" e4
    ∧ agent_events 64 "company" e5
    ∧ r_symbol r = "ZZZZZ".
Proof. exact (stream_always_completes (failing_services "boom") "ZZZZZ" [] eq_refl). Defined.



(** X6: on a request that holds a symbol, [root_node] returns a new
    dict and leaves the request as it was.  The new dict keeps the
    request's other keys, has the five statuses [pending], the overall
    status [initializing], progress 0, [partial_data] false, and refers
    to four new objects: three empty lists, each an object of its own,
    and an empty validation dict. *)
Theorem root_node_initial_state (h : heap) (state : loc) (m : gmap string value) :
  h !! state = Some (ODict m) →
  is_Some (m !! "symbol") →
  ∃ h' st cl vl dl el,
    root_node state h = (inr (length h), h')
    ∧ h' !! length h = Some (ODict st)
    ∧ (∀ l, (l < length h)%nat → h' !! l = h !! l)
    ∧ (∀ k, k ∉ root_keys → st !! k = m !! k)
    ∧ Forall (λ k, st !! k = Some (VStr "pending"))
        ["price_status"; "fundamentals_status"; "analyst_status"; "sentiment_status";
         "company_status"]
    ∧ st !! "overall_status" = Some (VStr "initializing")
    ∧ st !! "progress_percentage" = Some (VInt 0)
    ∧ st !! "partial_data" = Some (VBool false)
    ∧ st !! "agents_completed" = Some (VRef cl) ∧ h' !! cl = Some (OList [])
    ∧ st !! "validation_results" = Some (VRef vl) ∧ h' !! vl = Some (ODict ∅)
    ∧ st !! "data_sources" = Some (VRef dl) ∧ h' !! dl = Some (OList [])
    ∧ st !! "processing_errors" = Some (VRef el) ∧ h' !! el = Some (OList [])
    ∧ NoDup [cl; vl; dl; el]
    ∧ Forall (λ l, (length h < l)%nat) [cl; vl; dl; el].
Proof.
  intros Hst Hsym.
  eexists _, _, (length h + 1)%nat, (length h + 2)%nat, (length h + 3)%nat,
    (length h + 4)%nat.
  split; [by apply root_node_run|].
  split; [apply lookup_new0|].
  split; [intros l Hl; by apply lookup_app_l|].
  split; [intros k Hk; apply update_all_lookup_other; exact Hk|].
  split; [repeat (apply Forall_cons_2; [by read_key|]); apply Forall_nil_2|].
  rewrite (lookup_new h _ 1), (lookup_new h _ 2), (lookup_new h _ 3), (lookup_new h _ 4).
  repeat (split; [by read_key|]).
  split.
  - repeat (apply NoDup_cons_2;
            [intros Hin; repeat (apply elem_of_cons in Hin as [Hin|Hin]; [lia|]);
             by apply elem_of_nil in Hin|]).
    apply NoDup_nil_2.
  - repeat (apply Forall_cons_2; [lia|]). apply Forall_nil_2.
Qed.

Lemma root_node_initial_state_witness :
  ∃ h' st cl vl dl el,
    root_node 0 (request_heap "AAPL") = (inr 1%nat, h')
    ∧ h' !! 1%nat = Some (ODict st)
    ∧ (∀ l, (l < 1)%nat → h' !! l = request_heap "AAPL" !! l)
    ∧ (∀ k, k ∉ root_keys → st !! k = ({["symbol" := VStr "AAPL"]} : gmap _ _) !! k)
    ∧ Forall (λ k, st !! k = Some (VStr "pending"))
        ["price_status"; "fundamentals_status"; "analyst_status"; "sentiment_status";
         "company_status"]
    ∧ st !! "overall_status" = Some (VStr "initializing")
    ∧ st !! "progress_percentage" = Some (VInt 0)
    ∧ st !! "partial_data" = Some (VBool false)
    ∧ st !! "agents_completed" = Some (VRef cl) ∧ h' !! cl = Some (OList [])
    ∧ st !! "validation_results" = Some (VRef vl) ∧ h' !! vl = Some (ODict ∅)
    ∧ st !! "data_sources" = Some (VRef dl) ∧ h' !! dl = Some (OList [])
    ∧ st !! "processing_errors" = Some (VRef el) ∧ h' !! el = Some (OList [])
    ∧ NoDup [cl; vl; dl; el]
    ∧ Forall (λ l, (1 < l)%nat) [cl; vl; dl; el].
Proof.
  exact (root_node_initial_state (request_heap "AAPL") 0 {["symbol" := VStr "AAPL"]}
           eq_refl (ex_intro _ (VStr "AAPL") eq_refl)).
Defined.

(** X7: when its service answers, a task agent returns a new state with
    its payload set and its status [success]; it adds its name to the
    shared list of completed agents unless it is there already, and,
    but for the company agent, the returned state refers to a copy of
    the source list extended by the agent's sources (the price source's
    own name or "unknown"; one entry per non-empty analyst list; both
    news sources for the sentiment agent, whatever was found).  The
    error list of the state is the one it was given. *)
Theorem agents_record_success (svc : Services) (h : heap) (state : loc)
    (st : gmap string value) (symbol : value) (cl dl el : loc) (cs ds es : list string) :
  analysis_state h state st symbol cl dl el cs ds es →
  (∀ price_data, svc_fetch_current_price svc symbol = inr price_data →
     returns (price_agent svc state h) h (λ h' st',
       success_recorded h' st' cl cs ds "price" "price_status"
         [default "unknown" (pd_source price_data)]
       ∧ st' !! "price_data" = Some (VPrice price_data)
       ∧ st' !! "processing_errors" = Some (VRef el)))
  ∧ (∀ m, svc_fetch_financial_metrics svc symbol = inr m →
       returns (fundamentals_agent svc state h) h (λ h' st',
         success_recorded h' st' cl cs ds "fundamentals" "fundamentals_status"
           ["yfinance_fundamentals"]
         ∧ st' !! "financial_metrics" = Some (VMetrics m)
         ∧ st' !! "processing_errors" = Some (VRef el)))
  ∧ (∀ ratings earnings,
       svc_fetch_analyst_ratings svc symbol = inr ratings →
       svc_fetch_earnings_data svc symbol = inr earnings →
       returns (analyst_agent svc state h) h (λ h' st',
         success_recorded h' st' cl cs ds "analyst" "analyst_status"
           ((if ratings is [] then [] else ["finnhub_analysts"])
            ++ (if earnings is [] then [] else ["yfinance_earnings"]))
         ∧ st' !! "analyst_ratings" = Some (VRatings ratings)
         ∧ st' !! "earnings_data" = Some (VEarnings earnings)
         ∧ st' !! "processing_errors" = Some (VRef el)))
  ∧ (∀ items summary,
       svc_fetch_comprehensive_sentiment svc symbol = inr (items, summary) →
       returns (sentiment_agent svc state h) h (λ h' st',
         success_recorded h' st' cl cs ds "sentiment" "sentiment_status"
           ["newsapi"; "rss_feeds"]
         ∧ st' !! "sentiment_items" = Some (VItems items)
         ∧ st' !! "sentiment_summary" = Some (VSummary summary)
         ∧ st' !! "processing_errors" = Some (VRef el)))
  ∧ (∀ name, svc_get_company_name svc symbol = inr name →
       returns (company_info_agent svc state h) h (λ h' st',
         st' !! "company_status" = Some (VStr "success")
         ∧ st' !! "company_name" = Some (of_option_str name)
         ∧ st' !! "agents_completed" = Some (VRef cl)
         ∧ h' !! cl = Some (OList (completed_with "company" cs))
         ∧ st' !! "data_sources" = Some (VRef dl)
         ∧ st' !! "processing_errors" = Some (VRef el))).
Proof.
  intros Hstate. pose proof Hstate as [Hst Hsy Hcl Hcs Hdk Hdl Hek Hel].
  assert (Hlt : (cl < length h)%nat) by by eapply lookup_lt_Some.
  assert (Hcl' : ∀ o t, (<[cl := o]> h ++ t) !! cl = Some o).
  { intros o t. rewrite lookup_app_l by (by rewrite length_insert).
    by apply list_lookup_insert_eq. }
  unfold returns, success_recorded.
  split; [|split; [|split; [|split]]].
  - intros p Hp. eexists _, _.
    split; [by eapply price_agent_success|]. split; [by rewrite insert_new0_lookup|].
    repeat split; try (eexists; split; [|apply insert_new1_lookup]);
      first [apply Hcl' | by read_key].
  - intros m Hm. eexists _, _.
    split; [by eapply fundamentals_agent_success|]. split; [by rewrite insert_new0_lookup|].
    repeat split; try (eexists; split; [|apply insert_new1_lookup]);
      first [apply Hcl' | by read_key].
  - intros ratings earnings Hr He. eexists _, _.
    split; [by eapply analyst_agent_success|]. split; [by rewrite insert_new0_lookup|].
    repeat split; try (eexists; split; [|rewrite app_assoc; apply insert_new1_lookup]);
      first [apply Hcl' | by read_key].
  - intros items summary Hs. eexists _, _.
    split; [by eapply sentiment_agent_success|]. split; [by rewrite insert_new0_lookup|].
    repeat split; try (eexists; split; [|apply insert_new1_lookup]);
      first [apply Hcl' | by read_key].
  - intros name Hn. eexists _, _.
    split; [by eapply company_info_agent_success|]. split; [by rewrite insert_new0_lookup|].
    repeat split; first [apply Hcl' | by read_key].
Qed.

Lemma agents_record_success_witness :
  returns (price_agent sample_services 1 (root_heap "AAPL")) (root_heap "AAPL")
    (λ h' st',
       success_recorded h' st' 2 [] [] "price" "price_status" ["mock"]
       ∧ st' !! "price_data" = Some (VPrice sample_price)
       ∧ st' !! "processing_errors" = Some (VRef 5)).
Proof.
  refine (proj1 (agents_record_success sample_services (root_heap "AAPL") 1 _
                   (VStr "AAPL") 2 4 5 [] [] [] _) sample_price eq_refl).
  split; reflexivity.
Defined.

Lemma root_heap_stream_state symbol :
  ∃ st, stream_state (root_heap symbol) 1 st 2 3 4 5 [] [] [] ∅.
Proof.
  destruct (root_node_stream_state (request_heap symbol) 0 {["symbol" := VStr symbol]})
    as (h' & st & Hrun & Hss & _).
  - reflexivity.
  - by eexists.
  - unfold payload_typed. repeat split; intros v;
      rewrite lookup_singleton_ne by discriminate; intros Hv; discriminate Hv.
  - unfold no_stray_keys, probed_keys.
    repeat (apply Forall_cons_2; [by rewrite lookup_singleton_ne|]). apply Forall_nil_2.
  - exists st.
    assert (root_heap symbol = h') as ->; [|exact Hss].
    change (root_heap symbol) with ((root_node 0 (request_heap symbol)).2).
    by rewrite Hrun.
Qed.

(** X8: for an agent it has no validator for, [validate_agent_result]
    returns the state untouched.  Otherwise, on a well-formed state, it
    returns the same state object, writes the validator's verdict under
    the agent's name into the validation dict the state refers to (the
    dict itself, not a copy), and when the verdict is negative appends
    "<agent>: <message>" to the error list the state refers to; it
    raises nothing and changes no other object. *)
Theorem validate_agent_result_records (name : string) (h : heap) (state : loc)
    (st : gmap string value) (cl vl dl el : loc) (cs ds es : list string)
    (vr : gmap string value) :
  stream_state h state st cl vl dl el cs ds es vr →
  (agent_validators name = None → validate_agent_result name state h = (inr state, h))
  ∧ (∀ validator, agent_validators name = Some validator →
       ∃ is_valid message h',
         validator state h = (inr (is_valid, message), h)
         ∧ validate_agent_result name state h = (inr state, h')
         ∧ h' !! state = Some (ODict st)
         ∧ h' !! vl = Some (ODict (<[name := VBool is_valid]> vr))
         ∧ h' !! el
           = Some (OList (if is_valid then es else es ++ [name +:+ ": " +:+ message]))
         ∧ (∀ l, l ≠ vl → l ≠ el → h' !! l = h !! l)).
Proof.
  intros Hss. split.
  - intros Hnone. unfold validate_agent_result. by rewrite Hnone.
  - intros validator Hval.
    destruct (validate_keeps_stream_state _ _ _ _ _ _ _ _ _ _ _ _ _ Hval Hss)
      as (b & msg & h' & Hrun & Hvrun & Hss' & Hh').
    exists b, msg, h'. split; [done|]. split; [done|].
    destruct Hss' as [(symbol & Ha) _ Hvd _ _ _]. destruct Ha as [Hst _ _ _ _ _ _ Hel].
    repeat split; try done.
    intros l Hl1 Hl2. rewrite Hh'. by rewrite !list_lookup_insert_ne.
Qed.

Lemma validate_agent_result_records_witness :
  ∃ st is_valid message h',
    _validate_price_data 1 (root_heap "AAPL") = (inr (is_valid, message), root_heap "AAPL")
    ∧ validate_agent_result "price" 1 (root_heap "AAPL") = (inr 1%nat, h')
    ∧ h' !! 1%nat = Some (ODict st)
    ∧ h' !! 3%nat = Some (ODict (<["price" := VBool is_valid]> ∅))
    ∧ h' !! 5%nat
      = Some (OList (if is_valid then [] else [] ++ ["price" +:+ ": " +:+ message]))
    ∧ (∀ l, l ≠ 3%nat → l ≠ 5%nat → h' !! l = root_heap "AAPL" !! l).
Proof.
  destruct (root_heap_stream_state "AAPL") as (st & Hss). exists st.
  exact (proj2 (validate_agent_result_records "price" _ _ _ _ _ _ _ _ _ _ _ Hss)
           _validate_price_data eq_refl).
Defined.



(** X10: on a well-formed state that holds financial metrics the
    formatter returns a response and writes nothing.  The response
    carries the symbol it was given and the state's metrics; the price
    fields of [price_data] when that holds a price, and null with
    currency USD otherwise; the state's lists, empty when missing; the
    state's sentiment summary, or a neutral one when missing; the
    distinct data sources; as company name the state's, the synthetic
    "<symbol> Corporation" when the key is missing, and null when the
    key holds null; and no consensus rating. *)
Theorem format_response_fields (symbol : string) (h : heap) (state : loc)
    (st : gmap string value) (cl vl dl el : loc) (cs ds es : list string)
    (vr : gmap string value) (m : FinancialMetrics) :
  stream_state h state st cl vl dl el cs ds es vr →
  st !! "financial_metrics" = Some (VMetrics m) →
  ∃ r,
    format_response symbol state h = (inr r, h)
    ∧ r_symbol r = symbol
    ∧ r_financial_metrics r = m
    ∧ r_company_name r = company_field symbol (st !! "company_name")
    ∧ (r_price r, r_currency r, r_change r, r_change_percent r, r_volume r)
      = price_fields (st !! "price_data")
    ∧ r_analyst_ratings r
      = (if st !! "analyst_ratings" is Some (VRatings l) then l else [])
    ∧ r_earnings_data r
      = (if st !! "earnings_data" is Some (VEarnings l) then l else [])
    ∧ r_sentiment_items r
      = (if st !! "sentiment_items" is Some (VItems l) then l else [])
    ∧ r_sentiment_summary r
      = (if st !! "sentiment_summary" is Some (VSummary s) then s
         else neutral_summary "No sentiment data available")
    ∧ r_consensus_rating r = None
    ∧ NoDup (r_data_sources r)
    ∧ ∀ x, x ∈ r_data_sources r ↔ x ∈ ds.
Proof.
  intros Hss Hm.
  destruct (format_response_run symbol _ _ _ _ _ _ _ _ _ _ _ _ Hss Hm)
    as (r & Hr & H1 & H2 & H3 & H4 & H5 & H6 & H7 & H8 & H9 & H10).
  exists r. repeat (split; [assumption|]). rewrite H10. split.
  - apply list_set_NoDup.
  - intros x. apply list_set_elem.
Qed.

Lemma format_response_fields_witness :
  ∃ h' r,
    fundamentals_agent (failing_services "boom") 1 (root_heap "ZZZZZ") = (inr 6%nat, h')
    ∧ format_response "ZZZZZ" 6 h' = (inr r, h')
    ∧ r_symbol r = "ZZZZZ"
    ∧ r_consensus_rating r = None
    ∧ NoDup (r_data_sources r).
Proof.
  destruct (root_heap_stream_state "ZZZZZ") as (st & Hss).
  destruct (agent_keeps_stream_state (failing_services "boom") "fundamentals"
              (fundamentals_agent (failing_services "boom")) _ _ _ _ _ _ _ _ _ _ _
              ltac:(unfold agents; apply list_elem_of_further, list_elem_of_here) Hss)
    as (h' & st' & dl' & el' & cs' & ds' & es' & Hrun & Hss' & _ & Hm).
  destruct (Hm (or_introl eq_refl)) as (m & Hm').
  destruct (format_response_fields "ZZZZZ" _ _ _ _ _ _ _ _ _ _ _ m Hss' Hm')
    as (r & Hr & Hsym & _ & _ & _ & _ & _ & _ & _ & Hcons & Hnd & _).
  by exists h', r.
Defined.

(** The five tests, run on a well-formed state. *)
Lemma format_response_tests h state st cl vl dl el cs ds es vr :
  stream_state h state st cl vl dl el cs ds es vr →
  truthy (default VNone (st !! "price_data")) h = (inr (has_price_data st), h)
  ∧ negb (if default VNone (st !! "financial_metrics") is VNone then true else false)
    = has_fundamentals st
  ∧ non_empty (st !! "analyst_ratings") h = (inr (has_analyst_ratings st), h)
  ∧ non_empty (st !! "sentiment_items") h = (inr (has_sentiment_items st), h)
  ∧ negb (if default VNone (st !! "company_name") is VNone then true else false)
    = has_company_name st.
Proof.
  intros [_ _ _ _ Ht _]. destruct Ht as (Hp & Hm & Hr & _ & Hi & _ & Hc).
  unfold has_price_data, has_fundamentals, has_analyst_ratings, has_sentiment_items,
    has_company_name, non_empty.
  repeat split.
  - destruct (st !! "price_data") as [v|]; [destruct (Hp v eq_refl) as (p & ->)|];
      [|reflexivity].
    unfold truthy, py_len, mbind, M_bind, mret, M_ret. f_equal. f_equal.
    case_bool_decide; [apply Z.ltb_lt|apply Z.ltb_ge]; lia.
  - destruct (st !! "financial_metrics") as [v|]; [destruct (Hm v eq_refl) as (m & ->)|];
      reflexivity.
  - destruct (st !! "analyst_ratings") as [v|]; [destruct (Hr v eq_refl) as ([|x l] & ->)|];
      reflexivity.
  - destruct (st !! "sentiment_items") as [v|]; [destruct (Hi v eq_refl) as ([|x l] & ->)|];
      reflexivity.
  - destruct (st !! "company_name") as [v|]; [destruct (Hc v eq_refl) as [->|(s & ->)]|];
      reflexivity.
Qed.

(** The three outcomes of the formatter on a well-formed state. *)
Lemma format_response_three_outcomes (symbol : string) (h : heap) (state : loc)
    (st : gmap string value) (cl vl dl el : loc) (cs ds es : list string)
    (vr : gmap string value) :
  stream_state h state st cl vl dl el cs ds es vr →
  (any_data st = false ↔
   format_response symbol state h
   = (inl (Exn StockDataError "No data available - all agents failed"), h))
  ∧ (has_fundamentals st = true ↔ ∃ r, format_response symbol state h = (inr r, h))
  ∧ (any_data st = true → has_fundamentals st = false →
     ∃ msg, format_response symbol state h = (inl (Exn ValidationError msg), h)).
Proof.
  intros Hss.
  destruct (format_response_tests _ _ _ _ _ _ _ _ _ _ _ Hss) as (Hb1 & Hb2 & Hb3 & Hb4 & Hb5).
  pose proof Hss as [(sym & Ha) _ _ _ Ht _]. destruct Ha as [Hst _ _ _ Hdk Hdl _ _].
  destruct Ht as (Hp & Hm & Hr & He & Hi & Hsu & Hc).
  assert (Hcheck : format_response symbol state h
    = if negb (any_data st)
      then (inl (Exn StockDataError "No data available - all agents failed"), h)
      else
        (let '(price, currency, change, change_percent, volume) :=
           price_fields (st !! "price_data") in
         financial_metrics ← (o ← dict_lookup state "financial_metrics";
                              mret (default py_empty_list o));
         analyst_ratings ← (o ← dict_lookup state "analyst_ratings";
                            mret (default py_empty_list o));
         earnings_data ← (o ← dict_lookup state "earnings_data";
                          mret (default py_empty_list o));
         sentiment_items ← (o ← dict_lookup state "sentiment_items";
                            mret (default py_empty_list o));
         sentiment_summary ← (o ← dict_lookup state "sentiment_summary";
                              mret (default py_empty_list o));
         has_summary ← truthy sentiment_summary;
         sentiment_summary ←
           (if negb has_summary then mret (neutral_summary "No sentiment data available")
            else
              match sentiment_summary with
              | VSummary s => mret s
              | _ => raise ValidationError "sentiment_summary"
              end);
         data_sources ← get_list_items state "data_sources";
         company_name ← (o ← dict_lookup state "company_name";
                         mret (default (VStr (symbol +:+ " Corporation")) o));
         make_StockResponse symbol company_name price currency change change_percent
           volume financial_metrics analyst_ratings earnings_data sentiment_items
           sentiment_summary (list_set data_sources)) h).
  { unfold format_response.
    rewrite (bind_ok _ _ _ _ _ (dict_get_run _ _ _ "price_data" Hst)).
    rewrite (bind_ok _ _ _ _ _ (dict_get_run _ _ _ "financial_metrics" Hst)).
    cbv zeta.
    erewrite bind_ok;
      [|rewrite (bind_ok _ _ _ _ _ (dict_lookup_run _ _ _ "analyst_ratings" Hst)); exact Hb3].
    erewrite bind_ok;
      [|rewrite (bind_ok _ _ _ _ _ (dict_lookup_run _ _ _ "sentiment_items" Hst)); exact Hb4].
    rewrite (bind_ok _ _ _ _ _ (dict_get_run _ _ _ "company_name" Hst)).
    rewrite (bind_ok _ _ _ _ _ Hb1). rewrite Hb2, Hb5. fold (any_data st).
    destruct (negb (any_data st)); [reflexivity|].
    unfold price_fields.
    destruct (st !! "price_data") as [v|]; [destruct (Hp v eq_refl) as (p & ->)|];
      reflexivity. }
  assert (Hnometrics : has_fundamentals st = false → any_data st = true →
            ∃ msg, format_response symbol state h = (inl (Exn ValidationError msg), h)).
  { intros Hf Hany. rewrite Hcheck, Hany. cbn [negb].
    destruct (price_fields _) as [[[[price currency] change] change_percent] volume].
    do 5 (erewrite bind_ok;
          [|rewrite (bind_ok _ _ _ _ _ (dict_lookup_run _ _ _ _ Hst)); reflexivity]).
    unfold has_fundamentals in Hf.
    destruct (st !! "financial_metrics") as [v|] eqn:E;
      [destruct (Hm v eq_refl) as (m & ->); discriminate Hf|].
    destruct (st !! "sentiment_summary") as [v|]; [destruct (Hsu v eq_refl) as (s & ->)|];
      (erewrite bind_ok; [|reflexivity]); cbn [negb];
      (erewrite bind_ok; [|reflexivity]);
      rewrite (bind_ok _ _ _ _ _ (get_list_items_run _ _ _ _ _ _ Hst Hdk Hdl));
      (erewrite bind_ok;
       [|rewrite (bind_ok _ _ _ _ _ (dict_lookup_run _ _ _ _ Hst)); reflexivity]);
      (destruct (st !! "company_name") as [v|];
       [destruct (Hc v eq_refl) as [->|(s' & ->)]|]); by eexists. }
  assert (Hcases : any_data st = false ∨ has_fundamentals st = true
                   ∨ (any_data st = true ∧ has_fundamentals st = false)).
  { destruct (any_data st), (has_fundamentals st); auto. }
  assert (Hsub : has_fundamentals st = true → any_data st = true).
  { unfold any_data. intros ->. by rewrite orb_true_r. }
  assert (Hmetrics : has_fundamentals st = true →
            ∃ r, format_response symbol state h = (inr r, h)).
  { unfold has_fundamentals. intros Hf.
    destruct (st !! "financial_metrics") as [v|] eqn:E; [|discriminate Hf].
    destruct (Hm v eq_refl) as (m & ->).
    destruct (format_response_run symbol _ _ _ _ _ _ _ _ _ _ _ _ Hss E) as (r & Hrun & _).
    by exists r. }
  split; [|split].
  - split; [intros Hany; by rewrite Hcheck, Hany|].
    intros Hraise. destruct Hcases as [H|[H|[H1 H2]]]; [done|..].
    + destruct (Hmetrics H) as (r & Hrun). rewrite Hrun in Hraise. discriminate Hraise.
    + destruct (Hnometrics H2 H1) as (msg & Hmsg). rewrite Hmsg in Hraise.
      discriminate Hraise.
  - split; [exact Hmetrics|]. intros (r & Hrun).
    destruct Hcases as [H|[H|[H1 H2]]]; [|done|].
    + rewrite Hcheck, H in Hrun. discriminate Hrun.
    + destruct (Hnometrics H2 H1) as (msg & Hmsg). rewrite Hmsg in Hrun. discriminate Hrun.
  - intros H1 H2. by apply Hnometrics.
Qed.

(** X11: the three outcomes of the formatter on a well-formed state.
    It raises its no-data [StockDataError] exactly when none of the
    five kinds of data is present: no price data or an empty one, no
    metrics, no or an empty list of ratings, no or an empty list of
    sentiment items, no or a null company name.  It returns a response
    exactly when the metrics are present.  With some other kind present
    and the metrics missing it raises the validation error of the
    response model. *)
Theorem format_response_outcomes (symbol : string) (h : heap) (state : loc)
    (st : gmap string value) (cl vl dl el : loc) (cs ds es : list string)
    (vr : gmap string value) :
  stream_state h state st cl vl dl el cs ds es vr →
  (any_data st = false ↔
   format_response symbol state h
   = (inl (Exn StockDataError "No data available - all agents failed"), h))
  ∧ (has_fundamentals st = true ↔ ∃ r, format_response symbol state h = (inr r, h))
  ∧ (any_data st = true → has_fundamentals st = false →
     ∃ msg, format_response symbol state h = (inl (Exn ValidationError msg), h)).
Proof. apply format_response_three_outcomes. Qed.

Lemma format_response_outcomes_witness :
  ∃ st,
    root_heap "ZZZZZ" !! 1%nat = Some (ODict st)
    ∧ (any_data st = false ↔
       format_response "ZZZZZ" 1 (root_heap "ZZZZZ")
       = (inl (Exn StockDataError "No data available - all agents failed"),
          root_heap "ZZZZZ"))
    ∧ (has_fundamentals st = true ↔
       ∃ r, format_response "ZZZZZ" 1 (root_heap "ZZZZZ") = (inr r, root_heap "ZZZZZ"))
    ∧ (any_data st = true → has_fundamentals st = false →
       ∃ msg, format_response "ZZZZZ" 1 (root_heap "ZZZZZ")
              = (inl (Exn ValidationError msg), root_heap "ZZZZZ")).
Proof.
  destruct (root_heap_stream_state "ZZZZZ") as (st & Hss). exists st.
  split; [by destruct Hss as [(symbol & []) _ _ _ _ _]|].
  exact (format_response_outcomes "ZZZZZ" _ _ _ _ _ _ _ _ _ _ _ Hss).
Defined.

(** ** [services/sentiment.py]: the duplicate filter and the counts *)

Lemma unique_by_title_spec (seen : gset string) (articles : list Article) :
  NoDup (title_key <$> unique_by_title seen articles)
  ∧ (∀ a, a ∈ unique_by_title seen articles → title_key a ∉ seen)
  ∧ sublist (unique_by_title seen articles) articles
  ∧ (∀ a, a ∈ articles →
       title_key a ∈ seen
       ∨ ∃ a', a' ∈ unique_by_title seen articles ∧ title_key a' = title_key a).
Proof.
  revert seen. induction articles as [|a rest IH]; intros seen; cbn [unique_by_title].
  { split; [constructor|]. split; [intros a Ha; by apply elem_of_nil in Ha|].
    split; [constructor|]. intros a Ha. by apply elem_of_nil in Ha. }
  case_bool_decide as Hseen.
  - destruct (IH seen) as (Hnd & Hout & Hsub & Hcov).
    split; [done|]. split; [done|]. split; [by apply sublist_cons|].
    intros a' Ha'. apply elem_of_cons in Ha' as [->|Ha']; [by left|by apply Hcov].
  - destruct (IH ({[title_key a]} ∪ seen)) as (Hnd & Hout & Hsub & Hcov).
    split; [|split; [|split]].
    + rewrite fmap_cons. apply NoDup_cons_2; [|done].
      intros Hin. apply list_elem_of_fmap in Hin as (a' & Hkey & Hin).
      apply (Hout a' Hin). rewrite <- Hkey. apply elem_of_union_l, elem_of_singleton.
      reflexivity.
    + intros a' Ha'. apply elem_of_cons in Ha' as [->|Ha']; [done|].
      intros Hs. apply (Hout a' Ha'). by apply elem_of_union_r.
    + by apply sublist_skip.
    + intros a' Ha'. apply elem_of_cons in Ha' as [->|Ha'].
      * right. exists a. split; [apply list_elem_of_here|done].
      * destruct (Hcov a' Ha') as [Hs|(a'' & Hin & Hkey)].
        -- apply elem_of_union in Hs as [Hs|Hs]; [|by left].
           apply elem_of_singleton in Hs. right. exists a.
           split; [apply list_elem_of_here|done].
        -- right. exists a''. split; [by apply list_elem_of_further|done].
Qed.

(** X12: the duplicate filter of the sentiment aggregation keeps the
    articles in their order, keeps the first article of every title key
    (the title without punctuation, lowercased, cut at 50 characters)
    and drops the later ones: no two kept articles share a key, and
    every article has its key among the kept ones. *)
Theorem unique_by_title_first_of_each (articles : list Article) :
  let unique_articles := unique_by_title ∅ articles in
  NoDup (title_key <$> unique_articles)
  ∧ sublist unique_articles articles
  ∧ (∀ a, a ∈ articles → ∃ a', a' ∈ unique_articles ∧ title_key a' = title_key a)
  ∧ head unique_articles = head articles
  ∧ (∀ i a, unique_articles !! i = Some a →
       ∃ j, articles !! j = Some a
            ∧ ∀ j' a', (j' < j)%nat → articles !! j' = Some a' → title_key a' ≠ title_key a).
Proof.
  cbv zeta. destruct (unique_by_title_spec ∅ articles) as (Hnd & _ & Hsub & Hcov).
  split; [done|]. split; [done|]. split; [|split].
  - intros a Ha. destruct (Hcov a Ha) as [Hs|H]; [|done]. by apply elem_of_empty in Hs.
  - destruct articles as [|a rest]; [done|]. cbn [unique_by_title].
    by rewrite bool_decide_eq_false_2 by apply not_elem_of_empty.
  - assert (Hfirst : ∀ (seen : gset string) l i a,
              unique_by_title seen l !! i = Some a →
              ∃ j, l !! j = Some a
                   ∧ ∀ j' a', (j' < j)%nat → l !! j' = Some a' →
                              title_key a' ≠ title_key a).
    { intros seen l. revert seen. induction l as [|x rest IH]; intros seen i a;
        cbn [unique_by_title]; [intros H; discriminate H|].
      case_bool_decide as Hseen.
      - intros Hi. destruct (IH _ _ _ Hi) as (j & Hj & Hbefore).
        exists (S j). split; [done|]. intros [|j'] a' Hj' Ha'.
        + injection Ha' as <-. intros Hkey.
          destruct (unique_by_title_spec seen rest) as (_ & Hout & _).
          apply (Hout a); [by eapply list_elem_of_lookup_2|]. by rewrite <- Hkey.
        + apply (Hbefore j'); [lia|done].
      - destruct i as [|i].
        + intros [= <-]. exists 0%nat. split; [done|]. intros j' a' Hj'. lia.
        + intros Hi. destruct (IH _ _ _ Hi) as (j & Hj & Hbefore).
          exists (S j). split; [done|]. intros [|j'] a' Hj' Ha'.
          * injection Ha' as <-. intros Hkey.
            destruct (unique_by_title_spec ({[title_key x]} ∪ seen) rest) as (_ & Hout & _).
            apply (Hout a); [by eapply list_elem_of_lookup_2|].
            rewrite <- Hkey. apply elem_of_union_l, elem_of_singleton. reflexivity.
          * apply (Hbefore j'); [lia|done]. }
    apply Hfirst.
Qed.

Lemma ltb_apart (p : float) :
  PrimFloat.ltb 0.15 p = true → PrimFloat.ltb p (-0.15) = true → False.
Proof.
  rewrite !ltb_spec.
  change (Prim2SF 0.15) with (S754_finite false 5404319552844595 (-55)).
  change (Prim2SF (-0.15)) with (S754_finite true 5404319552844595 (-55)).
  unfold SFltb, SFcompare.
  destruct (Prim2SF p) as [s|s| |s m e]; try destruct s; cbv beta iota;
    intros H1 H2; first [discriminate H1 | discriminate H2].
Qed.

Lemma filter_apart_length {A} (P Q : A → Prop) `{!∀ x, Decision (P x)}
    `{!∀ x, Decision (Q x)} (l : list A) :
  (∀ x, P x → Q x → False) →
  (length (filter P l) + length (filter Q l) ≤ length l)%nat.
Proof.
  intros Hapart. induction l as [|x l IH]; [done|].
  rewrite !filter_cons. destruct (decide (P x)), (decide (Q x)); cbn; try lia.
  by destruct (Hapart x).
Qed.

Lemma analyze_all_length analyze (articles : list Article) :
  (length (analyze_all analyze articles) ≤ length articles)%nat.
Proof.
  induction articles as [|a rest IH]; [done|]. cbn [analyze_all].
  destruct (analyze a); cbn; lia.
Qed.

Section SentimentBounds.
Variable cfg : Settings.
Variables mean stdev : list float → float.
Variable analyze_article_sentiment : Article → result SentimentItem.
Variable generate_ai_summary : list SentimentItem → float → result string.

(** X13: what the sentiment aggregation returns holds at most
    [max_news_articles] items and at most one per distinct title key of
    the articles fetched; each of its three counts lies between 0 and
    the number of items (no polarity is counted both as positive and as
    negative), and the confidence lies between 0 and 1. *)
Theorem sentiment_items_bounded (news rss : result (list Article))
    (items : list SentimentItem) (summary : SentimentSummary) :
  fetch_comprehensive_sentiment cfg mean stdev analyze_article_sentiment
    generate_ai_summary news rss = inr (items, summary) →
  let all_articles :=
    match news with inr l => l | inl _ => [] end
    ++ match rss with inr l => l | inl _ => [] end in
  (length items ≤ max_news_articles cfg)%nat
  ∧ (length items ≤ length (unique_by_title ∅ all_articles))%nat
  ∧ 0 ≤ positive_count summary ≤ Z.of_nat (length items)
  ∧ 0 ≤ negative_count summary ≤ Z.of_nat (length items)
  ∧ 0 ≤ neutral_count summary ≤ Z.of_nat (length items)
  ∧ PrimFloat.leb 0 (confidence summary) = true
  ∧ PrimFloat.leb (confidence summary) 1 = true.
Proof.
  unfold fetch_comprehensive_sentiment. cbv zeta.
  destruct (_ ++ _) as [|a all] eqn:Hall.
  { intros [= <- <-]. cbn. repeat split; try lia. }
  destruct (existsb null_title (a :: all)); [intros H; discriminate H|].
  destruct (analyze_all _ _) as [|i rest] eqn:Hitems.
  { intros [= <- <-]. cbn. repeat split; try lia. }
  unfold make_SentimentSummary.
  destruct (PrimFloat.leb 0 _ && PrimFloat.leb _ 1) eqn:Hconf; [|intros H; discriminate H].
  intros [= <- <-]. cbn [positive_count negative_count neutral_count confidence].
  apply andb_true_iff in Hconf as [Hc0 Hc1].
  pose proof (analyze_all_length analyze_article_sentiment
                (take (max_news_articles cfg) (unique_by_title ∅ (a :: all)))) as Hlen.
  rewrite Hitems, length_take in Hlen.
  pose proof (filter_apart_length (λ p, PrimFloat.ltb 0.15 p = true)
                (λ p, PrimFloat.ltb p (-0.15) = true)
                (si_polarity <$> i :: rest) ltb_apart) as Hcount.
  pose proof (length_filter (λ p, PrimFloat.ltb 0.15 p = true) (si_polarity <$> i :: rest)).
  pose proof (length_filter (λ p, PrimFloat.ltb p (-0.15) = true)
                (si_polarity <$> i :: rest)).
  unfold count_if. rewrite length_fmap in *. unfold fmap in *.
  cbn [list_fmap length] in *.
  repeat split; try done; lia.
Qed.
End SentimentBounds.

Lemma sentiment_items_bounded_witness :
  ∃ (items : list SentimentItem) (summary : SentimentSummary),
    (length items ≤ 20)%nat
    ∧ 0 ≤ positive_count summary ≤ Z.of_nat (length items)
    ∧ 0 ≤ negative_count summary ≤ Z.of_nat (length items)
    ∧ 0 ≤ neutral_count summary ≤ Z.of_nat (length items)
    ∧ length items = 1%nat ∧ positive_count summary = 1.
Proof.
  pose (analyze := λ a : Article,
          (inr {| si_source := "Unknown"; si_title := title_text a;
                  si_polarity := 0.5; si_sentiment_score := VERY_POSITIVE;
                  si_published_at := None; si_url := None |} : result SentimentItem)).
  pose (summarise := λ (_ : list SentimentItem) (_ : float),
          (inl (Exn DataNotFoundError "OpenAI summarization failed") : result string)).
  pose (news := (inr [{| a_title := Text "Shares rally"; a_description := None;
                         a_url := None; a_publishedAt := None; a_source_name := None |}]
                 : result (list Article))).
  pose (rss := (inl (Exn StockDataError "Error in fetch_rss_news") : result (list Article))).
  destruct (fetch_comprehensive_sentiment default_settings (λ _, 0.5%float) (λ _, 0%float)
              analyze summarise news rss) as [e|[items summary]] eqn:Hrun;
    [vm_compute in Hrun; discriminate Hrun|].
  destruct (sentiment_items_bounded default_settings (λ _, 0.5%float) (λ _, 0%float)
              analyze summarise news rss items summary Hrun)
    as (H1 & _ & H2 & H3 & H4 & _).
  exists items, summary. split; [exact H1|]. split; [exact H2|]. split; [exact H3|].
  split; [exact H4|].
  vm_compute in Hrun. injection Hrun as <- <-. split; reflexivity.
Defined.

(** ** [schemas.py]: requests and the symbol validator *)

Lemma upper_letters s : forallb is_upper_letter s = true → upper s = s.
Proof.
  intros Hall. unfold upper. induction s as [|c s IH]; [done|].
  cbn in Hall. apply andb_true_iff in Hall as [Hc Hs]. rewrite fmap_cons, IH by done.
  f_equal. unfold upper_char, is_lower_letter, is_upper_letter in *.
  apply andb_true_iff in Hc as [H1%bool_decide_eq_true H2%bool_decide_eq_true].
  rewrite bool_decide_eq_false_2; [done|lia].
Qed.

Lemma upper_letter_not_space c : is_upper_letter c = true → is_space c = false.
Proof.
  unfold is_upper_letter, is_space.
  intros [H1%bool_decide_eq_true H2%bool_decide_eq_true]%andb_true_iff.
  apply orb_false_iff. split; apply andb_false_iff.
  - right. apply bool_decide_eq_false. lia.
  - right. apply bool_decide_eq_false. lia.
Qed.

Lemma lstrip_head s : (∀ c, head s = Some c → is_space c = false) → lstrip s = s.
Proof. destruct s as [|c s]; [done|]. intros H. cbn. by rewrite (H c). Qed.

Lemma strip_letters s : forallb is_upper_letter s = true → strip s = s.
Proof.
  intros Hall.
  assert (Hin : ∀ c, c ∈ s → is_space c = false).
  { intros c Hc. apply upper_letter_not_space.
    rewrite forallb_forall in Hall. apply Hall. by apply list_elem_of_In. }
  unfold strip. rewrite (lstrip_head s).
  - rewrite lstrip_head; [apply reverse_involutive|].
    intros c Hc. apply Hin. rewrite head_reverse in Hc. by apply last_Some_elem_of.
  - intros c Hc. apply Hin. by apply head_Some_elem_of.
Qed.

(** X14: a symbol the request model accepts is a fixed point of the
    normalisation (uppercasing and stripping leave it as it is) and
    passes the symbol validator, so that neither driver can see an
    invalid symbol from a request.  The request model is the stricter
    of the two: it rejects BRK.B, which the validator accepts. *)
Theorem StockRequest_symbols_are_valid (symbol : string) :
  (∀ s, StockRequest symbol = inr s →
        s = symbol
        ∧ of_pystr (upper (str symbol)) = symbol
        ∧ normalised symbol = str symbol
        ∧ validate_stock_symbol (VStr symbol) = inr true)
  ∧ (∃ e, StockRequest "BRK.B" = inl e)
  ∧ validate_stock_symbol (VStr "BRK.B") = inr true.
Proof.
  split; [|split; [by eexists|reflexivity]].
  intros s. unfold StockRequest.
  destruct (bool_decide _ && forallb _ _) eqn:Hok; [|intros H; discriminate H].
  intros [= <-]. apply andb_true_iff in Hok as [Hlen%bool_decide_eq_true Hall].
  assert (Hnorm : normalised symbol = str symbol).
  { unfold normalised. by rewrite strip_letters, upper_letters. }
  split; [done|]. split.
  { rewrite upper_letters by done. apply string_of_list_ascii_of_string. }
  split; [done|].
  destruct (validate_cases symbol) as [[_ Hv]|[Hshape _]]; [done|].
  destruct Hshape. rewrite Hnorm.
  assert (Hnodot : ∀ c, c ∈ str symbol → c ≠ dot).
  { intros c Hc ->. rewrite forallb_forall in Hall.
    pose proof (Hall dot (proj1 (list_elem_of_In _ _) Hc)) as Hd. discriminate Hd. }
  split; [done|]. split; [|split; [|split]].
  - rewrite Forall_forall. intros c Hc. left.
    rewrite forallb_forall in Hall. apply Hall. by apply list_elem_of_In.
  - intros Hh. by apply (Hnodot dot); [apply head_Some_elem_of|].
  - intros Hl. by apply (Hnodot dot); [apply last_Some_elem_of|].
  - intros (i & Hi & _). by apply (Hnodot dot); [eapply list_elem_of_lookup_2|].
Qed.

(** ** [services/market_data.py]: what the fundamentals fetch can fill *)

Lemma md_get_None k (d : metrics_dict) : k ∉ d.*1 → md_get k d = None.
Proof.
  intros Hk. unfold md_get.
  destruct (list_find _ d) as [[i [k' v]]|] eqn:E; [|done].
  apply list_find_Some in E as (Hi & Heq & _). cbn in Heq. subst k'.
  destruct Hk. apply list_elem_of_fmap. exists (k, v). split; [done|].
  by eapply list_elem_of_lookup_2.
Qed.

Lemma md_get_filter k (d : metrics_dict) (P : string * option float → Prop)
    `{!∀ kv, Decision (P kv)} :
  md_get k (filter P d) = None ∨ ∃ v, md_get k (filter P d) = v ∧ P (k, v).
Proof.
  unfold md_get.
  destruct (list_find _ (filter P d)) as [[i [k' v]]|] eqn:E; [|by left].
  right. exists v. split; [done|].
  apply list_find_Some in E as (Hi & Heq & _). cbn in Heq. subst k'.
  apply list_elem_of_lookup_2 in Hi. by apply list_elem_of_filter in Hi as [HP _].
Qed.

Lemma md_set_keys k v (d : metrics_dict) x :
  x ∈ (md_set k v d).*1 → x = k ∨ x ∈ d.*1.
Proof.
  induction d as [|[k' v'] d IH]; cbn [md_set].
  - rewrite fmap_cons. intros [->|Hx]%elem_of_cons; [by left|by right].
  - case_bool_decide as Hkk; rewrite !fmap_cons; cbn [fst];
      intros [->|Hx]%elem_of_cons.
    + by left.
    + right. by apply list_elem_of_further.
    + right. apply list_elem_of_here.
    + destruct (IH Hx) as [->|H']; [by left|right; by apply list_elem_of_further].
Qed.

Lemma md_merge_keys (a b : metrics_dict) x :
  x ∈ (md_merge a b).*1 → x ∈ a.*1 ∨ x ∈ b.*1.
Proof.
  unfold md_merge. revert a. induction b as [|[k v] b IH]; intros a; cbn [foldl].
  - by left.
  - intros H. destruct (IH _ H) as [H'|H'].
    + apply md_set_keys in H' as [->|H']; [right; rewrite fmap_cons; apply list_elem_of_here|by left].
    + right. rewrite fmap_cons. by apply list_elem_of_further.
Qed.

Lemma filter_keys (d : metrics_dict) (P : string * option float → Prop)
    `{!∀ kv, Decision (P kv)} x :
  x ∈ (filter P d).*1 → x ∈ d.*1.
Proof.
  intros (kv & -> & Hin)%list_elem_of_fmap. apply list_elem_of_filter in Hin as [_ Hin].
  apply list_elem_of_fmap. by exists kv.
Qed.

(** What the body collects before it builds the model. *)
Lemma fetch_fundamentals_yf_body_collects (ticker : reply Ticker) :
  ∃ d : metrics_dict,
    fetch_fundamentals_yf_body ticker
    = inr (metrics_of_dict (filter (λ kv, truthy_num kv.2 = true) d))
    ∧ ∀ k, k ∈ d.*1 → k ∈ collected_keys.
Proof.
  unfold fetch_fundamentals_yf_body. destruct ticker as [e|t].
  { exists []. split; [reflexivity|]. intros k Hk. by apply elem_of_nil in Hk. }
  eexists. split; [reflexivity|].
  intros k Hk. apply md_merge_keys in Hk.
  assert (Hmem : ∀ k, k ∈ collected_keys ↔
            k = "fifty_two_week_high" ∨ k = "fifty_two_week_low" ∨ k = "market_cap"
            ∨ k = "pe_ratio" ∨ k = "price_to_book" ∨ k = "dividend_yield" ∨ k = "beta"
            ∨ k = "revenue_ttm" ∨ k = "profit_margin" ∨ k = "shares_outstanding").
  { intros k'. unfold collected_keys. rewrite !elem_of_cons, elem_of_nil. tauto. }
  apply Hmem.
  destruct Hk as [Hk|Hk].
  - destruct (tk_history t) as [e|[[high low]|]]; cbn in Hk;
      rewrite ?elem_of_cons, ?elem_of_nil in Hk; tauto.
  - revert Hk.
    destruct (tk_info t) as [e|[info|]]; cbn;
      try destruct (bool_decide _ && bool_decide _); cbn;
      try (rewrite ?elem_of_cons, ?elem_of_nil; tauto);
      (destruct (tk_fast_info t) as [e'|[fast|]]; cbn;
       try (rewrite ?elem_of_nil; tauto);
       destruct (fi_market_cap fast) as [e1|mc]; cbn;
       try (rewrite ?elem_of_nil; tauto);
       destruct (truthy_num mc); destruct (fi_shares fast) as [e2|sh]; cbn;
       try destruct (truthy_num sh); cbn;
       rewrite ?bool_decide_eq_false_2 by discriminate; cbn;
       rewrite ?elem_of_cons, ?elem_of_nil; tauto).
Qed.

Lemma fetch_fundamentals_yf_is_body cfg (ticker : nat → reply Ticker) :
  fetch_fundamentals_yf cfg ticker = fetch_fundamentals_yf_body (ticker 0%nat).
Proof.
  destruct (fetch_fundamentals_yf_body_total (ticker 0%nat)) as (m & Hm & _).
  unfold fetch_fundamentals_yf, create_retry_decorator.
  by rewrite (retry_loop_first _ _ m), Hm.
Qed.

(** X15: the fundamentals fetch calls the provider once and fills at
    most nine of the eighteen fields of [FinancialMetrics]: the 52-week
    range, market cap, P/E, price to book, dividend yield, beta,
    revenue and profit margin.  The other nine are always null, and no
    field it returns holds zero (a zero from the provider is dropped
    like a missing value). *)
Theorem fetch_fundamentals_yf_fills (cfg : Settings) (ticker : nat → reply Ticker) :
  ∃ m,
    fetch_fundamentals_yf cfg ticker = inr m
    ∧ (∀ ticker', ticker' 0%nat = ticker 0%nat → fetch_fundamentals_yf cfg ticker' = inr m)
    ∧ peg_ratio m = None ∧ price_to_sales m = None ∧ gross_margin m = None
    ∧ operating_margin m = None ∧ return_on_equity m = None
    ∧ return_on_assets m = None ∧ debt_to_equity m = None
    ∧ current_ratio m = None ∧ quick_ratio m = None
    ∧ Forall (λ x, x = None ∨ truthy_num x = true) (metric_fields m).
Proof.
  destruct (fetch_fundamentals_yf_body_collects (ticker 0%nat)) as (d & Hd & Hkeys).
  eexists. split; [by rewrite fetch_fundamentals_yf_is_body|].
  split; [intros ticker' Heq; by rewrite fetch_fundamentals_yf_is_body, Heq|].
  assert (Hnone : ∀ k, k ∉ collected_keys →
            md_get k (filter (λ kv, truthy_num kv.2 = true) d) = None).
  { intros k Hk. apply md_get_None. intros Hin. apply Hk, Hkeys.
    by eapply filter_keys. }
  assert (Hout : ∀ k, (∀ k', k' ∈ collected_keys → k' ≠ k) → k ∉ collected_keys).
  { intros k Hk Hin. by apply (Hk k). }
  cbn [metrics_of_dict peg_ratio price_to_sales gross_margin operating_margin
         return_on_equity return_on_assets debt_to_equity current_ratio quick_ratio].
  repeat (split;
          [apply Hnone; unfold collected_keys;
           repeat (apply not_elem_of_cons; split; [discriminate|]); apply not_elem_of_nil|]).
  unfold metric_fields. cbn.
  repeat (apply Forall_cons_2;
          [match goal with
           | |- md_get ?k ?f = None ∨ _ =>
               destruct (md_get_filter k d (λ kv, truthy_num kv.2 = true))
                 as [H|(v & Hv & Hp)]; [by left|right; by rewrite Hv]
           end|]).
  apply Forall_nil_2.
Qed.

(** ** The consensus vote *)

Lemma count_rating_keyword counts rating :
  count_rating counts rating
  = (if rating_keyword rating is Some k then bump k counts else counts).
Proof.
  unfold count_rating, rating_keyword. cbv zeta.
  by repeat destruct (contains _ _).
Qed.

Lemma rating_keyword_cases rating k :
  rating_keyword rating = Some k → k ∈ ["BUY"; "HOLD"; "SELL"].
Proof.
  unfold rating_keyword. cbv zeta.
  repeat destruct (contains _ _); intros [= <-];
    repeat first [apply list_elem_of_here | apply list_elem_of_further].
Qed.

(** [bump] on a key that is counted already, and on a new key. *)
Lemma bump_spec k (counts : list (string * Z)) :
  NoDup counts.*1 →
  (∃ i n, counts !! i = Some (k, n) ∧ bump k counts = <[i := (k, n + 1)]> counts)
  ∨ ((k ∉ counts.*1) ∧ bump k counts = counts ++ [(k, 1)]).
Proof.
  induction counts as [|[k' n] rest IH]; intros Hnd; [right; split; [apply not_elem_of_nil|done]|].
  rewrite fmap_cons in Hnd. apply NoDup_cons in Hnd as [Hk' Hnd]. cbn [bump].
  case_bool_decide as Hk.
  - subst k'. left. by exists 0%nat, n.
  - destruct (IH Hnd) as [(i & m & Hi & ->)|[Hnot ->]].
    + left. by exists (S i), m.
    + right. split; [|done]. rewrite fmap_cons. apply not_elem_of_cons. split; [|done].
      cbn. congruence.
Qed.

(** [max_key]: the first entry with the largest count. *)
Lemma max_key_spec (best : string * Z) (counts : list (string * Z)) :
  ∃ p k n, (best :: counts) !! p = Some (k, n) ∧ max_key best counts = k
    ∧ best.2 ≤ n
    ∧ (∀ q k' n', (best :: counts) !! q = Some (k', n') → n' ≤ n)
    ∧ (∀ q k' n', (q < p)%nat → (best :: counts) !! q = Some (k', n') → n' < n).
Proof.
  revert best. induction counts as [|[k1 n1] rest IH]; intros [k0 n0]; cbn [max_key].
  - exists 0%nat, k0, n0. split; [done|]. split; [done|]. split; [cbn; lia|]. split.
    + intros [|q] k' n' Hq; [injection Hq as <- <-; lia|done].
    + intros q k' n' Hq. lia.
  - cbn [snd]. destruct (n0 <? n1) eqn:Hlt.
    + apply Z.ltb_lt in Hlt.
      destruct (IH (k1, n1)) as (p & k & n & Hp & -> & Hge & Hall & Hbefore). cbn [snd] in Hge.
      exists (S p), k, n. split; [done|]. split; [done|]. split; [cbn; lia|]. split.
      * intros [|q] k' n' Hq; [injection Hq as <- <-; lia|by eapply Hall].
      * intros [|q] k' n' Hqp Hq; [injection Hq as <- <-; lia|].
        eapply (Hbefore q); [lia|done].
    + apply Z.ltb_ge in Hlt.
      destruct (IH (k0, n0)) as (p & k & n & Hp & -> & Hge & Hall & Hbefore). cbn [snd] in Hge.
      destruct p as [|p].
      * injection Hp as <- <-.
        exists 0%nat, k0, n0. split; [done|]. split; [done|]. split; [cbn; lia|]. split.
        -- intros [|[|q]] k' n' Hq;
             [injection Hq as <- <-; lia|injection Hq as <- <-; lia|].
           by apply (Hall (S q) k' n').
        -- intros q k' n' Hq. lia.
      * exists (S (S p)), k, n. split; [done|]. split; [done|]. split; [cbn; lia|]. split.
        -- intros [|[|q]] k' n' Hq;
             [injection Hq as <- <-; lia|injection Hq as <- <-; lia|].
           by apply (Hall (S q) k' n').
        -- intros [|[|q]] k' n' Hqp Hq.
           ++ injection Hq as <- <-. apply (Hbefore 0%nat k0 n0); [lia|done].
           ++ injection Hq as <- <-.
              pose proof (Hbefore 0%nat k0 n0 ltac:(lia) eq_refl). lia.
           ++ apply (Hbefore (S q) k' n'); [lia|done].
Qed.

Lemma votes_snoc k ratings r :
  votes k (ratings ++ [r])
  = votes k ratings + (if bool_decide (rating_keyword r = Some k) then 1 else 0).
Proof.
  unfold votes. rewrite filter_app, length_app, filter_cons, filter_nil.
  case_bool_decide as Hk; [rewrite decide_True by done|rewrite decide_False by done];
    cbn [length]; lia.
Qed.

Lemma votes_nonneg k ratings : 0 ≤ votes k ratings.
Proof. unfold votes. lia. Qed.

(** The tally after the loop over the ratings. *)
Lemma tally_spec (ratings : list AnalystRating) :
  let counts := foldl count_rating [] ratings in
  NoDup counts.*1
  ∧ (∀ k n, (k, n) ∈ counts → n = votes k ratings ∧ 0 < n)
  ∧ (∀ k, 0 < votes k ratings → k ∈ counts.*1)
  ∧ (∀ i j k k' n n', (i < j)%nat → counts !! i = Some (k, n) → counts !! j = Some (k', n') →
       votes_first k k' ratings).
Proof.
  cbv zeta. induction ratings as [|r ratings IH] using rev_ind.
  { cbn. split; [constructor|]. split; [intros k n Hin; by apply elem_of_nil in Hin|].
    split; [intros k Hk; unfold votes in Hk; cbn in Hk; lia|].
    intros i j k k' n n' _ Hi. done. }
  destruct IH as (Hnd & Hcount & Hin & Hord).
  rewrite foldl_app. cbn [foldl]. rewrite count_rating_keyword.
  set (counts := foldl count_rating [] ratings) in *.
  assert (Hfirst_keep : ∀ k k', votes_first k k' ratings → votes_first k k' (ratings ++ [r])).
  { intros k k' (a & x & Ha & Hk & Hbefore).
    assert (a < length ratings)%nat by by eapply lookup_lt_Some.
    exists a, x. split; [by apply lookup_app_l_Some|]. split; [done|].
    intros b r' Hb Hr'. rewrite lookup_app_l in Hr' by lia. by eapply Hbefore. }
  destruct (rating_keyword r) as [k0|] eqn:Hk0.
  2:{ split; [done|]. split; [|split].
      - intros k n Hkn. rewrite votes_snoc, bool_decide_eq_false_2 by congruence.
        rewrite Z.add_0_r. by apply Hcount.
      - intros k. rewrite votes_snoc, bool_decide_eq_false_2 by congruence.
        rewrite Z.add_0_r. apply Hin.
      - intros i j k k' n n' Hij Hi Hj. apply Hfirst_keep. by eapply (Hord i j). }
  destruct (bump_spec k0 counts Hnd) as [(i0 & n0 & Hi0 & ->)|[Hnew ->]].
  - assert (Hkeys : (<[i0 := (k0, n0 + 1)]> counts).*1 = counts.*1).
    { rewrite list_fmap_insert. cbn [fst]. apply list_insert_id.
      by rewrite list_lookup_fmap, Hi0. }
    assert (Hi0_lt : (i0 < length counts)%nat) by by eapply lookup_lt_Some.
    assert (Hlook : ∀ i k n, <[i0 := (k0, n0 + 1)]> counts !! i = Some (k, n) →
              ∃ n', counts !! i = Some (k, n')
                    ∧ n = n' + (if bool_decide (Some k0 = Some k) then 1 else 0)).
    { intros i k n Hi. destruct (decide (i = i0)) as [->|Hne].
      - rewrite list_lookup_insert_eq in Hi by done. injection Hi as <- <-.
        exists n0. by rewrite bool_decide_eq_true_2.
      - rewrite list_lookup_insert_ne in Hi by done. exists n. split; [done|].
        rewrite bool_decide_eq_false_2; [lia|]. intros [= <-].
        apply Hne. eapply NoDup_lookup; [exact Hnd| |];
          rewrite list_lookup_fmap; [by rewrite Hi|by rewrite Hi0]. }
    split; [by rewrite Hkeys|]. split; [|split].
    + intros k n Hkn. apply list_elem_of_lookup in Hkn as [i Hi].
      destruct (Hlook i k n Hi) as (n' & Hi' & ->).
      destruct (Hcount k n') as [-> Hpos]; [by eapply list_elem_of_lookup_2|].
      rewrite votes_snoc. split; [|case_bool_decide; lia].
      by repeat case_bool_decide; simplify_eq.
    + intros k Hk. rewrite Hkeys. rewrite votes_snoc in Hk.
      case_bool_decide as Hkk; [|apply Hin; lia].
      assert (k0 = k) as <- by congruence. apply list_elem_of_fmap. exists (k0, n0).
      split; [done|by eapply list_elem_of_lookup_2].
    + intros i j k k' n n' Hij Hi Hj. apply Hfirst_keep.
      destruct (Hlook i k n Hi) as (m & Hi' & _).
      destruct (Hlook j k' n' Hj) as (m' & Hj' & _).
      by eapply (Hord i j).
  - assert (Hzero : votes k0 ratings = 0).
    { pose proof (votes_nonneg k0 ratings). destruct (decide (0 < votes k0 ratings)); [|lia].
      destruct Hnew. by apply Hin. }
    split; [|split; [|split]].
    + rewrite fmap_app. apply NoDup_app. split; [done|]. split; [|apply NoDup_singleton].
      intros k Hk Hk'. apply list_elem_of_singleton in Hk'. cbn in Hk'. by subst.
    + intros k n Hkn. apply elem_of_app in Hkn as [Hkn|Hkn].
      * destruct (Hcount k n Hkn) as [-> Hpos]. split; [|done].
        rewrite votes_snoc, bool_decide_eq_false_2; [lia|].
        intros Hkw. assert (k0 = k) as <- by congruence. lia.
      * apply list_elem_of_singleton in Hkn. injection Hkn as -> ->.
        rewrite votes_snoc, bool_decide_eq_true_2 by done. lia.
    + intros k Hk. rewrite fmap_app, elem_of_app. rewrite votes_snoc in Hk.
      case_bool_decide as Hkk; [right|left; apply Hin; lia].
      assert (k0 = k) as <- by congruence. by apply list_elem_of_singleton.
    + intros i j k k' n n' Hij Hi Hj.
      assert (Hi_lt : (i < length counts)%nat).
      { apply lookup_lt_Some in Hj. rewrite length_app in Hj. cbn in Hj. lia. }
      rewrite lookup_app_l in Hi by done.
      destruct (decide (j < length counts)%nat) as [Hj_lt|Hj_ge].
      * rewrite lookup_app_l in Hj by done. apply Hfirst_keep.
        by eapply (Hord i j).
      * rewrite lookup_app_r in Hj by lia.
        assert (j - length counts = 0)%nat as Hz.
        { apply lookup_lt_Some in Hj. cbn in Hj. lia. }
        rewrite Hz in Hj. injection Hj as <- <-.
        destruct (Hcount k n) as [-> Hpos]; [by eapply list_elem_of_lookup_2|].
        assert (∃ a x, ratings !! a = Some x ∧ rating_keyword x = Some k) as (a & x & Ha & Hx).
        { unfold votes in Hpos.
          destruct (filter (λ r, rating_keyword r = Some k) ratings) as [|x l] eqn:Hf;
            [cbn in Hpos; lia|].
          assert (x ∈ filter (λ r, rating_keyword r = Some k) ratings) as Hx
            by (rewrite Hf; apply list_elem_of_here).
          apply list_elem_of_filter in Hx as [Hx Hxin].
          apply list_elem_of_lookup in Hxin as [a Ha]. by exists a, x. }
        assert (a < length ratings)%nat by by eapply lookup_lt_Some.
        exists a, x. split; [by apply lookup_app_l_Some|]. split; [done|].
        intros b r' Hb Hr' Hkw. rewrite lookup_app_l in Hr' by lia.
        assert (0 < votes k0 ratings); [|lia].
        unfold votes.
        assert (r' ∈ filter (λ r, rating_keyword r = Some k0) ratings) as Hr'in.
        { apply list_elem_of_filter. split; [done|by eapply list_elem_of_lookup_2]. }
        destruct (filter _ ratings); [by apply elem_of_nil in Hr'in|cbn; lia].
Qed.

(** X16: the consensus helper gives null for no ratings, HOLD when no
    rating text holds a keyword, and otherwise the keyword (the first
    of BUY, HOLD, SELL found in the uppercased text of a rating) with
    the most votes; among keywords with as many votes, the one that got
    its first vote earliest. *)
Theorem calculate_consensus_rating_majority (ratings : list AnalystRating) :
  (calculate_consensus_rating ratings = None ↔ ratings = [])
  ∧ (ratings ≠ [] → (∀ r, r ∈ ratings → rating_keyword r = None) →
     calculate_consensus_rating ratings = Some "HOLD")
  ∧ (∀ r, r ∈ ratings → is_Some (rating_keyword r) →
     ∃ k, calculate_consensus_rating ratings = Some k
          ∧ k ∈ ["BUY"; "HOLD"; "SELL"]
          ∧ 0 < votes k ratings
          ∧ (∀ k', votes k' ratings ≤ votes k ratings)
          ∧ (∀ k', k' ≠ k → votes k' ratings = votes k ratings →
               votes_first k k' ratings)).
Proof.
  pose proof (tally_spec ratings) as Htally. cbv zeta in Htally.
  destruct Htally as (Hnd & Hcount & Hin & Hord).
  split; [|split].
  - unfold calculate_consensus_rating. destruct ratings as [|r l]; [done|].
    split; [|done]. by destruct (foldl _ _ _).
  - intros Hne Hnone. destruct ratings as [|r l]; [done|].
    unfold calculate_consensus_rating.
    destruct (foldl count_rating [] (r :: l)) as [|[k n] rest] eqn:Hf; [done|].
    destruct (Hcount k n) as [-> Hpos]; [apply list_elem_of_here|].
    exfalso. unfold votes in Hpos.
    destruct (filter (λ r, rating_keyword r = Some k) (r :: l)) as [|x xs] eqn:Hfl;
      [cbn in Hpos; lia|].
    assert (x ∈ filter (λ r, rating_keyword r = Some k) (r :: l)) as Hx
      by (rewrite Hfl; apply list_elem_of_here).
    apply list_elem_of_filter in Hx as [Hx Hxin]. rewrite (Hnone x Hxin) in Hx. done.
  - intros r Hr [k0 Hk0].
    assert (Hvoted : 0 < votes k0 ratings).
    { unfold votes.
      assert (r ∈ filter (λ r, rating_keyword r = Some k0) ratings) as Hrin
        by by apply list_elem_of_filter.
      destruct (filter _ ratings); [by apply elem_of_nil in Hrin|cbn; lia]. }
    unfold calculate_consensus_rating. destruct ratings as [|r0 l]; [by apply elem_of_nil in Hr|].
    destruct (foldl count_rating [] (r0 :: l)) as [|first rest] eqn:Hf.
    { apply Hin in Hvoted. by apply elem_of_nil in Hvoted. }
    destruct (max_key_spec first rest) as (p & k & n & Hp & Hmax & _ & Hall & Hbefore).
    destruct (Hcount k n) as [Hn Hpos]; [by eapply list_elem_of_lookup_2|].
    assert (Hle : ∀ k', votes k' (r0 :: l) ≤ votes k (r0 :: l)).
    { intros k'. destruct (decide (0 < votes k' (r0 :: l))) as [Hk'|Hk']; [|lia].
      apply Hin, list_elem_of_fmap in Hk' as ([k'' n'] & -> & Hk').
      apply list_elem_of_lookup in Hk' as [q Hq].
      destruct (Hcount k'' n') as [-> _]; [by eapply list_elem_of_lookup_2|].
      cbn [fst]. rewrite <- Hn. by eapply Hall. }
    exists k. split; [by rewrite Hmax|]. split; [|split; [lia|split; [done|]]].
    + destruct (filter (λ r, rating_keyword r = Some k) (r0 :: l)) as [|x xs] eqn:Hfl;
        [unfold votes in Hpos, Hn; rewrite Hfl in Hn; cbn in Hn; lia|].
      assert (x ∈ filter (λ r, rating_keyword r = Some k) (r0 :: l)) as Hx
        by (rewrite Hfl; apply list_elem_of_here).
      apply list_elem_of_filter in Hx as [Hx _]. by eapply rating_keyword_cases.
    + intros k' Hne Htie.
      assert (0 < votes k' (r0 :: l)) as Hk' by lia.
      apply Hin, list_elem_of_fmap in Hk' as ([k'' n'] & -> & Hk').
      apply list_elem_of_lookup in Hk' as [q Hq]. cbn [fst] in *.
      destruct (Hcount k'' n') as [Hn' _]; [by eapply list_elem_of_lookup_2|].
      destruct (decide (q < p)%nat) as [Hqp|Hqp].
      { pose proof (Hbefore q k'' n' Hqp Hq). lia. }
      assert (p ≠ q) by (intros ->; rewrite Hp in Hq; by injection Hq as -> _).
      eapply (Hord p q); [lia|done|done].
Qed.

(** ** The agents run beside one another *)

Lemma extends_grown x (h : heap) o t : extends x h (<[x := o]> h ++ t).
Proof.
  split.
  - rewrite length_app, length_insert. lia.
  - intros l Hl Hne. rewrite lookup_app_l by (rewrite length_insert; lia).
    by apply list_lookup_insert_ne.
Qed.

Lemma extends_appended x (h t : heap) : extends x h (h ++ t).
Proof.
  split; [rewrite length_app; lia|]. intros l Hl _. by apply lookup_app_l.
Qed.

(** A well-formed state stays one when other cells change. *)
Lemma stream_state_extends x h h' s st cl vl dl el cs cs' ds es vr :
  stream_state h s st cl vl dl el cs ds es vr →
  extends x h h' →
  x ≠ s → x ≠ vl → x ≠ dl → x ≠ el →
  h' !! cl = Some (OList cs') →
  stream_state h' s st cl vl dl el cs' ds es vr.
Proof.
  intros [(symbol & Ha) Hv Hvd Hapart Ht Hs] [Hlen Hext] Hxs Hxv Hxd Hxe Hcl.
  destruct Ha as [Hst Hsy Hclk Hcs Hdsk Hdsl Hesk Hesl].
  split; try done.
  - exists symbol. split; try done.
    + rewrite Hext; [done|by eapply lookup_lt_Some|done].
    + rewrite Hext; [done|by eapply lookup_lt_Some|done].
    + rewrite Hext; [done|by eapply lookup_lt_Some|done].
  - rewrite Hext; [done|by eapply lookup_lt_Some|done].
Qed.

(** The locations of a well-formed state are cells of the heap. *)
Lemma stream_state_cells h s st cl vl dl el cs ds es vr :
  stream_state h s st cl vl dl el cs ds es vr →
  (s < length h)%nat ∧ (cl < length h)%nat ∧ (vl < length h)%nat
  ∧ (dl < length h)%nat ∧ (el < length h)%nat
  ∧ s ≠ cl ∧ vl ≠ cl ∧ dl ≠ cl ∧ el ≠ cl.
Proof.
  intros [(symbol & Ha) Hv Hvd (Hsv & Hcd & Hce & Hde) Ht Hs].
  destruct Ha as [Hst Hsy Hclk Hcs Hdsk Hdsl Hesk Hesl].
  repeat split; try (by eapply lookup_lt_Some); try congruence.
Qed.

(** The state an agent was given, after the agent has run. *)
Lemma stream_state_beside h state st cl vl dl el cs ds es vr cs' t :
  stream_state h state st cl vl dl el cs ds es vr →
  stream_state (<[cl := OList cs']> h ++ t) state st cl vl dl el cs' ds es vr
  ∧ extends cl h (<[cl := OList cs']> h ++ t).
Proof.
  intros Hss.
  destruct (stream_state_cells _ _ _ _ _ _ _ _ _ _ _ Hss)
    as (Hs & Hc & Hv & Hd & He & Hsc & Hvc & Hdc & Hec).
  split; [|apply extends_grown].
  eapply stream_state_extends; [exact Hss|apply extends_grown|congruence..|].
  rewrite lookup_app_l by (rewrite length_insert; lia).
  by apply list_lookup_insert_eq.
Qed.

(** A key that is none of the keys an agent writes. *)
Ltac other_key Hk :=
  repeat (apply not_elem_of_cons in Hk as [? Hk]);
  rewrite update_all_lookup_other
    by (cbn [fmap list_fmap fst];
        repeat (apply not_elem_of_cons; split; [done|]); apply not_elem_of_nil);
  by rewrite lookup_insert_ne.

(** The two halves of [beside] on the heap an agent leaves. *)
Ltac run_beside Hss Ht Hs :=
  split;
    [eapply stream_state_grown; [exact Hss|..]; grown_side Ht Hs
    |apply (stream_state_beside _ _ _ _ _ _ _ _ _ _ _ _ _ Hss)
    |apply (stream_state_beside _ _ _ _ _ _ _ _ _ _ _ _ _ Hss)
    |rewrite length_app, length_insert; cbn [length]; lia].

Section Beside.
Variable svc : Services.
Variables (h : heap) (state : loc) (st : gmap string value) (symbol : value).
Variables (cl vl dl el : loc) (cs ds es : list string) (vr : gmap string value).
Hypothesis Hss : stream_state h state st cl vl dl el cs ds es vr.
Hypothesis Hsymbol : st !! "symbol" = Some symbol.

Lemma beside_analysis : analysis_state h state st symbol cl dl el cs ds es.
Proof.
  destruct Hss as [(symbol' & Ha) _ _ _ _ _].
  destruct Ha as [? Hsy ? ? ? ? ? ?]. split; try done.
Qed.

Lemma beside_same t : h ++ t = <[cl := OList cs]> h ++ t.
Proof.
  destruct beside_analysis. by rewrite list_insert_id.
Qed.

Lemma price_agent_beside :
  ∃ h' st' dl' el' cs',
    price_agent svc state h = (inr (length h), h')
    ∧ beside h h' state st st' cl vl dl el dl' el' cs cs'
        ds (ds ++ price_sources svc symbol) es (es ++ price_errors svc symbol) vr
    ∧ st' !! "price_data"
      = (if price_of svc symbol is Some v then Some v else st !! "price_data")
    ∧ (∀ k, k ∉ price_keys → st' !! k = st !! k).
Proof.
  pose proof Hss as [_ _ _ _ Ht Hs]. pose proof beside_analysis as Ha.
  pose proof (stream_state_cells _ _ _ _ _ _ _ _ _ _ _ Hss)
    as (Hs_lt & Hcl_lt & Hvl_lt & Hdl_lt & Hel_lt & Hsc & Hvc & Hdc & Hec).
  pose proof Hss as [_ Hv Hvd (Hsv & Hcd & Hce & Hde) _ _].
  pose proof Ha as [Hst Hsy Hcl Hcs Hdsk Hdsl Hesk Hesl].
  unfold price_sources, price_errors, price_of.
  destruct (svc_fetch_current_price svc symbol) as [e|price_data] eqn:He.
  - eexists _, _, dl, (S (length h)), cs.
    split; [by eapply price_agent_failure|]. rewrite beside_same, app_nil_r.
    split; [run_beside Hss Ht Hs|].
    split; [by read_key|]. intros k Hk. other_key Hk.
  - eexists _, _, (S (length h)), el, _.
    split; [by eapply price_agent_success|]. rewrite app_nil_r.
    split; [run_beside Hss Ht Hs|].
    split; [by read_key|]. intros k Hk. other_key Hk.
Qed.

Lemma fundamentals_agent_beside :
  ∃ h' st' dl' el' cs',
    fundamentals_agent svc state h = (inr (length h), h')
    ∧ beside h h' state st st' cl vl dl el dl' el' cs cs'
        ds (ds ++ fundamentals_sources svc symbol) es (es ++ fundamentals_errors svc symbol) vr
    ∧ st' !! "financial_metrics" = Some (VMetrics (metrics_of svc symbol))
    ∧ (∀ k, k ∉ fundamentals_keys → st' !! k = st !! k).
Proof.
  pose proof Hss as [_ _ _ _ Ht Hs]. pose proof beside_analysis as Ha.
  pose proof (stream_state_cells _ _ _ _ _ _ _ _ _ _ _ Hss)
    as (Hs_lt & Hcl_lt & Hvl_lt & Hdl_lt & Hel_lt & Hsc & Hvc & Hdc & Hec).
  pose proof Hss as [_ Hv Hvd (Hsv & Hcd & Hce & Hde) _ _].
  pose proof Ha as [Hst Hsy Hcl Hcs Hdsk Hdsl Hesk Hesl].
  unfold fundamentals_sources, fundamentals_errors, metrics_of.
  destruct (svc_fetch_financial_metrics svc symbol) as [e|m] eqn:He.
  - eexists _, _, dl, (S (length h)), cs.
    split; [by eapply fundamentals_agent_failure|]. rewrite beside_same, app_nil_r.
    split; [run_beside Hss Ht Hs|].
    split; [by read_key|]. intros k Hk. other_key Hk.
  - eexists _, _, (S (length h)), el, _.
    split; [by eapply fundamentals_agent_success|]. rewrite app_nil_r.
    split; [run_beside Hss Ht Hs|].
    split; [by read_key|]. intros k Hk. other_key Hk.
Qed.

Lemma analyst_agent_beside :
  ∃ h' st' dl' el' cs',
    analyst_agent svc state h = (inr (length h), h')
    ∧ beside h h' state st st' cl vl dl el dl' el' cs cs'
        ds (ds ++ analyst_sources svc symbol) es (es ++ analyst_errors svc symbol) vr
    ∧ st' !! "analyst_ratings" = Some (VRatings (analyst_of svc symbol).1)
    ∧ st' !! "earnings_data" = Some (VEarnings (analyst_of svc symbol).2)
    ∧ (∀ k, k ∉ analyst_keys → st' !! k = st !! k).
Proof.
  pose proof Hss as [_ _ _ _ Ht Hs]. pose proof beside_analysis as Ha.
  pose proof (stream_state_cells _ _ _ _ _ _ _ _ _ _ _ Hss)
    as (Hs_lt & Hcl_lt & Hvl_lt & Hdl_lt & Hel_lt & Hsc & Hvc & Hdc & Hec).
  pose proof Hss as [_ Hv Hvd (Hsv & Hcd & Hce & Hde) _ _].
  pose proof Ha as [Hst Hsy Hcl Hcs Hdsk Hdsl Hesk Hesl].
  unfold analyst_sources, analyst_errors, analyst_of.
  destruct (svc_fetch_analyst_ratings svc symbol) as [e|ratings] eqn:Hr;
    [|destruct (svc_fetch_earnings_data svc symbol) as [e|earnings] eqn:He].
  - eexists _, _, dl, (S (length h)), cs.
    split; [eapply analyst_agent_failure; [done|by left]|]. rewrite beside_same, app_nil_r.
    split; [run_beside Hss Ht Hs|].
    split; [by read_key|]. split; [by read_key|]. intros k Hk. other_key Hk.
  - eexists _, _, dl, (S (length h)), cs.
    split; [eapply analyst_agent_failure; [done|right; by eexists]|].
    rewrite beside_same, app_nil_r.
    split; [run_beside Hss Ht Hs|].
    split; [by read_key|]. split; [by read_key|]. intros k Hk. other_key Hk.
  - eexists _, _, (S (length h)), el, _.
    split; [by eapply analyst_agent_success|]. rewrite app_nil_r.
    split; [run_beside Hss Ht Hs|].
    split; [by read_key|]. split; [by read_key|]. intros k Hk. other_key Hk.
Qed.

Lemma sentiment_agent_beside :
  ∃ h' st' dl' el' cs',
    sentiment_agent svc state h = (inr (length h), h')
    ∧ beside h h' state st st' cl vl dl el dl' el' cs cs'
        ds (ds ++ sentiment_sources svc symbol) es (es ++ sentiment_errors svc symbol) vr
    ∧ st' !! "sentiment_items" = Some (VItems (sentiment_of svc symbol).1)
    ∧ st' !! "sentiment_summary" = Some (VSummary (sentiment_of svc symbol).2)
    ∧ (∀ k, k ∉ sentiment_keys → st' !! k = st !! k).
Proof.
  pose proof Hss as [_ _ _ _ Ht Hs]. pose proof beside_analysis as Ha.
  pose proof (stream_state_cells _ _ _ _ _ _ _ _ _ _ _ Hss)
    as (Hs_lt & Hcl_lt & Hvl_lt & Hdl_lt & Hel_lt & Hsc & Hvc & Hdc & Hec).
  pose proof Hss as [_ Hv Hvd (Hsv & Hcd & Hce & Hde) _ _].
  pose proof Ha as [Hst Hsy Hcl Hcs Hdsk Hdsl Hesk Hesl].
  unfold sentiment_sources, sentiment_errors, sentiment_of.
  destruct (svc_fetch_comprehensive_sentiment svc symbol) as [e|[items summary]] eqn:He.
  - eexists _, _, dl, (S (length h)), cs.
    split; [by eapply sentiment_agent_failure|]. rewrite beside_same, app_nil_r.
    split; [run_beside Hss Ht Hs|].
    split; [by read_key|]. split; [by read_key|]. intros k Hk. other_key Hk.
  - eexists _, _, (S (length h)), el, _.
    split; [by eapply sentiment_agent_success|]. rewrite app_nil_r.
    split; [run_beside Hss Ht Hs|].
    split; [by read_key|]. split; [by read_key|]. intros k Hk. other_key Hk.
Qed.

Lemma company_info_agent_beside :
  ∃ h' st' cs',
    company_info_agent svc state h = (inr (length h), h')
    ∧ beside h h' state st st' cl vl dl el dl el cs cs' ds ds es es vr
    ∧ st' !! "company_name"
      = Some (if svc_get_company_name svc symbol is inr company_name
              then of_option_str company_name else VNone)
    ∧ st' !! "company_status"
      = Some (VStr (if svc_get_company_name svc symbol is inr _ then "success" else "failed"))
    ∧ (∀ k, k ∉ company_keys → st' !! k = st !! k).
Proof.
  pose proof Hss as [_ _ _ _ Ht Hs]. pose proof beside_analysis as Ha.
  pose proof (stream_state_cells _ _ _ _ _ _ _ _ _ _ _ Hss)
    as (Hs_lt & Hcl_lt & Hvl_lt & Hdl_lt & Hel_lt & Hsc & Hvc & Hdc & Hec).
  pose proof Hss as [_ Hv Hvd (Hsv & Hcd & Hce & Hde) _ _].
  pose proof Ha as [Hst Hsy Hcl Hcs Hdsk Hdsl Hesk Hesl].
  destruct (svc_get_company_name svc symbol) as [e|company_name] eqn:He.
  - eexists _, _, cs.
    split; [by eapply company_info_agent_failure|]. rewrite beside_same.
    split; [run_beside Hss Ht Hs|].
    split; [by read_key|]. split; [by read_key|]. intros k Hk. other_key Hk.
  - eexists _, _, _.
    split; [by eapply company_info_agent_success|].
    split; [destruct company_name; run_beside Hss Ht Hs|].
    split; [by read_key|]. split; [by read_key|]. intros k Hk. other_key Hk.
Qed.
End Beside.

(** ** The merge of the five results *)

Lemma readable_list h l xs :
  h !! l = Some (OList xs) →
  readable h (Some (VRef l)) ∧ incoming h (Some (VRef l)) = xs.
Proof.
  intros Hl.
  assert (as_new_list (VRef l) h = (inr xs, h)) as Hrun.
  { unfold as_new_list. by rewrite (bind_ok _ _ _ _ _ (load_run _ _ _ Hl)). }
  split; [intros v [= <-]; by eexists|].
  unfold incoming. by rewrite Hrun.
Qed.

Lemma payload_typed_overwritten (fd rd fd' : gmap string value) :
  payload_typed fd → payload_typed rd →
  (∀ k, k ≠ "data_sources" → k ≠ "processing_errors" →
        fd' !! k = overwritten (rd !! k) (fd !! k)) →
  payload_typed fd'.
Proof.
  intros Hfd Hrd Hov. unfold payload_typed in *.
  destruct Hfd as (F1 & F2 & F3 & F4 & F5 & F6 & F7).
  destruct Hrd as (R1 & R2 & R3 & R4 & R5 & R6 & R7).
  assert (Hcase : ∀ k v, k ≠ "data_sources" → k ≠ "processing_errors" →
            fd' !! k = Some v → rd !! k = Some v ∨ fd !! k = Some v).
  { intros k v H1 H2. rewrite Hov by done. unfold overwritten.
    destruct (rd !! k) as [[]|]; auto. }
  repeat split; intros v Hv; apply Hcase in Hv as [Hv|Hv]; try discriminate; auto.
Qed.

(** One result merged into the accumulator. *)
Lemma merge_step final r h fd rd cl vl dl el cs ds es vr :
  merged h final fd →
  stream_state h r rd cl vl dl el cs ds es vr →
  ∃ h' fd',
    merge_result final (inr r) h = (inr (), h')
    ∧ merged h' final fd'
    ∧ extends final h h'
    ∧ list_at h' final "data_sources" = list_set (list_at h final "data_sources" ++ ds)
    ∧ list_at h' final "processing_errors" = list_at h final "processing_errors" ++ es
    ∧ (∀ k, k ≠ "data_sources" → k ≠ "processing_errors" →
            fd' !! k = overwritten (rd !! k) (fd !! k)).
Proof.
  intros [Hf Hds Hpe Hty] [(symbol & Ha) _ _ _ Htr _].
  destruct Ha as [Hr _ _ _ Hdk Hdl Hek Hel].
  destruct (readable_list _ _ _ Hdl) as [Hrd Hid].
  destruct (readable_list _ _ _ Hel) as [Hre Hie].
  destruct (merge_result_spec final r h fd rd Hf Hr Hds Hpe) as
    (h' & fd' & Hrun & Hf' & Hext & Hds' & Hpe' & Hsrc & Herr & Hov).
  { by rewrite Hdk. }
  { by rewrite Hek. }
  exists h', fd'. split; [done|]. split; [|split; [done|split; [|split; [|done]]]].
  - split; try done. by apply (payload_typed_overwritten fd rd fd').
  - rewrite Hsrc, Hdk. by rewrite Hid.
  - rewrite Herr, Hek. by rewrite Hie.
Qed.

(** ** The concurrent driver, run *)

Lemma gathered_run {A} (task : M A) h r h' :
  task h = (r, h') → gathered task h = (inr r, h').
Proof. intros H. unfold gathered. by rewrite H. Qed.

(** A state that the accumulator is not part of is left as it is by a
    step of the merge. *)
Lemma stream_state_merged final h h' s st cl vl dl el cs ds es vr :
  stream_state h s st cl vl dl el cs ds es vr →
  extends final h h' →
  (s < final)%nat → (cl < final)%nat → (vl < final)%nat →
  (dl < final)%nat → (el < final)%nat →
  stream_state h' s st cl vl dl el cs ds es vr.
Proof.
  intros Hss Hext Hs Hc Hv Hd He.
  eapply stream_state_extends; [exact Hss|exact Hext|lia..|].
  destruct Hss as [(symbol & Ha) _ _ _ _ _]. destruct Ha as [_ _ _ Hcs _ _ _ _].
  destruct Hext as [_ Hext]. rewrite Hext; [done|by eapply lookup_lt_Some|lia].
Qed.

(** The state an agent has returned, after later agents have run. *)
Lemma stream_state_later h h' s st cl vl dl el cs ds es vr s0 st0 dl0 el0 cs' ds0 es0 :
  stream_state h s st cl vl dl el cs ds es vr →
  extends cl h h' →
  stream_state h' s0 st0 cl vl dl0 el0 cs' ds0 es0 vr →
  stream_state h' s st cl vl dl el cs' ds es vr.
Proof.
  intros Hss Hext Hss'.
  destruct (stream_state_cells _ _ _ _ _ _ _ _ _ _ _ Hss)
    as (Hs & Hc & Hv & Hd & He & Hsc & Hvc & Hdc & Hec).
  eapply stream_state_extends; [exact Hss|exact Hext|congruence..|].
  destruct Hss' as [(symbol & Ha) _ _ _ _ _]. by destruct Ha.
Qed.

Lemma overwritten_kept (v : value) o : v ≠ VNone → overwritten (Some v) o = Some v.
Proof. by destruct v. Qed.

(** A key that an agent does not write. *)
Ltac not_written :=
  unfold price_keys, fundamentals_keys, analyst_keys, sentiment_keys, company_keys;
  repeat (apply not_elem_of_cons; split; [discriminate|]); apply not_elem_of_nil.

(** The whole of [orchestrating_agent] on the state [root_node] leaves:
    it does not raise, and the merged state holds what the services
    gave. *)
Lemma orchestrating_agent_run svc h state st symbol cl vl dl el cs vr :
  stream_state h state st cl vl dl el cs [] [] vr →
  st !! "symbol" = Some symbol →
  root_state st →
  ∃ final h' fd,
    orchestrating_agent svc state h = (inr final, h')
    ∧ merged h' final fd
    ∧ list_at h' final "processing_errors" = errors_of svc symbol
    ∧ NoDup (list_at h' final "data_sources")
    ∧ (∀ x, x ∈ list_at h' final "data_sources" ↔ x ∈ sources_of svc symbol)
    ∧ fd !! "price_data" = price_of svc symbol
    ∧ fd !! "financial_metrics" = Some (VMetrics (metrics_of svc symbol))
    ∧ fd !! "analyst_ratings" = Some (VRatings (analyst_of svc symbol).1)
    ∧ fd !! "earnings_data" = Some (VEarnings (analyst_of svc symbol).2)
    ∧ fd !! "sentiment_items" = Some (VItems (sentiment_of svc symbol).1)
    ∧ fd !! "sentiment_summary" = Some (VSummary (sentiment_of svc symbol).2)
    ∧ fd !! "company_name" = VStr <$> company_of svc symbol
    ∧ fd !! "company_status"
      = Some (VStr (if svc_get_company_name svc symbol is inr _ then "success" else "failed"))
    ∧ Forall (λ k, fd !! k = Some (VStr "pending"))
        ["price_status"; "fundamentals_status"; "analyst_status"; "sentiment_status"]
    ∧ fd !! "partial_data" = Some (VBool false).
Proof.
  intros Hss Hsym [Habsent Hpending Hpartial].
  destruct (price_agent_beside svc h state st symbol cl vl dl el cs [] [] vr Hss Hsym)
    as (h1 & rd1 & dl1 & el1 & cs1 & Hrun1 & [Hr1 Hg1 Hx1 Hl1] & Hp1 & Hk1).
  destruct (fundamentals_agent_beside svc h1 state st symbol cl vl dl el cs1 [] [] vr Hg1 Hsym)
    as (h2 & rd2 & dl2 & el2 & cs2 & Hrun2 & [Hr2 Hg2 Hx2 Hl2] & Hp2 & Hk2).
  destruct (analyst_agent_beside svc h2 state st symbol cl vl dl el cs2 [] [] vr Hg2 Hsym)
    as (h3 & rd3 & dl3 & el3 & cs3 & Hrun3 & [Hr3 Hg3 Hx3 Hl3] & Hp3 & He3 & Hk3).
  destruct (sentiment_agent_beside svc h3 state st symbol cl vl dl el cs3 [] [] vr Hg3 Hsym)
    as (h4 & rd4 & dl4 & el4 & cs4 & Hrun4 & [Hr4 Hg4 Hx4 Hl4] & Hp4 & Hs4 & Hk4).
  destruct (company_info_agent_beside svc h4 state st symbol cl vl dl el cs4 [] [] vr Hg4 Hsym)
    as (h5 & rd5 & cs5 & Hrun5 & [Hr5 Hg5 Hx5 Hl5] & Hn5 & Hst5 & Hk5).
  (* the five results in the heap the last agent leaves *)
  pose proof (extends_trans _ _ _ _ Hx4 Hx5) as Hx45.
  pose proof (extends_trans _ _ _ _ Hx3 Hx45) as Hx35.
  pose proof (extends_trans _ _ _ _ Hx2 Hx35) as Hx25.
  pose proof (stream_state_later _ _ _ _ _ _ _ _ _ _ _ _ _ _ _ _ _ _ _ Hr1 Hx25 Hg5) as Hr1'.
  pose proof (stream_state_later _ _ _ _ _ _ _ _ _ _ _ _ _ _ _ _ _ _ _ Hr2 Hx35 Hg5) as Hr2'.
  pose proof (stream_state_later _ _ _ _ _ _ _ _ _ _ _ _ _ _ _ _ _ _ _ Hr3 Hx45 Hg5) as Hr3'.
  pose proof (stream_state_later _ _ _ _ _ _ _ _ _ _ _ _ _ _ _ _ _ _ _ Hr4 Hx5 Hg5) as Hr4'.
  clear Hr1 Hr2 Hr3 Hr4.
  destruct (stream_state_cells _ _ _ _ _ _ _ _ _ _ _ Hg5)
    as (Hs_lt & Hcl_lt & Hvl_lt & Hdl_lt & Hel_lt & _).
  destruct (stream_state_cells _ _ _ _ _ _ _ _ _ _ _ Hr1') as (B1 & _ & _ & D1 & E1 & _).
  destruct (stream_state_cells _ _ _ _ _ _ _ _ _ _ _ Hr2') as (B2 & _ & _ & D2 & E2 & _).
  destruct (stream_state_cells _ _ _ _ _ _ _ _ _ _ _ Hr3') as (B3 & _ & _ & D3 & E3 & _).
  destruct (stream_state_cells _ _ _ _ _ _ _ _ _ _ _ Hr4') as (B4 & _ & _ & D4 & E4 & _).
  destruct (stream_state_cells _ _ _ _ _ _ _ _ _ _ _ Hr5) as (B5 & _ & _ & _).
  (* the accumulator *)
  pose proof Hg5 as [(symbol' & Ha5) _ _ _ Hty _].
  destruct Ha5 as [Hst5' _ _ _ Hdk5 Hdl5 Hek5 Hel5].
  set (final := length h5) in *.
  set (h6 := h5 ++ [ODict st]).
  assert (Hx6 : extends final h5 h6) by apply extends_appended.
  assert (Hmg0 : merged h6 final st).
  { split; [apply lookup_new0| | |done].
    - exists []. eapply get_list_items_run; [apply lookup_new0|done|by apply lookup_old].
    - exists []. eapply get_list_items_run; [apply lookup_new0|done|by apply lookup_old]. }
  assert (Hds0 : list_at h6 final "data_sources" = []).
  { apply list_at_run.
    eapply get_list_items_run; [apply lookup_new0|done|by apply lookup_old]. }
  assert (Hes0 : list_at h6 final "processing_errors" = []).
  { apply list_at_run.
    eapply get_list_items_run; [apply lookup_new0|done|by apply lookup_old]. }
  apply (stream_state_merged final _ h6) in Hr1', Hr2', Hr3', Hr4', Hr5; try done.
  destruct (merge_step final _ h6 st rd1 _ _ _ _ _ _ _ _ Hmg0 Hr1')
    as (h7 & fd1 & Hm1 & Hmg1 & Hx7 & Hds1 & Hes1 & Hov1).
  apply (stream_state_merged final _ h7) in Hr2', Hr3', Hr4', Hr5; try done.
  destruct (merge_step final _ h7 fd1 rd2 _ _ _ _ _ _ _ _ Hmg1 Hr2')
    as (h8 & fd2 & Hm2 & Hmg2 & Hx8 & Hds2 & Hes2 & Hov2).
  apply (stream_state_merged final _ h8) in Hr3', Hr4', Hr5; try done.
  destruct (merge_step final _ h8 fd2 rd3 _ _ _ _ _ _ _ _ Hmg2 Hr3')
    as (h9 & fd3 & Hm3 & Hmg3 & Hx9 & Hds3 & Hes3 & Hov3).
  apply (stream_state_merged final _ h9) in Hr4', Hr5; try done.
  destruct (merge_step final _ h9 fd3 rd4 _ _ _ _ _ _ _ _ Hmg3 Hr4')
    as (h10 & fd4 & Hm4 & Hmg4 & Hx10 & Hds4 & Hes4 & Hov4).
  apply (stream_state_merged final _ h10) in Hr5; try done.
  destruct (merge_step final _ h10 fd4 rd5 _ _ _ _ _ _ _ _ Hmg4 Hr5)
    as (h11 & fd5 & Hm5 & Hmg5 & Hx11 & Hds5 & Hes5 & Hov5).
  exists final, h11, fd5.
  assert (Hkey : ∀ k, k ≠ "data_sources" → k ≠ "processing_errors" →
            fd5 !! k
            = overwritten (rd5 !! k) (overwritten (rd4 !! k) (overwritten (rd3 !! k)
                (overwritten (rd2 !! k) (overwritten (rd1 !! k) (st !! k)))))).
  { intros k H1 H2. by rewrite Hov5, Hov4, Hov3, Hov2, Hov1. }
  unfold payload_absent, payload_names in Habsent.
  apply Forall_cons_1 in Habsent as [A1 Habsent].
  apply Forall_cons_1 in Habsent as [A2 Habsent].
  apply Forall_cons_1 in Habsent as [A3 Habsent].
  apply Forall_cons_1 in Habsent as [A4 Habsent].
  apply Forall_cons_1 in Habsent as [A5 Habsent].
  apply Forall_cons_1 in Habsent as [A6 Habsent].
  apply Forall_cons_1 in Habsent as [A7 _].
  apply Forall_cons_1 in Hpending as [P1 Hpending].
  apply Forall_cons_1 in Hpending as [P2 Hpending].
  apply Forall_cons_1 in Hpending as [P3 Hpending].
  apply Forall_cons_1 in Hpending as [P4 _].
  split.
  { unfold orchestrating_agent.
    erewrite bind_ok; [|eapply getitem_run; [by destruct Hss as [(? & []) _ _ _ _ _]|done]].
    rewrite (bind_ok _ _ _ _ _ (gathered_run _ _ _ _ Hrun1)).
    rewrite (bind_ok _ _ _ _ _ (gathered_run _ _ _ _ Hrun2)).
    rewrite (bind_ok _ _ _ _ _ (gathered_run _ _ _ _ Hrun3)).
    rewrite (bind_ok _ _ _ _ _ (gathered_run _ _ _ _ Hrun4)).
    rewrite (bind_ok _ _ _ _ _ (gathered_run _ _ _ _ Hrun5)).
    rewrite (bind_ok _ _ _ _ _ (dict_copy_run _ _ _ Hst5')).
    cbn [merge_results].
    erewrite bind_ok; [reflexivity|].
    rewrite (bind_ok _ _ _ _ _ Hm1), (bind_ok _ _ _ _ _ Hm2), (bind_ok _ _ _ _ _ Hm3),
      (bind_ok _ _ _ _ _ Hm4), (bind_ok _ _ _ _ _ Hm5). reflexivity. }
  split; [done|].
  split.
  { rewrite Hes5, Hes4, Hes3, Hes2, Hes1, Hes0. unfold errors_of. cbn [app].
    by rewrite app_nil_r, <- !app_assoc. }
  split; [rewrite Hds5; apply list_set_NoDup|].
  split.
  { intros x. rewrite Hds5, list_set_elem, elem_of_app, Hds4, list_set_elem, elem_of_app,
      Hds3, list_set_elem, elem_of_app, Hds2, list_set_elem, elem_of_app,
      Hds1, list_set_elem, Hds0.
    unfold sources_of. cbn [app]. rewrite !elem_of_app.
    split; [intros [[[[?|?]|?]|?]|H]; [auto..|by apply elem_of_nil in H]|].
    intros [?|[?|[?|?]]]; auto 10. }
  repeat split.
  - rewrite Hkey by discriminate.
    rewrite Hk5, Hk4, Hk3, Hk2 by not_written. rewrite Hp1, A1. cbn [overwritten].
    unfold price_of. by destruct (svc_fetch_current_price svc symbol).
  - rewrite Hkey by discriminate.
    rewrite Hk5, Hk4, Hk3 by not_written. by rewrite Hp2, A2.
  - rewrite Hkey by discriminate.
    rewrite Hk5, Hk4 by not_written. by rewrite Hp3, A3.
  - rewrite Hkey by discriminate.
    rewrite Hk5, Hk4 by not_written. by rewrite He3, A4.
  - rewrite Hkey by discriminate.
    rewrite Hk5 by not_written. by rewrite Hp4, A5.
  - rewrite Hkey by discriminate.
    rewrite Hk5 by not_written. by rewrite Hs4, A6.
  - rewrite Hkey by discriminate.
    rewrite Hk4, Hk3, Hk2, Hk1 by not_written. rewrite Hn5, A7.
    unfold company_of. by destruct (svc_get_company_name svc symbol) as [?|[?|]].
  - rewrite Hkey by discriminate. by rewrite Hst5.
  - repeat (apply Forall_cons_2;
            [rewrite Hkey by discriminate; rewrite Hk5 by not_written;
             first [by rewrite P1|by rewrite P2|by rewrite P3|by rewrite P4]|]).
    apply Forall_nil_2.
  - rewrite Hkey by discriminate. rewrite Hk5 by not_written. by rewrite Hpartial.
Qed.

(** ** The two drivers' request, after [root_node] *)

Lemma root_request_state (h : heap) (symbol : string) :
  let h0 := h ++ [ODict {["symbol" := VStr symbol]}] in
  ∃ h' st cl vl dl el,
    root_node (length h) h0 = (inr (length h0), h')
    ∧ stream_state h' (length h0) st cl vl dl el [] [] [] ∅
    ∧ st !! "symbol" = Some (VStr symbol)
    ∧ root_state st.
Proof.
  cbv zeta.
  set (req := {["symbol" := VStr symbol]} : gmap string value).
  assert (Hreq : (h ++ [ODict req]) !! length h = Some (ODict req)) by apply lookup_new0.
  destruct (root_node_stream_state (h ++ [ODict req]) (length h) req Hreq)
    as (h' & st & Hroot & Hss & _).
  { exists (VStr symbol). apply lookup_singleton_eq. }
  { unfold payload_typed, req. repeat split; intros v;
      rewrite lookup_singleton_ne by discriminate; intros Hv; discriminate Hv. }
  { unfold no_stray_keys, probed_keys, req.
    repeat (apply Forall_cons_2; [by rewrite lookup_singleton_ne|]). apply Forall_nil_2. }
  pose proof (root_node_run _ _ _ Hreq) as Hrun.
  rewrite Hroot in Hrun. injection Hrun as Hh'.
  assert (Hst : h' !! length (h ++ [ODict req]) = Some (ODict st)).
  { by destruct Hss as [(? & []) _ _ _ _ _]. }
  rewrite Hh', lookup_new0 in Hst. injection Hst as Hst.
  exists h', st. eexists _, _, _, _.
  split; [exact Hroot|]. split; [exact Hss|].
  rewrite <- Hst. unfold req.
  split; [by read_key|]. split.
  - unfold payload_absent, payload_names.
    repeat (apply Forall_cons_2; [by read_key|]). apply Forall_nil_2.
  - repeat (apply Forall_cons_2; [by read_key|]). apply Forall_nil_2.
  - by read_key.
Qed.

(** X17: the concurrent driver always answers.  Whatever the services
    do, [orchestrate] raises nothing (its handler and the formatter's
    no-data error are never reached) and returns a response for the
    uppercased symbol that holds what the services gave: the metrics, or
    the empty [FinancialMetrics] when their fetch failed; the price
    fields, or null with currency USD; ratings and earnings when both
    their fetches succeeded, and two empty lists otherwise; the
    sentiment found, or no items and the neutral summary; the company
    name, or the synthetic name "<symbol> Corporation" when the lookup
    failed or gave null; the distinct sources of the agents that
    succeeded. *)
Theorem orchestrate_always_responds (svc : Services) (req_symbol : string) (h : heap) :
  let symbol := of_pystr (upper (str req_symbol)) in
  ∃ r h',
    orchestrate svc req_symbol h = (inr r, h')
    ∧ r_symbol r = symbol
    ∧ r_financial_metrics r = metrics_of svc (VStr symbol)
    ∧ (r_price r, r_currency r, r_change r, r_change_percent r, r_volume r)
      = price_fields (price_of svc (VStr symbol))
    ∧ r_analyst_ratings r = (analyst_of svc (VStr symbol)).1
    ∧ r_earnings_data r = (analyst_of svc (VStr symbol)).2
    ∧ r_sentiment_items r = (sentiment_of svc (VStr symbol)).1
    ∧ r_sentiment_summary r = (sentiment_of svc (VStr symbol)).2
    ∧ r_company_name r
      = Some (default (symbol +:+ " Corporation") (company_of svc (VStr symbol)))
    ∧ r_consensus_rating r = None
    ∧ NoDup (r_data_sources r)
    ∧ ∀ x, x ∈ r_data_sources r ↔ x ∈ sources_of svc (VStr symbol).
Proof.
  cbv zeta. set (symbol := of_pystr (upper (str req_symbol))).
  destruct (root_request_state h symbol) as (h0 & st & cl & vl & dl & el & Hroot & Hss & Hsym & Hrs).
  destruct (orchestrating_agent_run svc _ _ _ _ _ _ _ _ _ _ Hss Hsym Hrs)
    as (final & h1 & fd & Hrun & Hmg & _ & _ & Hsrc & Hpd & Hfm & Har & Hed & Hsi & Hsu
        & Hcn & _).
  destruct (format_response_merged symbol _ _ _ _ Hmg Hfm)
    as (r & Hr & R1 & R2 & R3 & R4 & R5 & R6 & R7 & R8 & R9 & R10).
  exists r, h1. split.
  { unfold orchestrate. fold symbol. apply try_ok.
    rewrite (bind_ok _ _ _ _ _ (alloc_run _ _)).
    rewrite (bind_ok _ _ _ _ _ Hroot).
    by rewrite (bind_ok _ _ _ _ _ Hrun). }
  split; [done|]. split; [done|].
  split; [by rewrite R4, Hpd|].
  split; [by rewrite R5, Har|]. split; [by rewrite R6, Hed|].
  split; [by rewrite R7, Hsi|]. split; [by rewrite R8, Hsu|].
  split; [rewrite R3, Hcn; by destruct (company_of _ _)|].
  split; [done|]. rewrite R10. split; [apply list_set_NoDup|].
  intros x. by rewrite list_set_elem.
Qed.


(** ** The formatter and the data it needs *)



